(** * Printer fleet manager: billing arithmetic, review workflow and
    token-authenticated ingestion, verified over a shallow embedding.

    The development follows the Python sources:
    - [Reading]   models/printer_reading.py (usage per printer and period)
    - [Review]    models/printer_billing_review*.py (review counters, lines,
                  invoice generation and the review's state machine)
    - [Prices]    models/partner_counter_price.py
    - [Wizard]    wizards/printer_billing_wizard.py
    - [Api]       controllers/printer_api.py (token check and sync endpoints)

    Integers of the ORM are [Z]; timestamps are seconds on the datetime
    axis; recordsets are lists in the order the ORM hands them out; Python
    exceptions are values of [exn] carried by [result]. *)

From stdpp Require Import base decidable option list sorting strings gmap.
From Stdlib Require Import ZArith Lia Ascii.

Local Open Scope Z_scope.

(** ** Python exceptions and fallible computations *)

Inductive exn :=
  | UserError (msg : string)
  | ValidationError (msg : string)
  | ValueError (msg : string)
  | AttributeError (msg : string)
  | TypeError (msg : string)
  | DatabaseError (msg : string).

Inductive result (A : Type) :=
  | Ok (a : A)
  | Raise (e : exn).
Arguments Ok {A} a.
Arguments Raise {A} e.

Definition rbind {A B} (m : result A) (k : A → result B) : result B :=
  match m with
  | Ok a => k a
  | Raise e => Raise e
  end.

Notation "x ←r m ; k" := (rbind m (λ x, k))
  (at level 100, m at next level, right associativity,
   format "x  ←r  m ;  '/' k").

(** [for x in xs: acc.append(f x)], stopping at the first exception. *)
Fixpoint rmap {A B} (f : A → result B) (xs : list A) : result (list B) :=
  match xs with
  | [] => Ok []
  | x :: xs' =>
      y ←r f x;
      ys ←r rmap f xs';
      Ok (y :: ys)
  end.

(** [not xs] on a recordset or a list. *)
Definition is_empty {A} (xs : list A) : bool :=
  match xs with
  | [] => true
  | _ :: _ => false
  end.

(** ** Python dicts with string keys, in insertion order *)

(** [if k not in d: d[k] = init] followed by [d[k] = f(d[k])]. *)
Fixpoint dict_update {V} (k : string) (init : V) (f : V → V)
    (d : list (string * V)) : list (string * V) :=
  match d with
  | [] => [(k, f init)]
  | (k', v) :: d' =>
      if decide (k' = k) then (k', f v) :: d'
      else (k', v) :: dict_update k init f d'
  end.

(** [d.get(k)]. *)
Fixpoint dict_get {V} (k : string) (d : list (string * V)) : option V :=
  match d with
  | [] => None
  | (k', v) :: d' => if decide (k' = k) then Some v else dict_get k d'
  end.

(** * models/printer_reading.py *)

Module Reading.

(** A [counter.type] row (models/counter_type.py): [code] is an optional
    Char, False when unset. *)
Record counter_type := CounterType {
  ct_id : Z;
  ct_oid : string;
  ct_code : option string;
  ct_name : string;
}.

(** A [printer.reading.counter] row; the related fields [oid] and
    [counter_code] are read through [counter_type_id]. *)
Record reading_counter := ReadingCounter {
  counter_type_id : counter_type;
  value : Z;
}.

Definition oid (c : reading_counter) : string := ct_oid (counter_type_id c).
Definition counter_code (c : reading_counter) : option string :=
  ct_code (counter_type_id c).

(** A [printer.reading] row with its One2many [counter_ids] and its
    billing marks. *)
Record reading := MkReading {
  reading_id : Z;
  printer_id : Z;
  timestamp : Z;
  counter_ids : list reading_counter;
  is_billed : bool;
  invoice_id : option Z;
  billed_date : option Z;
}.

(** A reading as the sync endpoint stores it: not billed yet. *)
Definition unbilled_reading (id pid ts : Z) (cs : list reading_counter)
  : reading :=
  MkReading id pid ts cs false None None.

(** A [printer.device] row, as far as billing reads it: [location_name]
    is [printer.location_id.name], absent when there is no location. *)
Record printer := Printer {
  p_id : Z;
  p_partner_id : Z;
  p_name : string;
  p_location_name : option string;
}.

(** The tables the usage calculation searches. *)
Record env := Env {
  printers : list printer;
  readings : list reading;
}.

#[global] Instance counter_type_eq_dec : EqDecision counter_type.
Proof. solve_decision. Defined.
#[global] Instance reading_counter_eq_dec : EqDecision reading_counter.
Proof. solve_decision. Defined.
#[global] Instance reading_eq_dec : EqDecision reading.
Proof. solve_decision. Defined.
#[global] Instance printer_eq_dec : EqDecision printer.
Proof. solve_decision. Defined.

(** [date_to] arrives either as a [date] (a day number) or as a
    [datetime]. *)
Inductive date_arg :=
  | ADate (day : Z)
  | ADatetime (t : Z).

Definition seconds_per_day : Z := 86400.

(** Lines 220-224: the end of the final day.
    [date_to.replace(hour=23, minute=59, second=59)] for a datetime,
    [datetime.combine(date_to, datetime.max.time())] for a date. *)
Definition date_to_end (date_to : date_arg) : Z :=
  match date_to with
  | ADatetime t => t - t `mod` seconds_per_day + 86399
  | ADate d => d * seconds_per_day + 86399
  end.

(** [get_counter_value]: the counters of the reading whose OID or code
    equals the argument; [counter.value] on several records is the ORM's
    singleton error. *)
Definition get_counter_value (r : reading) (oid_or_code : string) : result Z :=
  match filter (λ c, oid c = oid_or_code ∨ counter_code c = Some oid_or_code)
               (counter_ids r) with
  | [] => Ok 0
  | [c] => Ok (value c)
  | _ :: _ :: _ => Raise (ValueError "Expected singleton")
  end.

(** [order='timestamp'] and [order='timestamp desc']. *)
Definition by_timestamp (a b : reading) : Prop := timestamp a ≤ timestamp b.
Definition by_timestamp_desc (a b : reading) : Prop := timestamp b ≤ timestamp a.

#[global] Instance by_timestamp_dec a b : Decision (by_timestamp a b).
Proof. unfold by_timestamp. apply _. Defined.
#[global] Instance by_timestamp_desc_dec a b : Decision (by_timestamp_desc a b).
Proof. unfold by_timestamp_desc. apply _. Defined.

(** Lines 230-234: the readings of one printer inside the period. *)
Definition search_in_period (e : env) (pid date_from date_to_end : Z)
  : list reading :=
  merge_sort by_timestamp
    (filter (λ r, printer_id r = pid ∧ date_from ≤ timestamp r
                  ∧ timestamp r ≤ date_to_end) (readings e)).

(** Lines 276-279: the latest reading before the period, [limit=1]. *)
Definition search_previous (e : env) (pid date_from : Z) : option reading :=
  head (merge_sort by_timestamp_desc
          (filter (λ r, printer_id r = pid ∧ timestamp r < date_from)
                  (readings e))).

(** Recordsets are sets of ids kept in first-occurrence order. *)
Fixpoint uniq_by_id (seen : list Z) (ts : list counter_type)
  : list counter_type :=
  match ts with
  | [] => []
  | t :: ts' =>
      if decide (ct_id t ∈ seen) then uniq_by_id seen ts'
      else t :: uniq_by_id (ct_id t :: seen) ts'
  end.

(** [reading.counter_ids.mapped('counter_type_id')]. *)
Definition mapped_counter_type (r : reading) : list counter_type :=
  uniq_by_id [] (counter_type_id <$> counter_ids r).

(** [a | b] on recordsets. *)
Definition recordset_union (a b : list counter_type) : list counter_type :=
  uniq_by_id [] (a ++ b).

(** Lines 245-247. *)
Definition counter_types_in_period (rs : list reading) : list counter_type :=
  foldl (λ acc r, recordset_union acc (mapped_counter_type r)) [] rs.

(** One entry of [counters_data] (lines 292-301); the keys
    [counter_type_id], [oid], [code] and [name] are read off
    [counter_type]. *)
Record counter_usage := CounterUsage {
  cu_counter_type : counter_type;
  counter_start : Z;
  counter_end : Z;
  total_pages : Z;
}.

(** One entry of [usage_by_printer] (lines 310-315); [printer_name] is
    [p_name] of [pu_printer]. *)
Record printer_usage := PrinterUsage {
  pu_printer : printer;
  pu_location : string;
  counters : list counter_usage;
}.

(** Body of the loop over counter types (lines 256-301): [None] is the
    [continue] of line 269. *)
Definition usage_of_counter_type (e : env) (p : printer) (date_from : Z)
    (readings_in_period : list reading) (counter_type : counter_type)
  : result (option counter_usage) :=
  let readings_with_counter :=
    filter (λ r, ct_id counter_type ∈ (ct_id <$> mapped_counter_type r))
           readings_in_period in
  match last readings_with_counter with
  | None => Ok None
  | Some last_reading =>
      last_value ←r get_counter_value last_reading (ct_oid counter_type);
      first_value ←r
        match search_previous e (p_id p) date_from with
        | Some previous_reading =>
            get_counter_value previous_reading (ct_oid counter_type)
        | None => Ok 0
        end;
      Ok (Some {| cu_counter_type := counter_type;
                  counter_start := first_value;
                  counter_end := last_value;
                  total_pages := Z.max 0 (last_value - first_value) |})
  end.

(** Body of the loop over printers (lines 228-315): [None] when the
    printer is skipped. *)
Definition usage_of_printer (e : env) (date_from date_to_end : Z) (p : printer)
  : result (option printer_usage) :=
  let readings_in_period := search_in_period e (p_id p) date_from date_to_end in
  if is_empty readings_in_period then Ok None
  else
    let counter_types := counter_types_in_period readings_in_period in
    if is_empty counter_types then Ok None
    else
      found ←r rmap (usage_of_counter_type e p date_from readings_in_period)
                    counter_types;
      let counters_data := omap id found in
      if is_empty counters_data then Ok None
      else Ok (Some {| pu_printer := p;
                       pu_location := default "Sin ubicación"
                                              (p_location_name p);
                       counters := counters_data |}).

(** [calculate_usage_by_printer(partner_id, date_from, date_to)]. *)
Definition calculate_usage_by_printer (e : env) (partner_id : Z)
    (date_from : Z) (date_to : date_arg) : result (list printer_usage) :=
  let printers := filter (λ p, p_partner_id p = partner_id) (printers e) in
  let date_to_end := date_to_end date_to in
  usage ←r rmap (usage_of_printer e date_from date_to_end) printers;
  Ok (omap id usage).

End Reading.


(** ** Vocabulary for stating what the usage calculation returns *)

Module ReadingSpec.
Import Reading.

(** Every counter row of every reading. *)
Definition all_counters (e : env) : list reading_counter :=
  readings e ≫= counter_ids.

(** Two counter rows refer to the counter.type table consistently. The
    first two parts are what the database guarantees: one row per id, and
    [UNIQUE(oid)] of counter.type. The third part is declared by no
    model: [code] is a free Char, and nothing keeps the code of one type
    from being the OID of another. [get_counter_value] accepts an OID or
    a code, so the usage of a period is stated for databases in which
    this does not happen. *)
Definition types_agree (c c' : reading_counter) : Prop :=
  (ct_id (counter_type_id c) = ct_id (counter_type_id c') →
   counter_type_id c = counter_type_id c') ∧
  (oid c = oid c' → counter_type_id c = counter_type_id c') ∧
  (counter_code c = Some (oid c') → counter_type_id c = counter_type_id c').

(** The constraints the models declare: one counter.type row per id,
    [UNIQUE(oid)] of counter.type, and one counter per type in a reading
    ([UNIQUE(reading_id, counter_type_id)] of printer.reading.counter). *)
Definition declared_constraints (e : env) : Prop :=
  Forall (λ c, Forall (λ c',
            (ct_id (counter_type_id c) = ct_id (counter_type_id c') →
             counter_type_id c = counter_type_id c') ∧
            (oid c = oid c' → counter_type_id c = counter_type_id c'))
          (all_counters e)) (all_counters e) ∧
  Forall (λ r, NoDup (ct_id ∘ counter_type_id <$> counter_ids r)) (readings e).

(** The assumption that no model declares: no counter type has a code
    that is the OID of another type. *)
Definition codes_apart (e : env) : Prop :=
  Forall (λ c, Forall (λ c',
            counter_code c = Some (oid c') →
            counter_type_id c = counter_type_id c')
          (all_counters e)) (all_counters e).

(** Both together. *)
Definition wf_env (e : env) : Prop :=
  Forall (λ c, Forall (types_agree c) (all_counters e)) (all_counters e) ∧
  Forall (λ r, NoDup (ct_id ∘ counter_type_id <$> counter_ids r)) (readings e).

#[global] Instance declared_constraints_dec e : Decision (declared_constraints e).
Proof. unfold declared_constraints. apply _. Defined.
#[global] Instance codes_apart_dec e : Decision (codes_apart e).
Proof. unfold codes_apart. apply _. Defined.
#[global] Instance wf_env_dec e : Decision (wf_env e).
Proof. unfold wf_env, types_agree. apply _. Defined.

(** *** Where the period ends *)

(** The day, counted like the Date fields, on which an instant falls. *)
Definition day_of (t : Z) : Z := t `div` seconds_per_day.

(** The day on which [date_to] falls. *)
Definition last_day (date_to : date_arg) : Z :=
  match date_to with
  | ADate d => d
  | ADatetime t => day_of t
  end.

(** The period as the code has it: a timestamp is not after the period
    when it falls on the day of [date_to] or on an earlier day. *)
Definition through_day_of (date_to : date_arg) (t : Z) : Prop :=
  day_of t ≤ last_day date_to.

(** The period as the words [date_from, date_to] have it, for a
    datetime [date_to]: a timestamp is not after the period when it is
    not after [date_to]. *)
Definition not_after (date_to : Z) (t : Z) : Prop := t ≤ date_to.

#[global] Instance through_day_of_dec date_to t :
  Decision (through_day_of date_to t).
Proof. unfold through_day_of. apply _. Defined.
#[global] Instance not_after_dec date_to t : Decision (not_after date_to t).
Proof. unfold not_after. apply _. Defined.

(** In what follows [upto] says which timestamps are not after the end
    of the period. *)

(** The reading belongs to printer [p] and lies in the period. *)
Definition in_period (upto : Z → Prop) (e : env) (p : printer)
    (date_from : Z) (r : reading) : Prop :=
  r ∈ readings e ∧ printer_id r = p_id p ∧
  date_from ≤ timestamp r ∧ upto (timestamp r).

(** The reading carries a counter of the type with id [t]. *)
Definition carries (t : Z) (r : reading) : Prop :=
  ∃ c, c ∈ counter_ids r ∧ ct_id (counter_type_id c) = t.

(** [v] is the counter value of reading [r] for type [t]: the value of
    its counter of that type, and 0 when it carries none. *)
Definition reads (r : reading) (t : Z) (v : Z) : Prop :=
  (∃ c, c ∈ counter_ids r ∧ ct_id (counter_type_id c) = t ∧ value c = v) ∨
  ((∀ c, c ∈ counter_ids r → ct_id (counter_type_id c) ≠ t) ∧ v = 0).

(** [r] is a last reading of the period that carries type [t]. *)
Definition last_carrying (upto : Z → Prop) (e : env) (p : printer)
    (date_from : Z) (t : Z) (r : reading) : Prop :=
  in_period upto e p date_from r ∧ carries t r ∧
  ∀ r', in_period upto e p date_from r' → carries t r' →
        timestamp r' ≤ timestamp r.

(** [r] is a latest reading of printer [p] strictly before [date_from]. *)
Definition latest_before (e : env) (p : printer) (date_from : Z)
    (r : reading) : Prop :=
  r ∈ readings e ∧ printer_id r = p_id p ∧ timestamp r < date_from ∧
  ∀ r', r' ∈ readings e → printer_id r' = p_id p →
        timestamp r' < date_from → timestamp r' ≤ timestamp r.

Definition no_reading_before (e : env) (p : printer) (date_from : Z) : Prop :=
  ∀ r, r ∈ readings e → printer_id r = p_id p → ¬ timestamp r < date_from.

(** What the entry [k] of printer [p] must say. *)
Definition counter_usage_ok (upto : Z → Prop) (e : env) (p : printer)
    (date_from : Z) (k : counter_usage) : Prop :=
  let t := ct_id (cu_counter_type k) in
  total_pages k = Z.max 0 (counter_end k - counter_start k) ∧
  (∃ r, last_carrying upto e p date_from t r ∧ reads r t (counter_end k)) ∧
  ((∃ r, latest_before e p date_from r ∧ reads r t (counter_start k)) ∨
   (no_reading_before e p date_from ∧ counter_start k = 0)).

(** Printer [p] has a reading in the period that carries a counter. *)
Definition has_counters_in_period (upto : Z → Prop) (e : env)
    (date_from : Z) (p : printer) : Prop :=
  Exists (λ r, printer_id r = p_id p ∧ date_from ≤ timestamp r ∧
               upto (timestamp r) ∧ counter_ids r ≠ [])
         (readings e).

#[global] Instance has_counters_in_period_dec upto
    `{!∀ t, Decision (upto t)} e df p :
  Decision (has_counters_in_period upto e df p).
Proof. unfold has_counters_in_period. apply _. Defined.

(** What the entry [u] must say: one counter entry per counter type that
    the printer's readings of the period carry, each one right. *)
Definition printer_usage_ok (upto : Z → Prop) (e : env) (date_from : Z)
    (u : printer_usage) : Prop :=
  let ids := ct_id ∘ cu_counter_type <$> counters u in
  NoDup ids ∧
  (∀ t, t ∈ ids ↔
        ∃ r, in_period upto e (pu_printer u) date_from r ∧ carries t r) ∧
  Forall (counter_usage_ok upto e (pu_printer u) date_from) (counters u).

(** What is said of [calculate_usage_by_printer] for one call, with the
    end of the period given by [upto]: the call returns; the result has
    one entry, in the order of the printer search, for each printer of
    the partner that has in the period a reading carrying a counter, and
    none for any other printer; every entry is right. *)
Definition usage_claim (upto : Z → Prop) `{!∀ t, Decision (upto t)}
    (e : env) (partner_id date_from : Z) (date_to : date_arg) : Prop :=
  ∃ usage,
    calculate_usage_by_printer e partner_id date_from date_to = Ok usage ∧
    pu_printer <$> usage =
      filter (λ p, p_partner_id p = partner_id ∧
                   has_counters_in_period upto e date_from p)
             (printers e) ∧
    Forall (printer_usage_ok upto e date_from) usage.

(** The initial counter as the docstring of [calculate_usage_by_printer]
    documents it (lines 196-204), for the readings of the period in
    timestamp order: case 2, several readings, takes the first reading
    of the period; cases 1 and 3, a single reading, take the latest
    earlier reading, or 0 when there is none. *)
Definition documented_counter_start (e : env) (p : printer) (date_from : Z)
    (readings_in_period : list reading) (counter_type : counter_type)
  : result Z :=
  match readings_in_period with
  | first_reading :: _ :: _ =>
      get_counter_value first_reading (ct_oid counter_type)
  | _ =>
      match search_previous e (p_id p) date_from with
      | Some previous_reading =>
          get_counter_value previous_reading (ct_oid counter_type)
      | None => Ok 0
      end
  end.

End ReadingSpec.

(** * models/partner_counter_price.py *)

(** Float and Monetary amounts are carried as exact numbers of a
    fixed-point unit, in [Z]; the rounding of floats is not modelled. *)

Module Prices.

(** A [partner.counter.price] row. *)
Record partner_counter_price := PartnerCounterPrice {
  partner_id : Z;
  counter_type_id : Z;
  unit_price : Z;
}.

(** [UNIQUE(partner_id, counter_type_id)]. *)
Definition partner_counter_unique (prices : list partner_counter_price)
  : Prop :=
  NoDup ((λ pr, (partner_id pr, counter_type_id pr)) <$> prices).

(** A price is configured for the pair. *)
Definition priced (prices : list partner_counter_price)
    (partner counter_type : Z) : Prop :=
  Exists (λ pr, partner_id pr = partner ∧ counter_type_id pr = counter_type)
         prices.

#[global] Instance priced_dec prices partner counter_type :
  Decision (priced prices partner counter_type).
Proof. unfold priced. apply _. Defined.

(** [get_price_for_partner_counter]: [search(..., limit=1)] keeps the
    first matching row. *)
Definition get_price_for_partner_counter (prices : list partner_counter_price)
    (partner counter_type : Z) : Z :=
  match head (filter (λ pr, partner_id pr = partner ∧
                            counter_type_id pr = counter_type) prices) with
  | Some price_record => unit_price price_record
  | None => 0
  end.

End Prices.

(** [sum(...)] over integers. *)
Definition Zsum (xs : list Z) : Z := foldr Z.add 0 xs.

(** * models/printer_billing_review_counter.py *)

Module ReviewCounter.

(** A [printer.billing.review.counter] row. *)
Record counter := Counter {
  counter_type_id : Reading.counter_type;
  counter_start : Z;
  counter_end : Z;
  unit_price : Z;
}.

Definition counter_name (c : counter) : string :=
  Reading.ct_name (counter_type_id c).

(** [_compute_totals]: the two stored computed fields. *)
Definition total_pages (c : counter) : Z :=
  Z.max 0 (counter_end c - counter_start c).
Definition subtotal (c : counter) : Z := total_pages c * unit_price c.

(** [_check_counters_valid], the constraint on [counter_start] and
    [counter_end]. *)
Definition _check_counters_valid (c : counter) : result unit :=
  if decide (counter_start c < 0) then
    Raise (ValidationError "El contador inicial no puede ser negativo")
  else if decide (counter_end c < 0) then
    Raise (ValidationError "El contador final no puede ser negativo")
  else if decide (counter_end c < counter_start c) then
    Raise (ValidationError
             "El contador final no puede ser menor que el inicial")
  else Ok ().

(** [create(vals)] and [write(vals)]: the ORM stores the row once its
    constraint passes. *)
Definition create (vals : counter) : result counter :=
  _ ←r _check_counters_valid vals;
  Ok vals.

Definition write (c : counter) (new_start new_end : Z) : result counter :=
  create {| counter_type_id := counter_type_id c;
            counter_start := new_start;
            counter_end := new_end;
            unit_price := unit_price c |}.

End ReviewCounter.

(** * models/printer_billing_review_line.py *)

Module ReviewLine.

(** A [printer.billing.review.line] row with its counters. *)
Record line := Line {
  printer_id : Reading.printer;
  counter_line_ids : list ReviewCounter.counter;
  include_in_invoice : bool;
  notes : option string;
}.

(** Related fields. *)
Definition printer_name (l : line) : string := Reading.p_name (printer_id l).
Definition location_name (l : line) : option string :=
  Reading.p_location_name (printer_id l).

(** [_compute_totals]. *)
Definition total_pages (l : line) : Z :=
  Zsum (ReviewCounter.total_pages <$> counter_line_ids l).
Definition estimated_amount (l : line) : Z :=
  if include_in_invoice l then
    Zsum (ReviewCounter.subtotal <$> counter_line_ids l)
  else 0.

(** The loop "Crear nuevas líneas con contadores dinámicos" that the
    wizard (lines 159-181) and [action_recalculate_all] (lines 432-454)
    both run over the usage data. *)
Definition create_lines (prices : list Prices.partner_counter_price)
    (partner : Z) (usage_data : list Reading.printer_usage)
  : result (list line) :=
  rmap (λ printer_data,
          cs ←r rmap (λ counter_data,
                   let unit_price :=
                     Prices.get_price_for_partner_counter prices partner
                       (Reading.ct_id (Reading.cu_counter_type counter_data)) in
                   ReviewCounter.create
                     {| ReviewCounter.counter_type_id :=
                          Reading.cu_counter_type counter_data;
                        ReviewCounter.counter_start :=
                          Reading.counter_start counter_data;
                        ReviewCounter.counter_end :=
                          Reading.counter_end counter_data;
                        ReviewCounter.unit_price := unit_price |})
                (Reading.counters printer_data);
          Ok {| printer_id := Reading.pu_printer printer_data;
                counter_line_ids := cs;
                include_in_invoice := true;
                notes := None |})
       usage_data.

(** The counter carries the price configured for its type. *)
Definition priced_by (prices : list Prices.partner_counter_price)
    (partner : Z) (c : ReviewCounter.counter) : Prop :=
  ReviewCounter.unit_price c =
    Prices.get_price_for_partner_counter prices partner
      (Reading.ct_id (ReviewCounter.counter_type_id c)).

End ReviewLine.

(** * models/printer_billing_review.py *)

Module Review.
Import ReviewLine.

Inductive review_state := draft | confirmed | invoiced | cancelled.

#[global] Instance review_state_eq_dec : EqDecision review_state.
Proof. solve_decision. Defined.

(** A [printer.billing.review] row; the Date fields are day numbers. *)
Record review := MkReview {
  name : string;
  state : review_state;
  partner_id : Z;
  date_from : Z;
  date_to : Z;
  group_by_location : bool;
  only_not_billed : bool;
  line_ids : list line;
  invoice_id : option Z;
  confirmed_by : option Z;
  confirmed_date : option Z;
  invoiced_date : option Z;
}.

(** [_compute_totals]. *)
Definition included_lines (r : review) : list line :=
  filter (λ l, include_in_invoice l = true) (line_ids r).
Definition total_printers (r : review) : Z :=
  Z.of_nat (length (included_lines r)).
Definition total_pages_all (r : review) : Z :=
  Zsum (total_pages <$> included_lines r).
Definition total_amount (r : review) : Z :=
  Zsum (estimated_amount <$> included_lines r).

(** The invoice texts are templates over these data; their rendering to
    a string is left out. *)
Inductive description :=
  | LocationService (location_name : string) (period_from period_to : Z)
      (counter_pages : list (string * Z)) (printers : list string)
      (review_name : string)
  | PrinterService (printer_name location_name : string)
      (period_from period_to : Z)
      (counter_ranges : list (string * (Z * Z * Z))) (total : Z)
      (review_name : string) (notes : option string).

(** The values of one [(0, 0, {...})] command of [invoice_line_ids]. *)
Record invoice_line := InvoiceLine {
  il_name : description;
  quantity : Z;
  price_unit : Z;
}.

(** An [account.move] row as this module creates it. *)
Record account_move := AccountMove {
  move_id : Z;
  move_partner_id : Z;
  move_type : string;
  invoice_date : Z;
  invoice_line_ids : list invoice_line;
}.

(** The value of [by_location[location_name]] (lines 296-300); an entry
    of ['counters'] is the pair of ['pages'] and ['amount']. *)
Record location_data := LocationData {
  ld_counters : list (string * (Z * Z));
  ld_total_amount : Z;
  ld_printers : list string;
}.

Definition sin_ubicacion : string := "Sin ubicación".

(** [line.location_name or 'Sin ubicación']. *)
Definition location_key (l : line) : string :=
  match location_name l with
  | Some s => if decide (s = "") then sin_ubicacion else s
  | None => sin_ubicacion
  end.

(** Lines 303-314: one line added to its location's entry. *)
Definition add_line (l : line) (data : location_data) : location_data :=
  {| ld_counters :=
       foldl (λ cs c,
                dict_update (ReviewCounter.counter_name c) (0, 0)
                  (λ '(pages, amount),
                     (pages + ReviewCounter.total_pages c,
                      amount + ReviewCounter.subtotal c)) cs)
             (ld_counters data) (counter_line_ids l);
     ld_total_amount := ld_total_amount data + estimated_amount l;
     ld_printers := ld_printers data ++ [printer_name l] |}.

(** Lines 293-314: the body of the loop over [lines_to_bill]. *)
Definition group_step (by_location : list (string * location_data))
    (l : line) : list (string * location_data) :=
  dict_update (location_key l) (LocationData [] 0 []) (add_line l) by_location.

(** Lines 292-314. *)
Definition group_lines (lines_to_bill : list line)
  : list (string * location_data) :=
  foldl group_step [] lines_to_bill.

(** [by_location[k]['total_amount']], 0 while [k] has no entry. *)
Definition amount_at (k : string) (d : list (string * location_data)) : Z :=
  from_option ld_total_amount 0 (dict_get k d).

(** The sum of the ['total_amount'] of all entries. *)
Definition total_of (d : list (string * location_data)) : Z :=
  Zsum (ld_total_amount ∘ snd <$> d).

(** Lines 317-334. *)
Definition location_invoice_lines (self : review)
    (by_location : list (string * location_data)) : list invoice_line :=
  (λ '(location_name, data),
     {| il_name := LocationService location_name (date_from self)
                     (date_to self)
                     ((λ '(counter_name, (pages, _)), (counter_name, pages))
                        <$> ld_counters data)
                     (ld_printers data) (name self);
        quantity := 1;
        price_unit := ld_total_amount data |}) <$> by_location.

(** Lines 338-360. *)
Definition printer_invoice_lines (self : review) (lines_to_bill : list line)
  : list invoice_line :=
  (λ l,
     {| il_name := PrinterService (printer_name l) (location_key l)
                     (date_from self) (date_to self)
                     ((λ c, (ReviewCounter.counter_name c,
                             (ReviewCounter.counter_start c,
                              ReviewCounter.counter_end c,
                              ReviewCounter.total_pages c)))
                        <$> counter_line_ids l)
                     (total_pages l) (name self) (notes l);
        quantity := 1;
        price_unit := estimated_amount l |}) <$> lines_to_bill.

(** The location an invoice line is made out for. *)
Definition invoice_location (il : invoice_line) : string :=
  match il_name il with
  | LocationService location_name _ _ _ _ _ => location_name
  | PrinterService _ location_name _ _ _ _ _ _ => location_name
  end.

(** The database a review acts on: itself, the invoices, the readings
    and printers, and the price list. *)
Record world := World {
  self : review;
  moves : list account_move;
  env : Reading.env;
  prices : list Prices.partner_counter_price;
}.

Definition next_move_id (ms : list account_move) : Z :=
  1 + foldr Z.max 0 (move_id <$> ms).

(** The stored related field [printer.reading.partner_id]. *)
Definition reading_partner_id (e : Reading.env) (r : Reading.reading)
  : option Z :=
  Reading.p_partner_id <$>
    head (filter (λ p, Reading.p_id p = Reading.printer_id r)
                 (Reading.printers e)).

(** Lines 366-377. [date_from] and [date_to] are Date values compared
    with the Datetime column [timestamp]: the ORM of the manifest's
    version, Odoo 17, takes the first instant of the day for [>=] and
    the last instant of the day for [<=], so that the whole day of
    [date_to] is searched. *)
Definition mark_readings (e : Reading.env) (partner from_day to_day : Z)
    (invoice : Z) (now : Z) : Reading.env :=
  {| Reading.printers := Reading.printers e;
     Reading.readings :=
       (λ r,
          if decide (reading_partner_id e r = Some partner ∧
                     from_day * Reading.seconds_per_day ≤ Reading.timestamp r ∧
                     Reading.timestamp r
                       ≤ to_day * Reading.seconds_per_day + 86399 ∧
                     Reading.is_billed r = false)
          then Reading.MkReading (Reading.reading_id r) (Reading.printer_id r)
                 (Reading.timestamp r) (Reading.counter_ids r)
                 true (Some invoice) (Some now)
          else r) <$> Reading.readings e |}.

Definition set_lines (r : review) (ls : list line) : review :=
  MkReview (name r) (state r) (partner_id r) (date_from r) (date_to r)
    (group_by_location r) (only_not_billed r) ls (invoice_id r)
    (confirmed_by r) (confirmed_date r) (invoiced_date r).

Definition set_state (r : review) (s : review_state) : review :=
  MkReview (name r) s (partner_id r) (date_from r) (date_to r)
    (group_by_location r) (only_not_billed r) (line_ids r) (invoice_id r)
    (confirmed_by r) (confirmed_date r) (invoiced_date r).

(** [action_confirm]. *)
Definition action_confirm (now uid : Z) (w : world) : result world :=
  if is_empty (line_ids (self w)) then
    Raise (UserError "Debe tener al menos una impresora en la revisión")
  else
    let r := self w in
    Ok (World
          (MkReview (name r) confirmed (partner_id r) (date_from r)
             (date_to r) (group_by_location r) (only_not_billed r)
             (line_ids r) (invoice_id r) (Some uid) (Some now)
             (invoiced_date r))
          (moves w) (env w) (prices w)).

(** [action_generate_invoice]; [now] is the clock of the request. *)
Definition action_generate_invoice (now : Z) (w : world) : result world :=
  let r := self w in
  if decide (state r = invoiced) then
    Raise (UserError "Esta revisión ya tiene una factura generada")
  else
    let lines_to_bill :=
      filter (λ l, include_in_invoice l = true ∧ 0 < total_pages l)
             (line_ids r) in
    if is_empty lines_to_bill then
      Raise (UserError "No hay impresoras con páginas para facturar")
    else
      let lines :=
        if group_by_location r then
          location_invoice_lines r (group_lines lines_to_bill)
        else printer_invoice_lines r lines_to_bill in
      let invoice :=
        {| move_id := next_move_id (moves w);
           move_partner_id := partner_id r;
           move_type := "out_invoice";
           invoice_date := now `div` Reading.seconds_per_day;
           invoice_line_ids := lines |} in
      let env' :=
        if only_not_billed r then
          mark_readings (env w) (partner_id r) (date_from r) (date_to r)
                        (move_id invoice) now
        else env w in
      Ok (World
            (MkReview (name r) invoiced (partner_id r) (date_from r)
               (date_to r) (group_by_location r) (only_not_billed r)
               (line_ids r) (Some (move_id invoice)) (confirmed_by r)
               (confirmed_date r) (Some now))
            (moves w ++ [invoice]) env' (prices w)).

(** [action_recalculate_all]: [fields.Datetime.to_datetime] of a date is
    its midnight. *)
Definition action_recalculate_all (w : world) : result world :=
  let r := self w in
  if decide (state r ≠ draft) then
    Raise (UserError "Solo se pueden recalcular revisiones en borrador")
  else
    usage_data ←r
      Reading.calculate_usage_by_printer (env w) (partner_id r)
        (date_from r * Reading.seconds_per_day)
        (Reading.ADatetime (date_to r * Reading.seconds_per_day));
    ls ←r create_lines (prices w) (partner_id r) usage_data;
    Ok (World (set_lines r ls) (moves w) (env w) (prices w)).

(** [action_cancel]. *)
Definition action_cancel (w : world) : result world :=
  if decide (state (self w) = invoiced) then
    Raise (UserError
      "No se puede cancelar una revisión que ya tiene factura generada")
  else Ok (World (set_state (self w) cancelled) (moves w) (env w) (prices w)).

(** [action_set_to_draft]. *)
Definition action_set_to_draft (w : world) : result world :=
  match invoice_id (self w) with
  | Some _ =>
      Raise (UserError
        "No se puede volver a borrador una revisión con factura")
  | None => Ok (World (set_state (self w) draft) (moves w) (env w) (prices w))
  end.

(** The buttons of the review form. *)
Inductive action :=
  | Confirm
  | GenerateInvoice
  | RecalculateAll
  | Cancel
  | SetToDraft.

Definition run (now uid : Z) (a : action) (w : world) : result world :=
  match a with
  | Confirm => action_confirm now uid w
  | GenerateInvoice => action_generate_invoice now w
  | RecalculateAll => action_recalculate_all w
  | Cancel => action_cancel w
  | SetToDraft => action_set_to_draft w
  end.

(** A call that raises is rolled back with its transaction. *)
Definition step (now uid : Z) (w : world) (a : action) : world :=
  match run now uid a w with
  | Ok w' => w'
  | Raise _ => w
  end.

(** The invoices made out for a review by its calls so far are the
    moves of the world, since no other call creates one. *)
Definition run_all (now uid : Z) (w : world) (actions : list action) : world :=
  foldl (step now uid) w actions.

End Review.

(** ** Vocabulary for stating what an invoice by location holds *)

Module ReviewSpec.
Import ReviewLine.

(** The review line is at the location called [name]: its printer's
    location has that name; the lines of printers without a location,
    or with a location without a name, are at 'Sin ubicación'. *)
Definition at_location (name : string) (l : line) : Prop :=
  match location_name l with
  | Some s => (s ≠ "" ∧ name = s) ∨ (s = "" ∧ name = "Sin ubicación")
  | None => name = "Sin ubicación"
  end.

#[global] Instance at_location_dec name l : Decision (at_location name l).
Proof. unfold at_location. destruct (location_name l); apply _. Defined.

End ReviewSpec.

(** * wizards/printer_billing_wizard.py *)

Module Wizard.

(** The fields of a [printer.billing.wizard] that the action reads;
    [partner_id] is [None] while no customer is chosen. *)
Record wizard := MkWizard {
  partner_id : option Z;
  date_from : Z;
  date_to : Z;
  group_by_location : bool;
  only_not_billed : bool;
}.

(** [action_generate_invoice]: builds the draft review; [review_name] is
    what the sequence of [printer.billing.review] hands out. *)
Definition action_generate_invoice (e : Reading.env)
    (prices : list Prices.partner_counter_price) (review_name : string)
    (wz : wizard) : result Review.review :=
  match partner_id wz with
  | None => Raise (UserError "Debe seleccionar un cliente")
  | Some partner =>
      usage_data ←r
        Reading.calculate_usage_by_printer e partner
          (date_from wz * Reading.seconds_per_day)
          (Reading.ADatetime (date_to wz * Reading.seconds_per_day));
      if is_empty usage_data then
        Raise (UserError "No hay datos de uso para el período seleccionado")
      else
        ls ←r ReviewLine.create_lines prices partner usage_data;
        Ok (Review.MkReview review_name Review.draft partner (date_from wz)
              (date_to wz) (group_by_location wz) (only_not_billed wz) ls
              None None None None)
  end.

End Wizard.

(** * controllers/printer_api.py *)

Module Api.

(** ** Python values of a parsed JSON body *)

(** Numbers are integers here; fractional JSON numbers are not modelled. *)
#[local] Unset Elimination Schemes.
Inductive json :=
  | JNull
  | JBool (b : bool)
  | JNum (n : Z)
  | JStr (s : string)
  | JArr (items : list json)
  | JObj (fields : list (string * json)).
#[local] Set Elimination Schemes.

(** [bool(v)]. *)
Definition truthy (v : json) : bool :=
  match v with
  | JNull => false
  | JBool b => b
  | JNum n => bool_decide (n ≠ 0)
  | JStr s => bool_decide (s ≠ "")
  | JArr items => negb (is_empty items)
  | JObj fields => negb (is_empty fields)
  end.

(** [v.get(k, default)]: only a dict has [get]. *)
Definition py_get_default (k : string) (dflt : json) (v : json) : result json :=
  match v with
  | JObj fields => Ok (default dflt (dict_get k fields))
  | _ => Raise (AttributeError "object has no attribute 'get'")
  end.

(** [v.get(k)]. *)
Definition py_get (k : string) (v : json) : result json :=
  py_get_default k JNull v.

(** [k in v]; the endpoints ask it of items on which [get] has already
    succeeded, that is of dicts. *)
Definition py_in (k : string) (v : json) : result bool :=
  match v with
  | JObj fields => Ok (bool_decide (is_Some (dict_get k fields)))
  | _ => Raise (TypeError "argument is not a dict")
  end.

(** [v] is a dict. *)
Definition is_object (v : json) : Prop :=
  match v with
  | JObj _ => True
  | _ => False
  end.

(** [v is None]. *)
Definition is_none (v : json) : bool :=
  match v with
  | JNull => true
  | _ => false
  end.

Fixpoint string_chars (s : string) : list string :=
  match s with
  | EmptyString => []
  | String c s' => String c EmptyString :: string_chars s'
  end.

(** [for x in v]: the items of a list, the keys of a dict, the characters
    of a string; anything else is not iterable. *)
Definition py_iter (v : json) : result (list json) :=
  match v with
  | JArr items => Ok items
  | JObj fields => Ok (JStr <$> fields.*1)
  | JStr s => Ok (JStr <$> string_chars s)
  | _ => Raise (TypeError "object is not iterable")
  end.

(** [len(v)]. *)
Definition py_len (v : json) : result Z :=
  match v with
  | JArr items => Ok (Z.of_nat (length items))
  | JObj fields => Ok (Z.of_nat (length fields))
  | JStr s => Ok (Z.of_nat (String.length s))
  | _ => Raise (TypeError "object has no len()")
  end.

(** ** Rows, tables and searches *)

(** The value of a column; [VNull] is the ORM's False. Datetimes are
    seconds. *)
Inductive value :=
  | VNull
  | VBool (b : bool)
  | VInt (n : Z)
  | VStr (s : string).

#[global] Instance value_eq_dec : EqDecision value.
Proof. solve_decision. Defined.

(** A row maps column names to values, a table maps ids to rows, the
    database maps model names to tables. *)
Abbreviation row := (gmap string value).
Abbreviation database := (gmap string (gmap Z (gmap string value))).

Definition table (d : database) (model : string) : gmap Z row :=
  default ∅ (d !! model).

(** The records of a model, each with its id. *)
Definition records (d : database) (model : string) : list (Z * row) :=
  map_to_list (table d model).

Definition field (f : string) (r : Z * row) : value :=
  if decide (f = "id") then VInt r.1 else default VNull (r.2 !! f).

(** [bool(record.field)]. *)
Definition value_truthy (v : value) : bool :=
  match v with
  | VNull => false
  | VBool b => b
  | VInt n => bool_decide (n ≠ 0)
  | VStr s => bool_decide (s ≠ "")
  end.

(** The value of an Integer or Float column, 0 when unset. *)
Definition number (v : value) : Z :=
  match v with
  | VInt n => n
  | _ => 0
  end.

Inductive operator := op_eq | op_ge.

(** One term [(field, operator, value)] of a search domain. *)
Definition term_holds (t : string * operator * value) (r : Z * row) : Prop :=
  match t with
  | (f, op_eq, v) => field f r = v
  | (f, op_ge, v) =>
      match field f r, v with
      | VInt a, VInt b => b ≤ a
      | _, _ => False
      end
  end.

#[global] Instance term_holds_dec t r : Decision (term_holds t r).
Proof.
  destruct t as [[f []] v]; simpl; [apply _|].
  destruct (field f r), v; apply _.
Defined.

(** [env[model].search(domain)]; the order among several matches is
    that of the table. *)
Definition search (d : database) (model : string)
    (domain : list (string * operator * value)) : list (Z * row) :=
  filter (λ r, Forall (λ t, term_holds t r) domain) (records d model).

(** The id of the next row: one past the largest id in use. *)
Definition next_id (t : gmap Z row) : Z :=
  1 + foldr Z.max 0 (map_to_list t).*1.

(** A value handed to the database: lists and dicts cannot be stored in,
    or compared with, a column. *)
Definition to_value (v : json) : result value :=
  match v with
  | JNull => Ok VNull
  | JBool b => Ok (VBool b)
  | JNum n => Ok (VInt n)
  | JStr s => Ok (VStr s)
  | JArr _ | JObj _ => Raise (DatabaseError "can't adapt type")
  end.

(** The dict of values of a [create] or [write], as a row. *)
Fixpoint to_row (values : list (string * json)) : result row :=
  match values with
  | [] => Ok ∅
  | (k, v) :: values' =>
      x ←r to_value v;
      r ←r to_row values';
      Ok (<[k := x]> r)
  end.

(** ** What the platform supplies *)

(** The ORM's verdict on a row about to be created or written: field
    conversion, SQL constraints and [@api.constrains] methods. A rejected
    row is [stored] when the check runs after the INSERT or UPDATE, whose
    effect then stays in the transaction. *)
Inductive verdict :=
  | Accept
  | Reject (stored : bool) (e : exn).

Record platform := Platform {
  validate : string → database → Z → row → verdict;
  now : Z;
  fromisoformat : string → option Z;
  from_string : string → option Z;
  int_of_str : string → option Z;
}.

(** ** State of a sync request *)

(** An entry of the [errors] list: a complaint about an item, or the
    message built by the [except] clause of the loop,
    [f"Error procesando {what} {key}: {str(e)}"]. *)
Inductive error_entry :=
  | Complaint (text : string) (item : option json)
  | Failure (what : string) (key : json) (e : exn).

Record sync_state := SyncState {
  db : database;
  created : Z;
  updated : Z;
  skipped : Z;
  duplicates : Z;
  errors : list error_entry;
}.

Definition start (d : database) : sync_state := SyncState d 0 0 0 0 [].

(** Computations that read and write the request state and may raise;
    what was written before an exception stays written. *)
Definition M (A : Type) : Type := sync_state → sync_state * result A.

Definition ret {A} (a : A) : M A := λ s, (s, Ok a).
Definition lift {A} (r : result A) : M A := λ s, (s, r).
Definition bind {A B} (m : M A) (k : A → M B) : M B :=
  λ s, match m s with
       | (s', Ok a) => k a s'
       | (s', Raise e) => (s', Raise e)
       end.

Notation "x ←m m ; k" := (bind m (λ x, k))
  (at level 100, m at next level, right associativity,
   format "x  ←m  m ;  '/' k").

(** [try: body except Exception as e: handler(e)]. *)
Definition try_except {A} (body : M A) (handler : exn → M A) : M A :=
  λ s, match body s with
       | (s', Ok a) => (s', Ok a)
       | (s', Raise e) => handler e s'
       end.

(** [for x in xs: body(x)]. *)
Fixpoint for_each {A} (body : A → M unit) (xs : list A) : M unit :=
  match xs with
  | [] => ret ()
  | x :: xs' => _ ←m body x; for_each body xs'
  end.

Definition set_db (s : sync_state) (d : database) : sync_state :=
  SyncState d (created s) (updated s) (skipped s) (duplicates s) (errors s).

Definition incr_created : M unit :=
  λ s, (SyncState (db s) (created s + 1) (updated s) (skipped s)
          (duplicates s) (errors s), Ok ()).
Definition incr_updated : M unit :=
  λ s, (SyncState (db s) (created s) (updated s + 1) (skipped s)
          (duplicates s) (errors s), Ok ()).
Definition incr_skipped : M unit :=
  λ s, (SyncState (db s) (created s) (updated s) (skipped s + 1)
          (duplicates s) (errors s), Ok ()).
Definition incr_duplicates : M unit :=
  λ s, (SyncState (db s) (created s) (updated s) (skipped s)
          (duplicates s + 1) (errors s), Ok ()).
(** [errors.append(entry)]. *)
Definition append_error (entry : error_entry) : M unit :=
  λ s, (SyncState (db s) (created s) (updated s) (skipped s)
          (duplicates s) (errors s ++ [entry]), Ok ()).

Section with_platform.
Context (pf : platform).

(** [env[model].search(domain, limit=1)], with the values as the payload
    gave them. *)
Definition search_one (model : string)
    (domain : list (string * operator * json)) : M (option (Z * row)) :=
  λ s,
    match rmap (λ '(f, o, v), x ←r to_value v; Ok (f, o, x)) domain with
    | Ok dom => (s, Ok (head (search (db s) model dom)))
    | Raise e => (s, Raise e)
    end.

(** [env[model].create(values)]: the new id. *)
Definition orm_create (model : string) (values : list (string * json))
  : M Z :=
  λ s,
    match to_row values with
    | Raise e => (s, Raise e)
    | Ok r =>
        let id := next_id (table (db s) model) in
        let stored := set_db s (<[model := <[id := r]> (table (db s) model)]>
                                  (db s)) in
        match validate pf model (db s) id r with
        | Accept => (stored, Ok id)
        | Reject true e => (stored, Raise e)
        | Reject false e => (s, Raise e)
        end
    end.

(** [record.write(values)] on the row [id]. *)
Definition orm_write (model : string) (id : Z)
    (values : list (string * json)) : M unit :=
  λ s,
    match to_row values with
    | Raise e => (s, Raise e)
    | Ok r =>
        match table (db s) model !! id with
        | None => (s, Ok ())
        | Some old =>
            let r' := r ∪ old in
            let stored :=
              set_db s (<[model := <[id := r']> (table (db s) model)]>
                          (db s)) in
            match validate pf model (db s) id r' with
            | Accept => (stored, Ok ())
            | Reject true e => (stored, Raise e)
            | Reject false e => (s, Raise e)
            end
        end
    end.

(** ** Helpers of the controller *)

Fixpoint contains_char (c : ascii) (s : string) : bool :=
  match s with
  | EmptyString => false
  | String c' s' => if decide (c' = c) then true else contains_char c s'
  end.

(** [s.split(c)[0]]. *)
Fixpoint before_char (c : ascii) (s : string) : string :=
  match s with
  | EmptyString => EmptyString
  | String c' s' =>
      if decide (c' = c) then EmptyString else String c' (before_char c s')
  end.

(** [s.replace(a, b)] for single characters. *)
Fixpoint replace_char (a b : ascii) (s : string) : string :=
  match s with
  | EmptyString => EmptyString
  | String c' s' =>
      String (if decide (c' = a) then b else c') (replace_char a b s')
  end.

(** [parse_timestamp]: every failure inside the [try] falls back to the
    current time, and so does whatever is not a string, on which
    ['T' in timestamp_str] or the parsers raise. *)
Definition parse_timestamp (timestamp_str : json) : Z :=
  if negb (truthy timestamp_str) then now pf
  else
    match timestamp_str with
    | JStr s =>
        if contains_char "T"%char s then
          let s' := if contains_char "."%char s then before_char "."%char s else s in
          default (now pf) (fromisoformat pf s')
        else default (now pf) (from_string pf s)
    | _ => now pf
    end.

Definition severity_map : list (string * string) :=
  [("info", "low"); ("warning", "medium"); ("error", "high");
   ("critical", "critical"); ("low", "low"); ("medium", "medium");
   ("high", "high")].

(** [normalize_severity]: [severity_map.get(severity_str, 'medium')];
    a list or a dict is unhashable, any other value is a key the map
    does not have. *)
Definition normalize_severity (severity_str : json) : result string :=
  match severity_str with
  | JStr s => Ok (default "medium" (dict_get s severity_map))
  | JArr _ | JObj _ => Raise (TypeError "unhashable type")
  | _ => Ok "medium"
  end.

(** [int(value) if value else 0]. *)
Definition int_or_zero (v : json) : result Z :=
  if negb (truthy v) then Ok 0
  else
    match v with
    | JNum n => Ok n
    | JBool b => Ok (if b then 1 else 0)
    | JStr s =>
        match int_of_str pf s with
        | Some n => Ok n
        | None => Raise (ValueError "invalid literal for int()")
        end
    | _ => Raise (TypeError "int() argument must be a string or a number")
    end.

(** ** Requests and responses *)

(** The header [X-Location-Token] and the body, [None] when it is not
    JSON. *)
Record request := Request {
  token_header : option string;
  body : option json;
}.

(** The dict a sync endpoint returns: ['status'], the other keys, the
    ['errors'] key when it is set, ['message'] of the outer handler. *)
Record response := Response {
  status : string;
  info : list (string * json);
  response_errors : option (list error_entry);
  message : option exn;
}.

(** What the route hands back: a [Response] with an HTTP status made by
    the decorator, or the dict of the endpoint. *)
Inductive http_result :=
  | HttpResponse (status_code : Z) (error : string)
  | Handled (r : response).

(** [json.loads(request.httprequest.data)]. *)
Definition json_loads (b : option json) : result json :=
  match b with
  | Some v => Ok v
  | None => Raise (ValueError "Expecting value")
  end.

(** [update_token_usage] of models/printer_location.py. *)
Definition update_token_usage (location : Z * row) : M unit :=
  orm_write "printer.location" location.1
    [("token_last_used", JNum (now pf));
     ("token_requests_count",
      JNum (number (field "token_requests_count" location) + 1))].

(** [validate_location_token(func)]: the wrapper. *)
Definition validate_location_token
    (func : Z * row → request → M response) (req : request)
  : M http_result :=
  match token_header req with
  | None => ret (HttpResponse 401 "Location Token requerido")
  | Some location_token =>
      if bool_decide (location_token = "") then
        ret (HttpResponse 401 "Location Token requerido")
      else
        found ←m search_one "printer.location"
                   [("access_token", op_eq, JStr location_token);
                    ("is_active", op_eq, JBool true)];
        match found with
        | None => ret (HttpResponse 403 "Token inválido o inactivo")
        | Some location =>
            if negb (value_truthy (field "token_active" location)) then
              ret (HttpResponse 403 "Token desactivado")
            else
              _ ←m update_token_usage location;
              r ←m func location req;
              ret (Handled r)
        end
  end.

(** The [except Exception as e] of an endpoint:
    [{'status': 'error', 'message': str(e)}]. *)
Definition outer_except (m : M response) : M response :=
  try_except m (λ e, ret (Response "error" [] None (Some e))).

(** Lines 277-291 and their likes: ['success'], turned into
    ['partial_success'] with the ['errors'] key when there are errors. *)
Definition make_response (info : list (string * json))
    (errors : list error_entry) : response :=
  if is_empty errors then Response "success" info None None
  else Response "partial_success" info (Some errors) None.

(** [location.name] and [location.partner_id.name]. *)
Definition json_of_value (v : value) : json :=
  match v with
  | VNull => JBool false
  | VBool b => JBool b
  | VInt n => JNum n
  | VStr s => JStr s
  end.

Definition location_name (location : Z * row) : json :=
  json_of_value (field "name" location).

Definition partner_name (d : database) (location : Z * row) : json :=
  match head (search d "res.partner"
                [("id", op_eq, field "partner_id" location)]) with
  | Some partner => json_of_value (field "name" partner)
  | None => JBool false
  end.

Definition get_state : M sync_state := λ s, (s, Ok s).

(** A loop that threads an accumulator. *)
Fixpoint fold_each {A B} (body : B → A → M B) (b : B) (xs : list A) : M B :=
  match xs with
  | [] => ret b
  | x :: xs' => b' ←m body b x; fold_each body b' xs'
  end.

(** [d[k] = v]. *)
Definition dict_set {V} (k : string) (v : V) (d : list (string * V))
  : list (string * V) :=
  dict_update k v (λ _, v) d.

(** ** sync_printers *)

(** [_prepare_printer_values(data, location)]. *)
Definition _prepare_printer_values (data : json) (location : Z * row)
  : result (list (string * json)) :=
  ip_address ←r py_get "ip_address" data;
  mac_address ←r py_get "mac_address" data;
  serial_number ←r py_get "serial_number" data;
  model ←r py_get "model" data;
  manufacturer ←r py_get "manufacturer" data;
  hostname ←r py_get "hostname" data;
  location_text ←r py_get "location" data;
  department ←r py_get "department" data;
  status ←r py_get_default "status" (JStr "unknown") data;
  is_active ←r py_get_default "is_active" (JBool true) data;
  community_string ←r py_get_default "community_string" (JStr "public") data;
  snmp_version ←r py_get_default "snmp_version" (JStr "2c") data;
  last_seen ←r py_get "last_seen" data;
  let values :=
    [("location_id", JNum location.1);
     ("ip_address", ip_address);
     ("mac_address", mac_address);
     ("serial_number", serial_number);
     ("model", model);
     ("manufacturer", manufacturer);
     ("hostname", hostname);
     ("location", location_text);
     ("department", department);
     ("status", status);
     ("is_active", is_active);
     ("community_string", community_string);
     ("snmp_version", snmp_version);
     ("last_seen", if truthy last_seen then last_seen else JNum (now pf));
     ("last_sync", JNum (now pf));
     ("sync_status", JStr "synced")] in
  Ok (filter (λ kv, is_none kv.2 = false) values).

(** Lines 212-263: the [try] body for one item of ['printers']. *)
Definition sync_printers_item (location : Z * row) (printer_data : json)
  : M unit :=
  ip_address ←m lift (py_get "ip_address" printer_data);
  mac_address ←m lift (py_get "mac_address" printer_data);
  serial_number ←m lift (py_get "serial_number" printer_data);
  if negb (truthy ip_address) then
    append_error (Complaint "Impresora sin IP address" (Some printer_data))
  else
    by_mac ←m
      (if truthy mac_address then
         search_one "printer.device"
           [("location_id", op_eq, JNum location.1);
            ("mac_address", op_eq, mac_address)]
       else ret None);
    by_serial ←m
      (if bool_decide (by_mac = None) && truthy serial_number then
         search_one "printer.device"
           [("location_id", op_eq, JNum location.1);
            ("serial_number", op_eq, serial_number)]
       else ret by_mac);
    printer ←m
      (if bool_decide (by_serial = None) then
         search_one "printer.device"
           [("location_id", op_eq, JNum location.1);
            ("ip_address", op_eq, ip_address)]
       else ret by_serial);
    values ←m lift (_prepare_printer_values printer_data location);
    match printer with
    | Some printer =>
        _ ←m orm_write "printer.device" printer.1 values;
        incr_updated
    | None =>
        _ ←m orm_create "printer.device" values;
        incr_created
    end.

(** Lines 265-269: the [except] clause of the loop. *)
Definition sync_printers_except (printer_data : json) (e : exn) : M unit :=
  key ←m lift (py_get_default "ip_address" (JStr "unknown") printer_data);
  append_error (Failure "impresora" key e).

(** One turn of the loop of lines 210-269. *)
Definition sync_printers_step (location : Z * row) (printer_data : json)
  : M unit :=
  try_except (sync_printers_item location printer_data)
             (sync_printers_except printer_data).

(** Lines 200-291: the body of the outer [try]. *)
Definition sync_printers_try (location : Z * row) (req : request)
  : M response :=
  data ←m lift (json_loads (body req));
  printers_data ←m lift (py_get_default "printers" (JArr []) data);
  items ←m lift (py_iter printers_data);
  _ ←m for_each (sync_printers_step location) items;
  s ←m get_state;
  _ ←m orm_write "printer.location" location.1
         [("last_sync", JNum (now pf));
          ("sync_status",
           JStr (if is_empty (errors s) then "success" else "error"))];
  total ←m lift (py_len printers_data);
  ret (make_response
         [("location", location_name location);
          ("partner", partner_name (db s) location);
          ("created", JNum (created s));
          ("updated", JNum (updated s));
          ("total", JNum total);
          ("processed", JNum (created s + updated s))]
         (errors s)).

Definition sync_printers (location : Z * row) (req : request) : M response :=
  outer_except (sync_printers_try location req).

(** ** sync_readings *)

Definition LEGACY_COUNTER_MAP : list (string * (string * string)) :=
  [("total_pages", ("total", "Total de Páginas"));
   ("mono_pages", ("mono", "Páginas Monocromáticas"));
   ("color_pages", ("color", "Páginas a Color"));
   ("total_simplex", ("simplex", "Total Simplex"));
   ("total_duplex", ("duplex", "Total Duplex"));
   ("total_scans", ("scans", "Total Escaneos"));
   ("total_copies", ("copies", "Total Copias"))].

(** Lines 393-416: one entry of the legacy map. The accumulator is
    [has_legacy_counters] with [counters_to_create]; a key that is present
    with a value other than [None] is one whose [get] is not [None]. *)
Definition legacy_counter (reading : Z) (reading_data : json)
    (acc : bool * list (list (string * json)))
    (entry : string * (string * string))
  : M (bool * list (list (string * json))) :=
  let '(field_name, (code, name)) := entry in
  value ←m lift (py_get field_name reading_data);
  if is_none value then ret acc
  else
    found ←m search_one "counter.type" [("code", op_eq, JStr code)];
    counter_type ←m
      match found with
      | Some counter_type => ret counter_type.1
      | None =>
          orm_create "counter.type"
            [("name", JStr name); ("code", JStr code);
             ("oid", JStr ("legacy." +:+ code)); ("active", JBool true)]
      end;
    n ←m lift (int_or_zero value);
    ret (true, acc.2 ++ [[("reading_id", JNum reading);
                          ("counter_type_id", JNum counter_type);
                          ("value", JNum n)]]).

(** Lines 420-445: one item of ['counters']. *)
Definition oid_counter (reading : Z)
    (counters_to_create : list (list (string * json))) (counter_data : json)
  : M (list (list (string * json))) :=
  oid ←m lift (py_get "oid" counter_data);
  value ←m lift (py_get_default "value" (JNum 0) counter_data);
  if negb (truthy oid) then ret counters_to_create
  else
    found ←m search_one "counter.type" [("oid", op_eq, oid)];
    counter_type ←m
      match found with
      | Some counter_type => ret counter_type.1
      | None =>
          match oid with
          | JStr o =>
              orm_create "counter.type"
                [("name", JStr ("Contador " +:+ o));
                 ("code", JStr ("auto_" +:+ replace_char "." "_" o));
                 ("oid", oid); ("active", JBool true)]
          | _ => lift (Raise (AttributeError
                                "object has no attribute 'replace'"))
          end
      end;
    n ←m lift (int_or_zero value);
    ret (counters_to_create ++ [[("reading_id", JNum reading);
                                 ("counter_type_id", JNum counter_type);
                                 ("value", JNum n)]]).

(** Lines 360-457: the [try] body for one item of ['readings']. *)
Definition sync_readings_item (location : Z * row) (reading_data : json)
  : M unit :=
  printer_ip ←m lift (py_get "printer_ip" reading_data);
  if negb (truthy printer_ip) then
    _ ←m append_error (Complaint "Lectura sin printer_ip" None);
    incr_skipped
  else
    found ←m search_one "printer.device"
               [("location_id", op_eq, JNum location.1);
                ("ip_address", op_eq, printer_ip)];
    match found with
    | None => incr_skipped
    | Some printer =>
        timestamp ←m lift (py_get "timestamp" reading_data);
        status ←m lift (py_get_default "status" (JStr "unknown") reading_data);
        let reading_values :=
          [("printer_id", JNum printer.1);
           ("timestamp", JNum (parse_timestamp timestamp));
           ("status", status)] in
        reading ←m orm_create "printer.reading" reading_values;
        legacy ←m fold_each (legacy_counter reading reading_data) (false, [])
                            LEGACY_COUNTER_MAP;
        has_counters ←m lift (py_in "counters" reading_data);
        counters_to_create ←m
          (if has_counters && negb legacy.1 then
             counters ←m lift (py_get_default "counters" (JArr [])
                                              reading_data);
             items ←m lift (py_iter counters);
             fold_each (oid_counter reading) legacy.2 items
           else ret legacy.2);
        _ ←m for_each (λ values,
                         _ ←m orm_create "printer.reading.counter" values;
                         ret ())
                      counters_to_create;
        _ ←m incr_created;
        orm_write "printer.device" printer.1
          [("last_reading", JNum (parse_timestamp timestamp));
           ("status", status)]
    end.

(** Lines 459-463. *)
Definition sync_readings_except (reading_data : json) (e : exn) : M unit :=
  key ←m lift (py_get_default "printer_ip" (JStr "unknown") reading_data);
  append_error (Failure "lectura" key e).

(** One turn of the loop of lines 357-463. *)
Definition sync_readings_step (location : Z * row) (reading_data : json)
  : M unit :=
  try_except (sync_readings_item location reading_data)
             (sync_readings_except reading_data).

(** Lines 337-477. *)
Definition sync_readings_try (location : Z * row) (req : request)
  : M response :=
  data ←m lift (json_loads (body req));
  readings_data ←m lift (py_get_default "readings" (JArr []) data);
  items ←m lift (py_iter readings_data);
  _ ←m for_each (sync_readings_step location) items;
  s ←m get_state;
  total ←m lift (py_len readings_data);
  ret (make_response
         [("location", location_name location);
          ("created", JNum (created s));
          ("skipped", JNum (skipped s));
          ("total", JNum total)]
         (errors s)).

Definition sync_readings (location : Z * row) (req : request) : M response :=
  outer_except (sync_readings_try location req).

(** ** sync_consumables *)

(** [new_level <= bound] on a value of the payload. *)
Definition level_le (new_level : json) (bound : Z) : result bool :=
  match new_level with
  | JNum n => Ok (bool_decide (n ≤ bound))
  | JBool b => Ok (bool_decide ((if b then 1 else 0) ≤ bound))
  | _ => Raise (TypeError "'<=' not supported between these instances")
  end.

(** [PrinterConsumable.create] of models/printer_consumable.py. *)
Definition consumable_create (vals : list (string * json)) : M Z :=
  let vals :=
    if bool_decide (is_Some (dict_get "first_detected" vals)) then vals
    else dict_set "first_detected" (JNum (now pf)) vals in
  orm_create "printer.consumable" vals.

(** [PrinterConsumable.write], on one record. *)
Definition consumable_write (record : Z * row) (vals : list (string * json))
  : M unit :=
  vals ←m
    match dict_get "level_percent" vals with
    | None => ret vals
    | Some new_level =>
        let vals :=
          dict_set "last_update" (JNum (now pf))
            (dict_set "previous_level"
               (JNum (number (field "level_percent" record))) vals) in
        if is_none new_level then ret vals
        else
          empty ←m lift (level_le new_level 0);
          if empty : bool then ret (dict_set "status" (JStr "empty") vals)
          else
            critical ←m
              lift (level_le new_level
                      (number (field "critical_threshold" record)));
            if critical : bool then
              ret (dict_set "status" (JStr "critical") vals)
            else
              low ←m lift (level_le new_level
                             (number (field "low_threshold" record)));
              if low : bool then ret (dict_set "status" (JStr "low") vals)
              else ret (dict_set "status" (JStr "ok") vals)
    end;
  orm_write "printer.consumable" record.1 vals.

(** Lines 522-568: the [try] body for one item of ['consumables']. *)
Definition sync_consumables_item (location : Z * row) (consumable_data : json)
  : M unit :=
  printer_ip ←m lift (py_get "printer_ip" consumable_data);
  supply_name ←m lift (py_get "supply_name" consumable_data);
  if negb (truthy printer_ip) || negb (truthy supply_name) then
    _ ←m append_error
           (Complaint "Consumible sin printer_ip o supply_name" None);
    incr_skipped
  else
    found ←m search_one "printer.device"
               [("location_id", op_eq, JNum location.1);
                ("ip_address", op_eq, printer_ip)];
    match found with
    | None => incr_skipped
    | Some printer =>
        consumable ←m search_one "printer.consumable"
                        [("printer_id", op_eq, JNum printer.1);
                         ("supply_name", op_eq, supply_name)];
        supply_type ←m lift (py_get "supply_type" consumable_data);
        color ←m lift (py_get "color" consumable_data);
        level_percent ←m lift (py_get "level_percent" consumable_data);
        model ←m lift (py_get "model" consumable_data);
        let values :=
          [("printer_id", JNum printer.1);
           ("supply_name", supply_name);
           ("supply_type", supply_type);
           ("color", color);
           ("level_percent", level_percent);
           ("model", model);
           ("last_update", JNum (now pf))] in
        has_status ←m lift (py_in "status" consumable_data);
        status ←m lift (py_get "status" consumable_data);
        let values :=
          if has_status : bool then dict_set "status" status values
          else values in
        match consumable with
        | Some consumable =>
            _ ←m consumable_write consumable values;
            incr_updated
        | None =>
            _ ←m consumable_create values;
            incr_created
        end
    end.

(** Lines 570-574. *)
Definition sync_consumables_except (consumable_data : json) (e : exn)
  : M unit :=
  key ←m lift (py_get_default "supply_name" (JStr "unknown") consumable_data);
  append_error (Failure "consumible" key e).

(** One turn of the loop of lines 520-574. *)
Definition sync_consumables_step (location : Z * row) (consumable_data : json)
  : M unit :=
  try_except (sync_consumables_item location consumable_data)
             (sync_consumables_except consumable_data).

(** Lines 510-589. *)
Definition sync_consumables_try (location : Z * row) (req : request)
  : M response :=
  data ←m lift (json_loads (body req));
  consumables_data ←m lift (py_get_default "consumables" (JArr []) data);
  items ←m lift (py_iter consumables_data);
  _ ←m for_each (sync_consumables_step location) items;
  s ←m get_state;
  total ←m lift (py_len consumables_data);
  ret (make_response
         [("location", location_name location);
          ("created", JNum (created s));
          ("updated", JNum (updated s));
          ("skipped", JNum (skipped s));
          ("total", JNum total)]
         (errors s)).

Definition sync_consumables (location : Z * row) (req : request)
  : M response :=
  outer_except (sync_consumables_try location req).

(** ** sync_alerts *)

Definition hours_24 : Z := 86400.

(** Lines 633-688: the [try] body for one item of ['alerts']. *)
Definition sync_alerts_item (location : Z * row) (alert_data : json)
  : M unit :=
  printer_ip ←m lift (py_get "printer_ip" alert_data);
  if negb (truthy printer_ip) then
    _ ←m append_error (Complaint "Alerta sin printer_ip" None);
    incr_skipped
  else
    found ←m search_one "printer.device"
               [("location_id", op_eq, JNum location.1);
                ("ip_address", op_eq, printer_ip)];
    match found with
    | None => incr_skipped
    | Some printer =>
        timestamp ←m lift (py_get "timestamp" alert_data);
        let parsed_timestamp :=
          if truthy timestamp then parse_timestamp timestamp else now pf in
        let time_threshold := parsed_timestamp - hours_24 in
        alert_type ←m lift (py_get "alert_type" alert_data);
        message ←m lift (py_get "message" alert_data);
        existing ←m search_one "printer.alert"
                      [("printer_id", op_eq, JNum printer.1);
                       ("alert_type", op_eq, alert_type);
                       ("message", op_eq, message);
                       ("timestamp", op_ge, JNum time_threshold);
                       ("resolved", op_eq, JBool false)];
        match existing with
        | Some _ => incr_duplicates
        | None =>
            alert_type ←m lift (py_get_default "alert_type" (JStr "other")
                                               alert_data);
            severity_str ←m lift (py_get_default "severity" (JStr "medium")
                                                 alert_data);
            severity ←m lift (normalize_severity severity_str);
            resolved ←m lift (py_get_default "resolved" (JBool false)
                                             alert_data);
            resolved_at ←m lift (py_get "resolved_at" alert_data);
            let alert_values :=
              [("printer_id", JNum printer.1);
               ("alert_type", alert_type);
               ("severity", JStr severity);
               ("message", message);
               ("timestamp", JNum parsed_timestamp);
               ("resolved", resolved);
               ("resolved_at", resolved_at)] in
            _ ←m orm_create "printer.alert" alert_values;
            incr_created
        end
    end.

(** Lines 690-694. *)
Definition sync_alerts_except (alert_data : json) (e : exn) : M unit :=
  key ←m lift (py_get_default "printer_ip" (JStr "unknown") alert_data);
  append_error (Failure "alerta" key e).

(** One turn of the loop of lines 631-694. *)
Definition sync_alerts_step (location : Z * row) (alert_data : json)
  : M unit :=
  try_except (sync_alerts_item location alert_data)
             (sync_alerts_except alert_data).

(** Lines 621-709. *)
Definition sync_alerts_try (location : Z * row) (req : request)
  : M response :=
  data ←m lift (json_loads (body req));
  alerts_data ←m lift (py_get_default "alerts" (JArr []) data);
  items ←m lift (py_iter alerts_data);
  _ ←m for_each (sync_alerts_step location) items;
  s ←m get_state;
  total ←m lift (py_len alerts_data);
  ret (make_response
         [("location", location_name location);
          ("created", JNum (created s));
          ("duplicates", JNum (duplicates s));
          ("skipped", JNum (skipped s));
          ("total", JNum total)]
         (errors s)).

Definition sync_alerts (location : Z * row) (req : request) : M response :=
  outer_except (sync_alerts_try location req).

(** ** The routes *)

Inductive endpoint :=
  | SyncPrinters
  | SyncReadings
  | SyncConsumables
  | SyncAlerts.

(** The function each route decorates. *)
Definition endpoint_body (ep : endpoint) : Z * row → request → M response :=
  match ep with
  | SyncPrinters => sync_printers
  | SyncReadings => sync_readings
  | SyncConsumables => sync_consumables
  | SyncAlerts => sync_alerts
  end.

(** The key of the payload an endpoint loops over, and one turn of its
    loop. *)
Definition payload_key (ep : endpoint) : string :=
  match ep with
  | SyncPrinters => "printers"
  | SyncReadings => "readings"
  | SyncConsumables => "consumables"
  | SyncAlerts => "alerts"
  end.

Definition endpoint_step (ep : endpoint) : Z * row → json → M unit :=
  match ep with
  | SyncPrinters => sync_printers_step
  | SyncReadings => sync_readings_step
  | SyncConsumables => sync_consumables_step
  | SyncAlerts => sync_alerts_step
  end.

(** The location grants the token: it is active, it has this access
    token, and its token is active. *)
Definition grants (d : database) (location_token : string)
    (location : Z * row) : Prop :=
  location ∈ records d "printer.location" ∧
  field "access_token" location = VStr location_token ∧
  field "is_active" location = VBool true ∧
  value_truthy (field "token_active" location) = true.

(** A request served on a database: an exception that leaves the route
    rolls the transaction back. *)
Definition route (ep : endpoint) (req : request) (d : database)
  : database * result http_result :=
  match validate_location_token (endpoint_body ep) req (start d) with
  | (s, Ok r) => (db s, Ok r)
  | (_, Raise e) => (d, Raise e)
  end.

End with_platform.

(** ** Vocabulary for the scope of a request *)

(** The printer [pid] is a row of the location [loc]. *)
Definition printer_at (loc : Z) (d : database) (pid : Z) : Prop :=
  ∃ r, table d "printer.device" !! pid = Some r ∧
       r !! "location_id" = Some (VInt loc).

(** The row belongs to a printer of the location. *)
Definition for_printer_at (loc : Z) (d : database) (r : row) : Prop :=
  ∃ pid, r !! "printer_id" = Some (VInt pid) ∧ printer_at loc d pid.

(** The reading [rid] belongs to a printer of the location. *)
Definition reading_at (loc : Z) (d : database) (rid : Z) : Prop :=
  ∃ r, table d "printer.reading" !! rid = Some r ∧ for_printer_at loc d r.

(** The models whose rows point to a printer. *)
Definition child_models : list string :=
  ["printer.reading"; "printer.consumable"; "printer.alert"].

(** What a request for location [loc] may have done between [d] and
    [d']: a printer row that is new or changed has that location; the
    printers of the location are still its printers; a new or changed
    reading, consumable or alert belongs to a printer of the location;
    no reading was changed or removed; a new or changed reading counter
    belongs to a reading of a printer of the location. *)
Record scoped (loc : Z) (d d' : database) : Prop := Scoped {
  scoped_printers : ∀ pid r,
    table d' "printer.device" !! pid = Some r →
    table d "printer.device" !! pid = Some r ∨
    r !! "location_id" = Some (VInt loc);
  scoped_stay : ∀ pid, printer_at loc d pid → printer_at loc d' pid;
  scoped_children : ∀ m id r,
    m ∈ child_models → table d' m !! id = Some r →
    table d m !! id = Some r ∨ for_printer_at loc d' r;
  scoped_readings_kept : ∀ id r,
    table d "printer.reading" !! id = Some r →
    table d' "printer.reading" !! id = Some r;
  scoped_counters : ∀ id c,
    table d' "printer.reading.counter" !! id = Some c →
    table d "printer.reading.counter" !! id = Some c ∨
    ∃ rid, c !! "reading_id" = Some (VInt rid) ∧ reading_at loc d' rid;
}.


(** What is known, while an item is processed, about the printers and
    readings it has looked up or created. *)
Definition guard (loc : Z) (pids rids : list Z) (s : sync_state) : Prop :=
  Forall (printer_at loc (db s)) pids ∧ Forall (reading_at loc (db s)) rids.

(** The computation stays within the scope of [loc] when started from a
    state in which the printers [pids] and readings [rids] are the
    location's, and what it returns satisfies [Q]. *)
Definition keeps (loc : Z) (pids rids : list Z) {A} (m : M A)
    (Q : A → Prop) : Prop :=
  ∀ s s' res, guard loc pids rids s → m s = (s', res) →
              scoped loc (db s) (db s') ∧ ∀ a, res = Ok a → Q a.


End Api.

(** * Sample data *)

Module Samples.
Import Reading.

Definition total_type : counter_type :=
  CounterType 1 "1.3.6.1.2.1.43.10.2.1.4.1.1" (Some "total") "Total".
Definition color_type : counter_type :=
  CounterType 2 "legacy.color" (Some "color") "Color".

(** Partner 7 owns printers 1 and 2; printer 1 has a reading before the
    period and two inside it, printer 2 has one reading without counters. *)
Definition fleet : env :=
  {| printers := [Printer 1 7 "P1" (Some "HQ"); Printer 2 7 "P2" None;
                  Printer 3 8 "P3" (Some "Depot")];
     readings :=
       [unbilled_reading 1 1 10 [ReadingCounter total_type 100];
        unbilled_reading 2 1 200000 [ReadingCounter total_type 150;
                              ReadingCounter color_type 5];
        unbilled_reading 3 1 100000 [ReadingCounter total_type 120];
        unbilled_reading 4 2 100000 []] |}.

(** A printer first seen inside the period: two readings, none before. *)
Definition new_printer_fleet : env :=
  {| printers := [Printer 1 7 "P1" (Some "HQ")];
     readings :=
       [unbilled_reading 1 1 100 [ReadingCounter total_type 100];
        unbilled_reading 2 1 200 [ReadingCounter total_type 150]] |}.

Definition printer_1 : printer := Printer 1 7 "P1" (Some "HQ").

(** A reading at 100 and one at 2000, later the same day. *)
Definition late_reading_fleet : env :=
  {| printers := [Printer 1 7 "P1" (Some "HQ")];
     readings :=
       [unbilled_reading 1 1 100 [ReadingCounter total_type 20];
        unbilled_reading 2 1 2000 [ReadingCounter total_type 50]] |}.

(** Two counter types with distinct ids and OIDs, the code of the first
    being the OID of the second, and a reading that carries both. *)
Definition type_a : counter_type := CounterType 1 "1.1" (Some "2.2") "A".
Definition type_b : counter_type := CounterType 2 "2.2" None "B".
Definition code_is_oid_fleet : env :=
  {| printers := [Printer 1 7 "P1" (Some "HQ")];
     readings :=
       [unbilled_reading 1 1 100 [ReadingCounter type_a 10;
                                  ReadingCounter type_b 20]] |}.

(** Prices of partner 7: only the total counter is priced. *)
Definition price_list : list Prices.partner_counter_price :=
  [Prices.PartnerCounterPrice 7 1 2; Prices.PartnerCounterPrice 8 1 3].

(** A draft review of partner 7 over days 1 to 2, grouped by location:
    two billable printers at HQ, one without location, one included
    printer that printed nothing and one excluded printer. *)
Definition line_hq_1 : ReviewLine.line :=
  ReviewLine.Line (Printer 1 7 "P1" (Some "HQ"))
    [ReviewCounter.Counter total_type 100 150 2;
     ReviewCounter.Counter color_type 0 5 10] true None.
Definition line_nowhere : ReviewLine.line :=
  ReviewLine.Line (Printer 2 7 "P2" None)
    [ReviewCounter.Counter total_type 0 30 2] true None.
Definition line_hq_2 : ReviewLine.line :=
  ReviewLine.Line (Printer 4 7 "P4" (Some "HQ"))
    [ReviewCounter.Counter total_type 10 20 2] true None.
Definition line_idle : ReviewLine.line :=
  ReviewLine.Line (Printer 5 7 "P5" (Some "Depot"))
    [ReviewCounter.Counter total_type 7 7 2] true None.
Definition line_excluded : ReviewLine.line :=
  ReviewLine.Line (Printer 6 7 "P6" (Some "Depot"))
    [ReviewCounter.Counter total_type 0 900 2] false None.

Definition draft_review : Review.review :=
  Review.MkReview "REV/0001" Review.draft 7 1 2 true true
    [line_hq_1; line_nowhere; line_hq_2; line_idle; line_excluded]
    None None None None.

Definition office : Review.world :=
  Review.World draft_review [] fleet price_list.

(** The billing wizard filled in for partner 7, days 1 to 2. *)
Definition wizard_7 : Wizard.wizard :=
  Wizard.MkWizard (Some 7) 1 2 true true.

End Samples.

(** ** A platform and a database for the sync endpoints *)

Module ApiSamples.
Import Api.

Fixpoint split_dots (s : string) : list string :=
  match s with
  | EmptyString => [EmptyString]
  | String c s' =>
      if decide (c = "."%char) then EmptyString :: split_dots s'
      else
        match split_dots s' with
        | [] => [String c EmptyString]
        | p :: ps => String c p :: ps
        end
  end.

Fixpoint all_digits (s : string) : bool :=
  match s with
  | EmptyString => true
  | String c s' =>
      bool_decide (48 ≤ nat_of_ascii c ≤ 57)%nat && all_digits s'
  end.

(** [re.match(r'^(\d{1,3}\.){3}\d{1,3}$', s)] on ASCII text. *)
Definition ip_pattern (s : string) : bool :=
  let parts := split_dots s in
  bool_decide (length parts = 4%nat) &&
  forallb (λ p, all_digits p &&
                bool_decide (1 ≤ String.length p ≤ 3)%nat) parts.

(** The constraints the models declare, as the verdict of the ORM:
    SQL constraints refuse the row, [@api.constrains] methods raise after
    it is stored. *)
Definition declared_checks (model : string) (d : database) (id : Z) (r : row)
  : verdict :=
  let other x := x.1 ≠ id in
  if decide (model = "printer.device") then
    if decide (Exists (λ x, other x ∧
                            field "location_id" x = field "location_id" (id, r) ∧
                            field "ip_address" x = field "ip_address" (id, r))
                      (records d model)) then
      Reject false (DatabaseError "unique_ip_per_location")
    else
      match field "ip_address" (id, r) with
      | VStr ip =>
          if ip_pattern ip then Accept
          else Reject true (ValidationError "Dirección IP inválida")
      | _ => Accept
      end
  else if decide (model = "printer.reading") then
    if decide (Exists (λ x, other x ∧
                            field "printer_id" x = field "printer_id" (id, r) ∧
                            field "timestamp" x = field "timestamp" (id, r))
                      (records d model)) then
      Reject true (ValidationError "Ya existe una lectura")
    else Accept
  else if decide (model = "printer.reading.counter") then
    if decide (number (field "value" (id, r)) < 0) then
      Reject true (ValidationError
                     "El valor del contador no puede ser negativo")
    else Accept
  else if decide (model = "printer.consumable") then
    if decide (number (field "level_percent" (id, r)) < 0 ∨
               100 < number (field "level_percent" (id, r))) then
      Reject true (ValidationError
                     "El nivel del consumible debe estar entre 0% y 100%")
    else Accept
  else Accept.

(** The clock stands at 1000000; timestamps are not parsed ([None] is a
    parser that raises). *)
Definition odoo : platform :=
  {| validate := declared_checks;
     now := 1000000;
     fromisoformat := λ _, None;
     from_string := λ _, None;
     int_of_str := λ _, None |}.

(** Location 1 (HQ, partner 7) with an active token, location 2 (Depot)
    with a deactivated token, location 3 inactive; one printer at HQ and
    one at the depot. *)
Definition site : database :=
  list_to_map
    [("printer.location",
      list_to_map
      [(1, list_to_map [("name", VStr "HQ"); ("partner_id", VInt 7);
                        ("access_token", VStr "tok-hq");
                        ("is_active", VBool true);
                        ("token_active", VBool true);
                        ("token_requests_count", VInt 4)]);
       (2, list_to_map [("name", VStr "Depot"); ("partner_id", VInt 7);
                        ("access_token", VStr "tok-depot");
                        ("is_active", VBool true);
                        ("token_active", VBool false)]);
       (3, list_to_map [("name", VStr "Closed"); ("partner_id", VInt 7);
                        ("access_token", VStr "tok-closed");
                        ("is_active", VBool false);
                        ("token_active", VBool true)])]);
     ("res.partner", list_to_map [(7, list_to_map [("name", VStr "ACME")])]);
     ("printer.device",
      list_to_map
      [(1, list_to_map [("location_id", VInt 1);
                        ("ip_address", VStr "10.0.0.14")]);
       (2, list_to_map [("location_id", VInt 2);
                        ("ip_address", VStr "10.0.0.20")])])].

Definition hq : Z * row :=
  (1, list_to_map [("name", VStr "HQ"); ("partner_id", VInt 7);
                   ("access_token", VStr "tok-hq");
                   ("is_active", VBool true);
                   ("token_active", VBool true);
                   ("token_requests_count", VInt 4)]).

(** A valid printer after an item that is not an object. *)
Definition mixed_printers : json :=
  JObj [("printers", JArr [JNum 5;
                           JObj [("ip_address", JStr "10.0.0.15")]])].

(** Two good readings around one with a negative counter. *)
Definition three_readings : json :=
  JObj [("readings",
         JArr [JObj [("printer_ip", JStr "10.0.0.14");
                     ("total_pages", JNum 120)];
               JObj [("printer_ip", JStr "10.0.0.14");
                     ("timestamp", JStr "2025-10-13 10:30:00");
                     ("total_pages", JNum (-3))];
               JObj [("printer_ip", JStr "10.0.0.20");
                     ("total_pages", JNum 7)]])].

End ApiSamples.

(** * Further parts of the models and of the controller *)

(** ** models/printer_reading.py: the billing marks of a reading *)

Module ReadingBilling.
Import Reading.

(** [_check_timestamp_order] for one record (lines 133-147):
    [printer_id] and [timestamp] are required fields, so the guard of
    line 137 holds. *)
Definition _check_timestamp_order (e : env) (record : reading) : result unit :=
  let existing :=
    filter (λ r, printer_id r = printer_id record ∧
                 timestamp r = timestamp record ∧
                 reading_id r ≠ reading_id record) (readings e) in
  if is_empty existing then Ok ()
  else Raise (ValidationError "Ya existe una lectura para la impresora").

(** [action_mark_as_billed] (lines 149-156); [now] is
    [fields.Datetime.now()]. *)
Definition action_mark_as_billed (now : Z) (r : reading) : reading :=
  MkReading (reading_id r) (printer_id r) (timestamp r) (counter_ids r)
    true (invoice_id r) (Some now).

(** [action_unmark_billed] (lines 158-169). *)
Definition action_unmark_billed (r : reading) : result reading :=
  match invoice_id r with
  | Some _ =>
      Raise (ValidationError
        "No se puede desmarcar una lectura que tiene una factura asociada")
  | None =>
      Ok (MkReading (reading_id r) (printer_id r) (timestamp r)
            (counter_ids r) false (invoice_id r) None)
  end.

(** [get_readings_for_billing(partner_id, date_from, date_to)] (lines
    171-189), in the model's order [timestamp desc]; [partner_id] of a
    reading is the stored related field. *)
Definition get_readings_for_billing (e : env) (partner_id date_from date_to : Z)
  : list reading :=
  merge_sort by_timestamp_desc
    (filter (λ r, Review.reading_partner_id e r = Some partner_id ∧
                  date_from ≤ timestamp r ∧ timestamp r ≤ date_to ∧
                  is_billed r = false) (readings e)).

(** What [readings_to_mark.write] of models/printer_billing_review.py
    (lines 373-377) makes of a reading. *)
Definition billed_by (invoice now : Z) (r : reading) : reading :=
  MkReading (reading_id r) (printer_id r) (timestamp r) (counter_ids r)
    true (Some invoice) (Some now).

End ReadingBilling.

(** ** models/partner_counter_price.py: the price table of a partner *)

Module PriceTable.
Import Prices.

(** [_check_unit_price] for one record (lines 94-101). *)
Definition _check_unit_price (record : partner_counter_price) : result unit :=
  if decide (unit_price record < 0) then
    Raise (ValidationError "El precio unitario no puede ser negativo")
  else Ok ().

(** [get_all_prices_for_partner] (lines 133-145): the dict
    [{price.counter_type_id.id: price.unit_price for price in prices}],
    in which a later row overwrites an earlier one with the same key. *)
Definition get_all_prices_for_partner (prices : list partner_counter_price)
    (partner : Z) : gmap Z Z :=
  foldl (λ d price, <[counter_type_id price := unit_price price]> d) ∅
        (filter (λ pr, partner_id pr = partner) prices).

End PriceTable.

(** ** More sample data *)

Module MoreSamples.

(** The draft review of the samples, billed printer by printer. *)
Definition review_by_printer : Review.review :=
  Review.MkReview "REV/0002" Review.draft 7 1 2 false true
    [Samples.line_hq_1; Samples.line_nowhere; Samples.line_hq_2;
     Samples.line_idle; Samples.line_excluded]
    None None None None.

Definition office_by_printer : Review.world :=
  Review.World review_by_printer [] Samples.fleet Samples.price_list.

End MoreSamples.
(** * Proofs *)

(** ** Fallible loops *)

Lemma is_empty_true {A} (xs : list A) : is_empty xs = true ↔ xs = [].
Proof. by destruct xs. Qed.

Lemma is_empty_false {A} (xs : list A) : is_empty xs = false ↔ xs ≠ [].
Proof. by destruct xs. Qed.

Lemma rmap_Ok_inv {A B} (f : A → result B) xs ys :
  rmap f xs = Ok ys → Forall2 (λ x y, f x = Ok y) xs ys.
Proof.
  revert ys. induction xs as [|x xs IH]; intros ys; simpl.
  - intros [= <-]. constructor.
  - destruct (f x) as [y|e] eqn:Hx; simpl; [|done].
    destruct (rmap f xs) as [ys'|e] eqn:Hxs; simpl; [|done].
    intros [= <-]. constructor; auto.
Qed.

Lemma rmap_total {A B} (f : A → result B) xs :
  Forall (λ x, ∃ y, f x = Ok y) xs → ∃ ys, rmap f xs = Ok ys.
Proof.
  induction 1 as [|x xs [y Hy] _ [ys IH]]; simpl; [by eexists|].
  rewrite Hy, IH. simpl. by eexists.
Qed.

(** ** Facts about the usage calculation *)

Module ReadingFacts.
Import Reading ReadingSpec.

#[global] Instance by_timestamp_total : Total by_timestamp.
Proof. intros a b. unfold by_timestamp. lia. Qed.
#[global] Instance by_timestamp_trans : Transitive by_timestamp.
Proof. intros a b c. unfold by_timestamp. lia. Qed.
#[global] Instance by_timestamp_desc_total : Total by_timestamp_desc.
Proof. intros a b. unfold by_timestamp_desc. lia. Qed.
#[global] Instance by_timestamp_desc_trans : Transitive by_timestamp_desc.
Proof. intros a b c. unfold by_timestamp_desc. lia. Qed.

(** *** Searches *)

Lemma elem_of_search_in_period e pid df dte r :
  r ∈ search_in_period e pid df dte ↔
  r ∈ readings e ∧ printer_id r = pid ∧ df ≤ timestamp r ∧ timestamp r ≤ dte.
Proof.
  unfold search_in_period.
  rewrite (merge_sort_Permutation by_timestamp), list_elem_of_filter.
  tauto.
Qed.

Lemma search_in_period_sorted e pid df dte :
  StronglySorted by_timestamp (search_in_period e pid df dte).
Proof. apply StronglySorted_merge_sort; apply _. Qed.

Lemma StronglySorted_filter_keep {A} (R : relation A) (P : A → Prop)
    `{!∀ x, Decision (P x)} l :
  StronglySorted R l → StronglySorted R (filter P l).
Proof.
  induction 1 as [|x l Hl IH Hx]; [constructor|].
  rewrite filter_cons. case_decide; [|done].
  constructor; [done|].
  rewrite Forall_forall in Hx |- *.
  intros y [_ Hy]%list_elem_of_filter. auto.
Qed.

(** The last record of a filtered, sorted recordset dominates every
    record that passes the filter. *)
Lemma last_filter_sorted {A} (R : relation A) `{!Reflexive R} (P : A → Prop)
    `{!∀ x, Decision (P x)} l x :
  StronglySorted R l → last (filter P l) = Some x →
  P x ∧ x ∈ l ∧ ∀ y, y ∈ l → P y → R y x.
Proof.
  intros Hs Hlast.
  assert (x ∈ filter P l) as [HP Hx]%list_elem_of_filter
    by (by apply last_Some_elem_of).
  split_and!; [done..|].
  intros y Hy HPy.
  apply last_Some in Hlast as [l' Hl'].
  assert (y ∈ l' ++ [x]) as Hin
    by (rewrite <-Hl'; apply list_elem_of_filter; done).
  apply (StronglySorted_filter_keep R P) in Hs. rewrite Hl' in Hs.
  apply StronglySorted_app in Hs as (Hall & _ & _).
  apply elem_of_app in Hin as [Hin|Hin].
  - apply Hall; [done|]. by apply list_elem_of_singleton.
  - apply list_elem_of_singleton in Hin as ->. reflexivity.
Qed.

#[global] Instance by_timestamp_refl : Reflexive by_timestamp.
Proof. intros a. unfold by_timestamp. lia. Qed.

Lemma search_previous_Some e pid df r :
  search_previous e pid df = Some r →
  r ∈ readings e ∧ printer_id r = pid ∧ timestamp r < df ∧
  ∀ r', r' ∈ readings e → printer_id r' = pid → timestamp r' < df →
        timestamp r' ≤ timestamp r.
Proof.
  unfold search_previous. intros Hh.
  set (found := filter _ (readings e)) in *.
  assert (Hperm := merge_sort_Permutation by_timestamp_desc found).
  assert (Hs : StronglySorted by_timestamp_desc
                 (merge_sort by_timestamp_desc found))
    by (apply StronglySorted_merge_sort; apply _).
  apply head_Some in Hh as [l' Hl']. rewrite Hl' in Hs, Hperm.
  assert (r ∈ found) as [(? & ?) ?]%list_elem_of_filter
    by (rewrite <-Hperm; left).
  split_and!; [done..|].
  intros r' Hr' Hp Ht.
  assert (r' ∈ r :: l') as Hin
    by (rewrite Hperm; apply list_elem_of_filter; done).
  apply StronglySorted_cons in Hs as [Hall _].
  apply elem_of_cons in Hin as [->|Hin]; [lia|].
  rewrite Forall_forall in Hall. by apply Hall.
Qed.

Lemma search_previous_None e pid df :
  search_previous e pid df = None →
  ∀ r, r ∈ readings e → printer_id r = pid → ¬ timestamp r < df.
Proof.
  unfold search_previous. intros Hh%head_None r Hr Hp Ht.
  set (found := filter _ (readings e)) in *.
  assert (r ∈ found) as Hin by (apply list_elem_of_filter; done).
  rewrite <-(merge_sort_Permutation by_timestamp_desc found), Hh in Hin.
  by apply not_elem_of_nil in Hin.
Qed.

(** *** Recordsets of counter types *)

Lemma uniq_by_id_elem seen ts t :
  t ∈ uniq_by_id seen ts → t ∈ ts ∧ ct_id t ∉ seen.
Proof.
  revert seen. induction ts as [|x ts IH]; intros seen; simpl.
  - by intros ?%not_elem_of_nil.
  - case_decide as Hx.
    + intros [? ?]%IH. split; [by right|done].
    + intros [->|[? Hn]%IH]%elem_of_cons; [split; [by left|done]|].
      split; [by right|]. intros ?. apply Hn. by right.
Qed.

Lemma uniq_by_id_ids seen ts i :
  i ∈ (ct_id <$> uniq_by_id seen ts) ↔ i ∈ (ct_id <$> ts) ∧ i ∉ seen.
Proof.
  revert seen. induction ts as [|x ts IH]; intros seen; simpl.
  - split; [by intros ?%not_elem_of_nil|by intros [?%not_elem_of_nil _]].
  - case_decide as Hx; simpl; rewrite ?elem_of_cons, IH, ?not_elem_of_cons.
    + split; [tauto|]. intros [[->|?] ?]; tauto.
    + split; [|destruct (decide (i = ct_id x)); tauto].
      intros [->|?]; tauto.
Qed.

Lemma uniq_by_id_NoDup seen ts : NoDup (ct_id <$> uniq_by_id seen ts).
Proof.
  revert seen. induction ts as [|x ts IH]; intros seen; simpl.
  - constructor.
  - case_decide; simpl; [done|]. constructor; [|done].
    rewrite uniq_by_id_ids, not_elem_of_cons. tauto.
Qed.

Lemma mapped_counter_type_ids r i :
  i ∈ (ct_id <$> mapped_counter_type r) ↔ carries i r.
Proof.
  unfold mapped_counter_type, carries.
  rewrite uniq_by_id_ids, list_elem_of_fmap. split.
  - intros [(t & -> & (c & -> & ?)%list_elem_of_fmap) _]. eauto.
  - intros (c & ? & <-). split; [|apply not_elem_of_nil].
    exists (counter_type_id c). split; [done|].
    apply list_elem_of_fmap. eauto.
Qed.

Lemma mapped_counter_type_elem r t :
  t ∈ mapped_counter_type r → ∃ c, c ∈ counter_ids r ∧ counter_type_id c = t.
Proof.
  intros [(c & -> & ?)%list_elem_of_fmap _]%uniq_by_id_elem. eauto.
Qed.

Section fold_union.
Let step := (λ acc r, recordset_union acc (mapped_counter_type r)).

Lemma fold_union_ids rs acc i :
  i ∈ (ct_id <$> foldl step acc rs) ↔
  i ∈ (ct_id <$> acc) ∨ ∃ r, r ∈ rs ∧ carries i r.
Proof.
  revert acc. induction rs as [|r rs IH]; intros acc; simpl.
  - split; [by left|]. intros [?|(? & ?%not_elem_of_nil & _)]; done.
  - rewrite IH. unfold step, recordset_union.
    rewrite uniq_by_id_ids, fmap_app, elem_of_app, mapped_counter_type_ids.
    split.
    + intros [[[?|?] _]|(r' & ? & ?)]; [by left|right..].
      * exists r. split; [by left|done].
      * exists r'. split; [by right|done].
    + intros [?|(r' & [->|?]%elem_of_cons & ?)].
      * left. split; [by left|apply not_elem_of_nil].
      * left. split; [by right|apply not_elem_of_nil].
      * right. eauto.
Qed.

Lemma fold_union_elem rs acc t :
  t ∈ foldl step acc rs →
  t ∈ acc ∨ ∃ r c, r ∈ rs ∧ c ∈ counter_ids r ∧ counter_type_id c = t.
Proof.
  revert acc. induction rs as [|r rs IH]; intros acc; simpl; [by left|].
  intros [Ht|(r' & c & ? & ? & ?)]%IH.
  - apply uniq_by_id_elem in Ht as [[?|Ht]%elem_of_app _]; [by left|].
    apply mapped_counter_type_elem in Ht as (c & ? & ?).
    right. exists r, c. split_and!; [by left|done..].
  - right. exists r', c. split_and!; [by right|done..].
Qed.

Lemma fold_union_NoDup rs acc :
  NoDup (ct_id <$> acc) → NoDup (ct_id <$> foldl step acc rs).
Proof.
  revert acc. induction rs as [|r rs IH]; intros acc Hacc; simpl; [done|].
  apply IH, uniq_by_id_NoDup.
Qed.
End fold_union.

Lemma counter_types_in_period_ids rs i :
  i ∈ (ct_id <$> counter_types_in_period rs) ↔ ∃ r, r ∈ rs ∧ carries i r.
Proof.
  unfold counter_types_in_period. rewrite fold_union_ids. split.
  - intros [?%not_elem_of_nil|?]; done.
  - by right.
Qed.

Lemma counter_types_in_period_elem rs t :
  t ∈ counter_types_in_period rs →
  ∃ r c, r ∈ rs ∧ c ∈ counter_ids r ∧ counter_type_id c = t.
Proof.
  intros [?%not_elem_of_nil|?]%fold_union_elem; done.
Qed.

Lemma counter_types_in_period_NoDup rs :
  NoDup (ct_id <$> counter_types_in_period rs).
Proof. apply fold_union_NoDup. constructor. Qed.

(** Readings without counters contribute no counter type. *)
Lemma counter_types_in_period_nil rs :
  counter_types_in_period rs = [] ↔ ∀ r, r ∈ rs → counter_ids r = [].
Proof.
  split.
  - intros Hnil r Hr. destruct (counter_ids r) as [|c cs] eqn:Hc; [done|].
    assert (ct_id (counter_type_id c) ∈ (ct_id <$> counter_types_in_period rs))
      as Hin.
    { apply counter_types_in_period_ids. exists r. split; [done|].
      exists c. rewrite Hc. split; [by left|done]. }
    rewrite Hnil in Hin. by apply not_elem_of_nil in Hin.
  - intros Hall. destruct (counter_types_in_period rs) as [|t ts] eqn:Ht; [done|].
    assert (ct_id t ∈ (ct_id <$> counter_types_in_period rs)) as Hin
      by (rewrite Ht; left).
    apply counter_types_in_period_ids in Hin as (r & Hr & c & Hc & _).
    rewrite (Hall r Hr) in Hc. by apply not_elem_of_nil in Hc.
Qed.

(** *** The declared constraints, by membership *)

Lemma elem_of_all_counters e r c :
  r ∈ readings e → c ∈ counter_ids r → c ∈ all_counters e.
Proof.
  intros Hr Hc. unfold all_counters. apply list_elem_of_bind. eauto.
Qed.

Lemma wf_types_agree e r r' c c' :
  wf_env e → r ∈ readings e → r' ∈ readings e →
  c ∈ counter_ids r → c' ∈ counter_ids r' → types_agree c c'.
Proof.
  intros [Hall _] Hr Hr' Hc Hc'. rewrite Forall_forall in Hall.
  specialize (Hall c (elem_of_all_counters e r c Hr Hc)).
  rewrite Forall_forall in Hall.
  exact (Hall c' (elem_of_all_counters e r' c' Hr' Hc')).
Qed.

Lemma wf_type_rows e (Hwf : wf_env e) r r' c c' :
  r ∈ readings e → r' ∈ readings e →
  c ∈ counter_ids r → c' ∈ counter_ids r' →
  ct_id (counter_type_id c) = ct_id (counter_type_id c') →
  counter_type_id c = counter_type_id c'.
Proof.
  intros ? ? ? ? ?.
  destruct (wf_types_agree e r r' c c') as (? & ? & ?); auto.
Qed.

Lemma wf_oid_unique e (Hwf : wf_env e) r r' c c' :
  r ∈ readings e → r' ∈ readings e →
  c ∈ counter_ids r → c' ∈ counter_ids r' →
  oid c = oid c' → counter_type_id c = counter_type_id c'.
Proof.
  intros ? ? ? ? ?.
  destruct (wf_types_agree e r r' c c') as (? & ? & ?); auto.
Qed.

Lemma wf_code_not_oid e (Hwf : wf_env e) r r' c c' :
  r ∈ readings e → r' ∈ readings e →
  c ∈ counter_ids r → c' ∈ counter_ids r' →
  counter_code c = Some (oid c') → counter_type_id c = counter_type_id c'.
Proof.
  intros ? ? ? ? ?.
  destruct (wf_types_agree e r r' c c') as (? & ? & ?); auto.
Qed.

Lemma wf_one_counter_per_type e (Hwf : wf_env e) r :
  r ∈ readings e → NoDup (ct_id ∘ counter_type_id <$> counter_ids r).
Proof.
  destruct Hwf as [_ Hall]. rewrite Forall_forall in Hall. apply Hall.
Qed.

(** *** Reading a counter value *)

Lemma filter_same_key {A B} (f : A → B) (P : A → Prop)
    `{!∀ x, Decision (P x)} (l : list A) (b : B) :
  NoDup (f <$> l) → (∀ x, x ∈ l → P x → f x = b) →
  filter P l = [] ∨ ∃ c, filter P l = [c].
Proof.
  induction l as [|x l IH]; intros Hnd Hkey; [by left|].
  rewrite fmap_cons, NoDup_cons in Hnd. destruct Hnd as [Hx Hnd].
  rewrite filter_cons. case_decide as HP.
  - right. exists x. f_equal.
    destruct (filter P l) as [|y ys] eqn:Hf; [done|]. exfalso.
    assert (y ∈ filter P l) as [HPy Hy]%list_elem_of_filter
      by (rewrite Hf; left).
    apply Hx. apply list_elem_of_fmap. exists y. split; [|done].
    rewrite (Hkey x), (Hkey y); [done|by right|done|by left|done].
  - apply IH; [done|]. intros y Hy. apply Hkey. by right.
Qed.

(** With the declared constraints, [get_counter_value] called with the
    OID of a counter type returns the value of the reading's counter of
    that type, and 0 when the reading has none. *)
Lemma get_counter_value_reads e r r0 c0 :
  wf_env e → r ∈ readings e → r0 ∈ readings e → c0 ∈ counter_ids r0 →
  ∃ v, get_counter_value r (oid c0) = Ok v ∧
       reads r (ct_id (counter_type_id c0)) v.
Proof.
  intros Hwf Hr Hr0 Hc0. unfold get_counter_value.
  set (P := λ c, oid c = oid c0 ∨ counter_code c = Some (oid c0)).
  assert (Hsame : ∀ c, c ∈ counter_ids r → P c →
                       counter_type_id c = counter_type_id c0).
  { intros c Hc [Ho|Hcode].
    - by eapply (wf_oid_unique e Hwf r r0).
    - by eapply (wf_code_not_oid e Hwf r r0). }
  destruct (filter_same_key (ct_id ∘ counter_type_id) P (counter_ids r)
              (ct_id (counter_type_id c0))) as [Hnil|[c Hone]].
  - by apply (wf_one_counter_per_type e Hwf).
  - intros c Hc HP. simpl. by rewrite (Hsame c Hc HP).
  - fold P. rewrite Hnil. eexists. split; [done|]. right. split; [|done].
    intros c Hc Hid.
    assert (c ∈ filter P (counter_ids r)) as Hin.
    { apply list_elem_of_filter. split; [|done]. left. unfold oid.
      by rewrite (wf_type_rows e Hwf r r0 c c0). }
    rewrite Hnil in Hin. by apply not_elem_of_nil in Hin.
  - fold P. rewrite Hone. eexists. split; [done|]. left.
    assert (c ∈ filter P (counter_ids r)) as [HP Hc]%list_elem_of_filter
      by (rewrite Hone; left).
    exists c. split_and!; [done| |done]. by rewrite (Hsame c Hc HP).
Qed.

(** *** The two loops *)

(** A loop whose body either skips ([None]) or appends ([Some]),
    according to a decidable test, and never raises. *)
Lemma rmap_filter {A B} (f : A → result (option B)) (P : A → Prop)
    `{!∀ x, Decision (P x)} (Q : A → B → Prop) (xs : list A) :
  (∀ x, x ∈ xs → P x → ∃ y, f x = Ok (Some y) ∧ Q x y) →
  (∀ x, x ∈ xs → ¬ P x → f x = Ok None) →
  ∃ ys, rmap f xs = Ok ys ∧ Forall2 Q (filter P xs) (omap id ys).
Proof.
  induction xs as [|x xs IH]; intros Hyes Hno; simpl.
  - eexists. split; [done|]. constructor.
  - destruct IH as (ys & Hys & HQ).
    { intros y Hy. apply Hyes. by right. }
    { intros y Hy. apply Hno. by right. }
    rewrite filter_cons. case_decide as HP.
    + destruct (Hyes x) as (y & Hy & HQy); [by left|done|].
      rewrite Hy, Hys. simpl. eexists. split; [done|]. simpl. by constructor.
    + rewrite (Hno x), Hys; [|by left|done]. simpl.
      eexists. split; [done|]. done.
Qed.

Lemma filter_all {A} (P : A → Prop) `{!∀ x, Decision (P x)} (l : list A) :
  (∀ x, x ∈ l → P x) → filter P l = l.
Proof.
  induction l as [|x l IH]; intros HP; [done|].
  rewrite filter_cons_True by (apply HP; left).
  f_equal. apply IH. intros y Hy. apply HP. by right.
Qed.

(** *** The end of the period *)

(** The instant the code computes as [date_to_end] is the last second
    of the day of [date_to]. *)
Lemma date_to_end_through date_to t :
  t ≤ date_to_end date_to ↔ through_day_of date_to t.
Proof.
  unfold through_day_of, last_day, day_of, date_to_end, seconds_per_day.
  pose proof (Z.div_mod t 86400 ltac:(lia)).
  pose proof (Z.mod_pos_bound t 86400 ltac:(lia)).
  destruct date_to as [d|t0]; [lia|].
  pose proof (Z.div_mod t0 86400 ltac:(lia)).
  pose proof (Z.mod_pos_bound t0 86400 ltac:(lia)).
  lia.
Qed.

Lemma elem_of_search_in_period_day e p date_from date_to r :
  r ∈ search_in_period e (p_id p) date_from (date_to_end date_to) ↔
  in_period (through_day_of date_to) e p date_from r.
Proof.
  unfold in_period.
  rewrite elem_of_search_in_period, date_to_end_through. tauto.
Qed.

Lemma wf_env_of e : declared_constraints e → codes_apart e → wf_env e.
Proof.
  unfold declared_constraints, codes_apart, wf_env, types_agree.
  intros [Hd Hnd] Hc. split; [|done].
  rewrite Forall_forall in Hd, Hc |- *. intros c Hin.
  specialize (Hd c Hin). specialize (Hc c Hin).
  rewrite Forall_forall in Hd, Hc |- *. intros c' Hin'.
  destruct (Hd c' Hin'). split_and!; [done..|]. by apply Hc.
Qed.

Lemma usage_of_counter_type_ok e p date_from date_to t :
  wf_env e →
  t ∈ counter_types_in_period
        (search_in_period e (p_id p) date_from (date_to_end date_to)) →
  ∃ k, usage_of_counter_type e p date_from
         (search_in_period e (p_id p) date_from (date_to_end date_to)) t
       = Ok (Some k) ∧
       cu_counter_type k = t ∧ counter_usage_ok (through_day_of date_to) e p date_from k.
Proof.
  intros Hwf Ht. set (rs := search_in_period _ _ _ _) in *.
  apply counter_types_in_period_elem in Ht as (r0 & c0 & Hr0 & Hc0 & <-).
  assert (Hr0e : r0 ∈ readings e)
    by (by apply elem_of_search_in_period in Hr0 as [? _]).
  unfold usage_of_counter_type.
  set (P := λ r, ct_id (counter_type_id c0) ∈ (ct_id <$> mapped_counter_type r)).
  destruct (last (filter P rs)) as [lr|] eqn:Hlast.
  2:{ apply last_None in Hlast.
      assert (r0 ∈ filter P rs) as Hin.
      { apply list_elem_of_filter. split; [|done].
        apply mapped_counter_type_ids. by exists c0. }
      rewrite Hlast in Hin. by apply not_elem_of_nil in Hin. }
  apply (last_filter_sorted by_timestamp) in Hlast as (HPl & Hlr & Hmax);
    [|apply search_in_period_sorted].
  apply mapped_counter_type_ids in HPl.
  apply elem_of_search_in_period_day in Hlr as (Hlre & Hlp & Hl1 & Hl2).
  destruct (get_counter_value_reads e lr r0 c0) as (lv & Hlveq & Hlv);
    [done..|].
  unfold oid in Hlveq. rewrite Hlveq. simpl.
  assert (Hfinal : ∃ r, last_carrying (through_day_of date_to) e p date_from
                          (ct_id (counter_type_id c0)) r ∧
                        reads r (ct_id (counter_type_id c0)) lv).
  { exists lr. split; [|done]. split_and!; [done..|].
    intros r' Hr' Hc. apply Hmax.
    - by apply elem_of_search_in_period_day.
    - by apply mapped_counter_type_ids. }
  destruct (search_previous e (p_id p) date_from) as [prev|] eqn:Hprev.
  - apply search_previous_Some in Hprev as (Hpe & Hpp & Hpt & Hpmax).
    destruct (get_counter_value_reads e prev r0 c0) as (fv & Hfveq & Hfv);
      [done..|].
    unfold oid in Hfveq. rewrite Hfveq. simpl. eexists. split; [done|]. split; [done|].
    split_and!; simpl; [done|done|]. left. exists prev. by split.
  - simpl. eexists. split; [done|]. split; [done|].
    split_and!; simpl; [done|done|]. right. split; [|done].
    exact (search_previous_None _ _ _ Hprev).
Qed.

Lemma has_counters_in_period_iff e date_from date_to p :
  has_counters_in_period (through_day_of date_to) e date_from p ↔
  ∃ r, in_period (through_day_of date_to) e p date_from r ∧ counter_ids r ≠ [].
Proof.
  unfold has_counters_in_period, in_period. rewrite Exists_exists.
  split; intros (r & H); exists r; tauto.
Qed.

Lemma usage_of_printer_ok e date_from date_to p :
  wf_env e →
  (has_counters_in_period (through_day_of date_to) e date_from p →
   ∃ u, usage_of_printer e date_from (date_to_end date_to) p = Ok (Some u) ∧
        pu_printer u = p ∧ printer_usage_ok (through_day_of date_to) e date_from u) ∧
  (¬ has_counters_in_period (through_day_of date_to) e date_from p →
   usage_of_printer e date_from (date_to_end date_to) p = Ok None).
Proof.
  intros Hwf. unfold usage_of_printer.
  set (rs := search_in_period _ _ _ _).
  assert (Hrs : ∀ r, r ∈ rs ↔ in_period (through_day_of date_to) e p date_from r)
    by (intros r; apply elem_of_search_in_period_day).
  assert (Hk := λ t, usage_of_counter_type_ok e p date_from date_to t Hwf).
  fold rs in Hk. clearbody rs.
  split.
  - intros (r & Hr & Hcs)%has_counters_in_period_iff.
    apply Hrs in Hr.
    destruct (is_empty rs) eqn:Hers.
    { apply is_empty_true in Hers. rewrite Hers in Hr.
      by apply not_elem_of_nil in Hr. }
    destruct (is_empty (counter_types_in_period rs)) eqn:Hects.
    { apply is_empty_true in Hects.
      pose proof (proj1 (counter_types_in_period_nil rs) Hects r Hr).
      done. }
    apply is_empty_false in Hects.
    destruct (rmap_filter (usage_of_counter_type e p date_from rs)
                (λ _, True)
                (λ t k, cu_counter_type k = t ∧
                        counter_usage_ok (through_day_of date_to) e p date_from k)
                (counter_types_in_period rs)) as (ks & -> & HQ).
    { intros t Ht _. by apply Hk. }
    { intros t _ []. done. }
    rewrite filter_all in HQ by done. simpl.
    revert HQ. generalize (omap id ks). intros cd HQ.
    assert (Hids : ct_id ∘ cu_counter_type <$> cd
                   = ct_id <$> counter_types_in_period rs).
    { clear -HQ. induction HQ as [|t k ts ks' [<- _] _ IH]; [done|].
      by rewrite !fmap_cons, IH. }
    assert (Hall : Forall (counter_usage_ok (through_day_of date_to) e p date_from) cd).
    { clear -HQ. induction HQ as [|t k ts ks' [_ ?] _ IH]; by constructor. }
    destruct (is_empty cd) eqn:Heks.
    { apply is_empty_true in Heks. rewrite Heks in Hids.
      destruct (counter_types_in_period rs); done. }
    eexists. split; [done|]. split; [done|].
    split_and!; simpl; [| |done].
    + rewrite Hids. apply counter_types_in_period_NoDup.
    + intros t. rewrite Hids, counter_types_in_period_ids.
      by setoid_rewrite Hrs.
  - intros Hno. destruct (is_empty rs) eqn:Hers; [done|].
    destruct (is_empty (counter_types_in_period rs)) eqn:Hects; [done|].
    exfalso. apply Hno, has_counters_in_period_iff.
    apply is_empty_false in Hects.
    destruct (counter_types_in_period rs) as [|t1 ts'] eqn:Hcts; [done|].
    assert (ct_id t1 ∈ (ct_id <$> counter_types_in_period rs)) as Hin
      by (rewrite Hcts; left).
    apply counter_types_in_period_ids in Hin as (r & Hr & c & Hc & _).
    exists r. split; [by apply Hrs|]. intros Hnil. rewrite Hnil in Hc.
    by apply not_elem_of_nil in Hc.
Qed.

(** *** The whole calculation *)

(** C1, as amended. On a database that meets the declared constraints
    and in which no counter code is the OID of another counter type, for
    every partner and period [calculate_usage_by_printer] returns one
    entry for each printer of the partner that has, in the period, a
    reading carrying a counter, in the order of the printer search, and
    omits every other printer, in particular those without readings in
    the period and those whose readings carry no counters. An entry lists
    each counter type carried by the printer's readings of the period
    once, with [total_pages = max(0, counter_end - counter_start)], where
    [counter_end] is the counter value of a last reading of the period
    carrying that type and [counter_start] is the counter value of a
    latest reading strictly before [date_from], or 0 when the printer has
    no such reading. The period runs from [date_from] through the end of
    the day on which [date_to] falls: a reading of that day later than
    [date_to] belongs to it. A reading that lacks the type has counter
    value 0. *)
Theorem calculate_usage_by_printer_correct e partner_id date_from date_to :
  declared_constraints e → codes_apart e →
  usage_claim (through_day_of date_to) e partner_id date_from date_to.
Proof.
  intros Hd Hc. pose proof (wf_env_of e Hd Hc) as Hwf.
  unfold usage_claim, calculate_usage_by_printer.
  destruct (rmap_filter (usage_of_printer e date_from (date_to_end date_to))
              (has_counters_in_period (through_day_of date_to) e date_from)
              (λ p u, pu_printer u = p ∧
                      printer_usage_ok (through_day_of date_to) e date_from u)
              (filter (λ p, p_partner_id p = partner_id) (printers e)))
    as (us & -> & HQ).
  { intros p _. apply usage_of_printer_ok, Hwf. }
  { intros p _. apply usage_of_printer_ok, Hwf. }
  simpl. eexists. split; [done|].
  rewrite list_filter_filter in HQ.
  rewrite (list_filter_iff _ (λ p, p_partner_id p = partner_id ∧
             has_counters_in_period (through_day_of date_to) e date_from p))
    in HQ by (intros; tauto).
  revert HQ. generalize (omap id us). intros usage HQ. split.
  - induction HQ as [|p u ps usage' [<- _] _ IH]; [done|].
    by rewrite fmap_cons, IH.
  - induction HQ as [|p u ps usage' [_ ?] _ IH]; by constructor.
Qed.

Lemma calculate_usage_by_printer_correct_witness :
  usage_claim (through_day_of (ADatetime 172800)) Samples.fleet 7 86400
    (ADatetime 172800).
Proof.
  apply (calculate_usage_by_printer_correct Samples.fleet 7 86400
           (ADatetime 172800));
    apply (bool_decide_unpack _); vm_compute; exact I.
Defined.

(** C1 as stated fails, twice. With the period ending at [date_to]
    itself: printer 1 has a reading at 100 (counter 20) and one at 2000
    (counter 50), and for the period from 0 to the datetime 1000 the
    code takes the reading at 2000, which is later than [date_to] but of
    the same day, as the final one. Without the assumption on codes: on
    a database that meets every declared constraint, in which the code
    of one counter type is the OID of another, the call raises. *)
Lemma usage_claim_fails_as_stated :
  ¬ usage_claim (not_after 1000) Samples.late_reading_fleet 7 0
      (ADatetime 1000) ∧
  declared_constraints Samples.code_is_oid_fleet ∧
  ¬ usage_claim (not_after 1000) Samples.code_is_oid_fleet 7 0
      (ADatetime 1000).
Proof.
  split_and!.
  - intros (usage & Hcalc & _ & Hall).
    vm_compute in Hcalc. injection Hcalc as <-.
    apply Forall_cons in Hall as [(_ & _ & Hk) _].
    apply Forall_cons in Hk as [(_ & (r & (Hin & _ & _) & Hreads) & _) _].
    destruct Hin as (Hr & _ & _ & Hupto). unfold not_after in Hupto.
    simpl in Hr. apply elem_of_cons in Hr as [->|Hr].
    + destruct Hreads as [(c & Hc & _ & Hv)|[_ Hv]]; [|done].
      simpl in Hc. apply elem_of_cons in Hc as [->|Hc]; [done|].
      by apply not_elem_of_nil in Hc.
    + apply elem_of_cons in Hr as [->|Hr]; [simpl in Hupto; lia|].
      by apply not_elem_of_nil in Hr.
  - apply (bool_decide_unpack _). vm_compute. exact I.
  - intros (usage & Hcalc & _). by vm_compute in Hcalc.
Qed.

(** *** Totals are never negative *)

Lemma usage_of_counter_type_total e p date_from rs t k :
  usage_of_counter_type e p date_from rs t = Ok (Some k) →
  total_pages k = Z.max 0 (counter_end k - counter_start k).
Proof.
  unfold usage_of_counter_type.
  destruct (last _) as [lr|]; [|done].
  destruct (get_counter_value lr _) as [lv|]; [|done]. simpl.
  destruct (match search_previous e (p_id p) date_from with
            | Some prev => get_counter_value prev (ct_oid t)
            | None => Ok 0
            end) as [fv|]; [|done].
  simpl. by intros [= <-].
Qed.

Lemma usage_of_printer_totals e date_from dte p u :
  usage_of_printer e date_from dte p = Ok (Some u) →
  Forall (λ k, total_pages k = Z.max 0 (counter_end k - counter_start k))
         (counters u).
Proof.
  unfold usage_of_printer.
  destruct (is_empty (search_in_period _ _ _ _)); [done|].
  destruct (is_empty (counter_types_in_period _)); [done|].
  destruct (rmap _ _) as [found|] eqn:Hfound; [|done]. simpl.
  destruct (is_empty (omap id found)); [done|]. intros [= <-]. simpl.
  apply rmap_Ok_inv in Hfound.
  induction Hfound as [|t [k|] ts found' Hk _ IH]; simpl; [done| |done].
  constructor; [|done]. by eapply usage_of_counter_type_total.
Qed.

Lemma calculate_usage_totals e partner_id date_from date_to usage :
  calculate_usage_by_printer e partner_id date_from date_to = Ok usage →
  Forall (λ u, Forall (λ k, total_pages k
                            = Z.max 0 (counter_end k - counter_start k))
                      (counters u)) usage.
Proof.
  unfold calculate_usage_by_printer.
  destruct (rmap _ _) as [us|] eqn:Hus; [|done]. simpl. intros [= <-].
  apply rmap_Ok_inv in Hus.
  induction Hus as [|p [u|] ps us' Hu _ IH]; simpl; [done| |done].
  constructor; [|done]. by eapply usage_of_printer_totals.
Qed.

(** *** The documented cases against the computed start *)

(** C3. On a printer of partner 7 with two readings inside the period
    (counter 100, then 150) and none before it, the calculation returns
    [counter_start = 0] and 150 pages, whereas case 2 of its docstring
    (several readings in the period) documents the first reading of the
    period, 100, as the initial counter. *)
Theorem multiple_readings_start_from_zero :
  calculate_usage_by_printer Samples.new_printer_fleet 7 0 (ADatetime 1000)
  = Ok [ {| pu_printer := Samples.printer_1;
            pu_location := "HQ";
            counters := [ {| cu_counter_type := Samples.total_type;
                             counter_start := 0;
                             counter_end := 150;
                             total_pages := 150 |} ] |} ] ∧
  documented_counter_start Samples.new_printer_fleet Samples.printer_1 0
    (search_in_period Samples.new_printer_fleet 1 0
       (date_to_end (ADatetime 1000)))
    Samples.total_type
  = Ok 100.
Proof. split; vm_compute; reflexivity. Qed.

End ReadingFacts.

(** ** Billing reviews *)

Module ReviewFacts.
Import ReviewLine Review.

Lemma Zsum_cons x xs : Zsum (x :: xs) = x + Zsum xs.
Proof. done. Qed.

Lemma Zsum_nil : Zsum [] = 0.
Proof. done. Qed.

(** *** Insertion-ordered dicts *)

Lemma dict_update_keys {V} k (init : V) f d :
  (dict_update k init f d).*1 =
  if decide (k ∈ d.*1) then d.*1 else d.*1 ++ [k].
Proof.
  induction d as [|[k' v] d IH].
  - rewrite decide_False by apply not_elem_of_nil. done.
  - cbn [dict_update]. rewrite !fmap_cons. cbn [fst].
    destruct (decide (k' = k)) as [->|Hne].
    + rewrite decide_True by left. done.
    + rewrite fmap_cons, IH. cbn [fst].
      destruct (decide (k ∈ d.*1)) as [Hin|Hin].
      * rewrite decide_True by (by right). done.
      * rewrite decide_False; [done|].
        intros [?|?]%elem_of_cons; [by subst|done].
Qed.

Lemma dict_update_elem_of_keys {V} k (init : V) f d k' :
  k' ∈ (dict_update k init f d).*1 ↔ k' ∈ d.*1 ∨ k' = k.
Proof.
  rewrite dict_update_keys. case_decide as Hin.
  - split; [by left|]. intros [?| ->]; done.
  - rewrite elem_of_app, list_elem_of_singleton. done.
Qed.

Lemma dict_update_NoDup {V} k (init : V) f d :
  NoDup d.*1 → NoDup (dict_update k init f d).*1.
Proof.
  intros Hnd. rewrite dict_update_keys. case_decide as Hin; [done|].
  apply NoDup_app. split_and!; [done| |apply NoDup_singleton].
  intros x Hx ->%list_elem_of_singleton. done.
Qed.

Lemma dict_get_update {V} k (init : V) f d k' :
  dict_get k' (dict_update k init f d) =
  if decide (k' = k) then Some (f (default init (dict_get k d)))
  else dict_get k' d.
Proof.
  induction d as [|[k0 v] d IH]; simpl.
  - destruct (decide (k = k')), (decide (k' = k)); congruence.
  - destruct (decide (k0 = k)) as [->|Hne]; simpl.
    + destruct (decide (k = k')), (decide (k' = k)); congruence.
    + rewrite IH.
      destruct (decide (k0 = k')), (decide (k' = k)); congruence.
Qed.

Lemma dict_get_elem_of {V} k (v : V) d :
  NoDup d.*1 → (k, v) ∈ d → dict_get k d = Some v.
Proof.
  induction d as [|[k0 v0] d IH]; simpl.
  - by intros _ ?%not_elem_of_nil.
  - intros [Hk0 Hnd]%NoDup_cons [[= <- <-]|Hin]%elem_of_cons.
    + by rewrite decide_True.
    + rewrite decide_False; [by apply IH|].
      intros ->. apply Hk0. apply list_elem_of_fmap. by exists (k, v).
Qed.

(** *** Grouping by location *)

Lemma amount_at_group_step k d l :
  amount_at k (group_step d l) =
  amount_at k d + (if decide (location_key l = k) then estimated_amount l else 0).
Proof.
  unfold amount_at, group_step. rewrite dict_get_update.
  destruct (decide (k = location_key l)) as [->|Hne].
  - rewrite decide_True by done.
    destruct (dict_get (location_key l) d); simpl; lia.
  - rewrite decide_False by done. lia.
Qed.

Lemma amount_at_fold k ls acc :
  amount_at k (foldl group_step acc ls) =
  amount_at k acc +
  Zsum (estimated_amount <$> filter (λ l, location_key l = k) ls).
Proof.
  revert acc. induction ls as [|l ls IH]; intros acc; simpl; [lia|].
  rewrite IH, amount_at_group_step, filter_cons.
  repeat case_decide; try done; rewrite ?fmap_cons; unfold Zsum; simpl; lia.
Qed.

Lemma keys_fold ls acc k :
  k ∈ (foldl group_step acc ls).*1 ↔ k ∈ acc.*1 ∨ k ∈ location_key <$> ls.
Proof.
  revert acc. induction ls as [|l ls IH]; intros acc; simpl.
  - split; [by left|]. intros [?|?%not_elem_of_nil]; done.
  - rewrite IH. unfold group_step.
    rewrite dict_update_elem_of_keys, ?fmap_cons, elem_of_cons.
    split; [intros [[?| ->]|?]|intros [?|[->|?]]]; tauto.
Qed.

Lemma NoDup_fold ls acc :
  NoDup acc.*1 → NoDup (foldl group_step acc ls).*1.
Proof.
  revert acc. induction ls as [|l ls IH]; intros acc Hnd; simpl; [done|].
  apply IH. by apply dict_update_NoDup.
Qed.

Lemma total_of_group_step d l :
  total_of (group_step d l) = total_of d + estimated_amount l.
Proof.
  unfold total_of, group_step.
  induction d as [|[k v] d IH]; [simpl; lia|].
  cbn [dict_update]. case_decide.
  - rewrite !fmap_cons, !Zsum_cons. simpl. lia.
  - rewrite !fmap_cons, !Zsum_cons, IH. lia.
Qed.

Lemma total_of_fold ls acc :
  total_of (foldl group_step acc ls) =
  total_of acc + Zsum (estimated_amount <$> ls).
Proof.
  revert acc. induction ls as [|l ls IH]; intros acc; [simpl; lia|].
  cbn [foldl]. rewrite IH, total_of_group_step, fmap_cons, Zsum_cons. lia.
Qed.

(** *** Lines that printed nothing cost nothing *)

Lemma counter_total_pages_nonneg c : 0 ≤ ReviewCounter.total_pages c.
Proof. unfold ReviewCounter.total_pages. lia. Qed.

Lemma Zsum_nonneg xs : Forall (λ x, 0 ≤ x) xs → 0 ≤ Zsum xs.
Proof. induction 1; rewrite ?Zsum_nil, ?Zsum_cons; lia. Qed.

Lemma no_pages_no_amount (cs : list ReviewCounter.counter) :
  Zsum (ReviewCounter.total_pages <$> cs) ≤ 0 →
  Zsum (ReviewCounter.subtotal <$> cs) = 0.
Proof.
  induction cs as [|c cs IH]; [done|].
  rewrite !fmap_cons, !Zsum_cons. intros Hle.
  assert (0 ≤ Zsum (ReviewCounter.total_pages <$> cs)).
  { apply Zsum_nonneg, Forall_fmap, Forall_forall.
    intros ? _. apply counter_total_pages_nonneg. }
  pose proof (counter_total_pages_nonneg c).
  rewrite IH by lia. unfold ReviewCounter.subtotal.
  replace (ReviewCounter.total_pages c) with 0 by lia. lia.
Qed.

Lemma line_without_pages l : total_pages l ≤ 0 → estimated_amount l = 0.
Proof.
  unfold total_pages, estimated_amount. intros Hle.
  destruct (include_in_invoice l); [|done]. by apply no_pages_no_amount.
Qed.

Lemma billed_amount_is_total (ls : list line) :
  Zsum (estimated_amount <$>
          filter (λ l, include_in_invoice l = true ∧ 0 < total_pages l) ls) =
  Zsum (estimated_amount <$> filter (λ l, include_in_invoice l = true) ls).
Proof.
  induction ls as [|l ls IH]; [done|].
  rewrite !filter_cons. repeat case_decide; rewrite ?fmap_cons, ?Zsum_cons.
  - lia.
  - tauto.
  - rewrite line_without_pages by (destruct (decide (0 < total_pages l)); [tauto|lia]).
    lia.
  - done.
Qed.

(** *** The invoice of a review grouped by location *)

Lemma location_invoice_lines_locations r d :
  invoice_location <$> location_invoice_lines r d = d.*1.
Proof.
  unfold location_invoice_lines.
  induction d as [|[k v] d IH]; [done|]. rewrite !fmap_cons, IH. done.
Qed.

Lemma location_invoice_lines_prices r d :
  price_unit <$> location_invoice_lines r d = ld_total_amount ∘ snd <$> d.
Proof.
  unfold location_invoice_lines.
  induction d as [|[k v] d IH]; [done|]. rewrite !fmap_cons, IH. done.
Qed.

Lemma location_invoice_lines_each r d :
  NoDup d.*1 →
  Forall (λ il, quantity il = 1 ∧
                price_unit il = amount_at (invoice_location il) d)
         (location_invoice_lines r d).
Proof.
  intros Hnd. apply Forall_forall. intros il Hil.
  unfold location_invoice_lines in Hil.
  apply list_elem_of_fmap in Hil as ([k v] & -> & Hin). simpl.
  split; [done|]. unfold amount_at, invoice_location. simpl.
  by rewrite (dict_get_elem_of k v d).
Qed.

Lemma location_key_at name l : location_key l = name ↔ ReviewSpec.at_location name l.
Proof.
  unfold location_key, ReviewSpec.at_location, sin_ubicacion.
  destruct (location_name l) as [s|]; [|by split].
  case_decide as Hs.
  - split; [intros <-; by right|]. by intros [[? _]|[_ ->]].
  - split; [intros <-; by left|]. by intros [[_ ->]|[? _]].
Qed.

(** C2. When a review with [group_by_location] generates an invoice,
    the invoice has exactly one line per distinct location name among
    the lines included in the invoice that have [total_pages > 0]: no
    two invoice lines are made out for the same location, and a location
    has an invoice line exactly when one of those review lines is at it
    (the name of its printer's location; 'Sin ubicación' for a printer
    without location or with an unnamed one). Each invoice line has
    quantity 1 and a [price_unit] equal to the sum of [estimated_amount]
    of the lines at its location; and the [price_unit] of all invoice
    lines add up to the review's [total_amount]. *)
Theorem invoice_lines_by_location now w w' :
  group_by_location (self w) = true →
  action_generate_invoice now w = Ok w' →
  let billed := filter (λ l, include_in_invoice l = true ∧ 0 < total_pages l)
                       (line_ids (self w)) in
  ∃ invoice,
    moves w' = moves w ++ [invoice] ∧
    invoice_id (self w') = Some (move_id invoice) ∧
    NoDup (invoice_location <$> invoice_line_ids invoice) ∧
    (∀ loc, loc ∈ invoice_location <$> invoice_line_ids invoice ↔
            ∃ l, l ∈ billed ∧ ReviewSpec.at_location loc l) ∧
    Forall (λ il,
              quantity il = 1 ∧
              price_unit il =
                Zsum (estimated_amount <$>
                        filter (ReviewSpec.at_location (invoice_location il))
                               billed))
           (invoice_line_ids invoice) ∧
    Zsum (price_unit <$> invoice_line_ids invoice) = total_amount (self w').
Proof.
  intros Hgroup. unfold action_generate_invoice.
  case_decide as Hst; [done|].
  set (billed := filter _ (line_ids (self w))).
  destruct (is_empty billed) eqn:Hempty; [done|].
  rewrite Hgroup. intros [= <-]. simpl. eexists. split; [done|].
  split; [done|]. simpl. unfold group_lines.
  assert (Hnd : NoDup (foldl group_step [] billed).*1)
    by (apply NoDup_fold; constructor).
  split_and!.
  - by rewrite location_invoice_lines_locations.
  - intros loc. rewrite location_invoice_lines_locations, keys_fold.
    split.
    + intros [?%not_elem_of_nil|(l & -> & Hl)%list_elem_of_fmap]; [done|].
      exists l. split; [done|]. by apply location_key_at.
    + intros (l & Hl & Hat). right. apply list_elem_of_fmap.
      exists l. split; [|done]. symmetry. by apply location_key_at.
  - eapply Forall_impl; [by apply location_invoice_lines_each|].
    intros il [-> ->]. split; [done|].
    rewrite amount_at_fold. unfold amount_at. simpl.
    rewrite (list_filter_iff (ReviewSpec.at_location (invoice_location il))
               (λ l, location_key l = invoice_location il))
      by (intros l; symmetry; apply location_key_at).
    lia.
  - rewrite location_invoice_lines_prices.
    fold (total_of (foldl group_step [] billed)).
    rewrite total_of_fold. unfold billed.
    rewrite billed_amount_is_total. done.
Qed.

Lemma invoice_lines_by_location_witness :
  ∃ w', action_generate_invoice 200000 Samples.office = Ok w' ∧
    ∃ invoice,
      moves w' = moves Samples.office ++ [invoice] ∧
      invoice_id (self w') = Some (move_id invoice) ∧
      NoDup (invoice_location <$> invoice_line_ids invoice) ∧
      (∀ loc, loc ∈ invoice_location <$> invoice_line_ids invoice ↔
              ∃ l, l ∈ filter (λ l, include_in_invoice l = true ∧
                                    0 < total_pages l)
                          (line_ids (self Samples.office)) ∧
                   ReviewSpec.at_location loc l) ∧
      Forall (λ il,
                quantity il = 1 ∧
                price_unit il =
                  Zsum (estimated_amount <$>
                          filter (ReviewSpec.at_location (invoice_location il))
                            (filter (λ l, include_in_invoice l = true ∧
                                          0 < total_pages l)
                                    (line_ids (self Samples.office)))))
             (invoice_line_ids invoice) ∧
      Zsum (price_unit <$> invoice_line_ids invoice) = total_amount (self w').
Proof.
  eexists. split; [vm_compute; reflexivity|].
  apply (invoice_lines_by_location 200000 Samples.office);
    vm_compute; reflexivity.
Defined.

(** *** Review counters *)

Lemma check_counters_valid_spec (c : ReviewCounter.counter) :
  match ReviewCounter._check_counters_valid c with
  | Ok _ => 0 ≤ ReviewCounter.counter_start c ≤ ReviewCounter.counter_end c
  | Raise e =>
      (∃ msg, e = ValidationError msg) ∧
      ¬ (0 ≤ ReviewCounter.counter_start c ≤ ReviewCounter.counter_end c)
  end.
Proof.
  unfold ReviewCounter._check_counters_valid.
  repeat case_decide; try (split; [by eexists|lia]). lia.
Qed.

Lemma create_counter_spec (vals : ReviewCounter.counter) :
  match ReviewCounter.create vals with
  | Ok c =>
      c = vals ∧
      0 ≤ ReviewCounter.counter_start c ≤ ReviewCounter.counter_end c ∧
      ReviewCounter.total_pages c =
        Z.max 0 (ReviewCounter.counter_end c - ReviewCounter.counter_start c) ∧
      0 ≤ ReviewCounter.total_pages c
  | Raise e =>
      (∃ msg, e = ValidationError msg) ∧
      ¬ (0 ≤ ReviewCounter.counter_start vals ≤ ReviewCounter.counter_end vals)
  end.
Proof.
  unfold ReviewCounter.create.
  pose proof (check_counters_valid_spec vals) as H.
  destruct (ReviewCounter._check_counters_valid vals); simpl; [|done].
  split_and!; [done|lia|lia|done|apply counter_total_pages_nonneg].
Qed.

(** C8. Billed page counts are never negative: every per-counter total
    that [calculate_usage_by_printer] returns is
    [max(0, counter_end - counter_start)], hence at least 0; creating or
    writing a review counter either stores it with
    [0 <= counter_start <= counter_end], or raises a validation error,
    which it does exactly when that fails; and the computed
    [total_pages] of a stored counter is
    [max(0, counter_end - counter_start)]. *)
Theorem billed_pages_never_negative :
  (∀ e partner_id date_from date_to,
     match Reading.calculate_usage_by_printer e partner_id date_from date_to
     with
     | Ok usage =>
         Forall (λ u,
           Forall (λ k,
             Reading.total_pages k =
               Z.max 0 (Reading.counter_end k - Reading.counter_start k) ∧
             0 ≤ Reading.total_pages k) (Reading.counters u)) usage
     | Raise _ => True
     end) ∧
  (∀ vals,
     match ReviewCounter.create vals with
     | Ok c =>
         c = vals ∧
         0 ≤ ReviewCounter.counter_start c ≤ ReviewCounter.counter_end c ∧
         ReviewCounter.total_pages c =
           Z.max 0 (ReviewCounter.counter_end c
                    - ReviewCounter.counter_start c) ∧
         0 ≤ ReviewCounter.total_pages c
     | Raise e =>
         (∃ msg, e = ValidationError msg) ∧
         ¬ (0 ≤ ReviewCounter.counter_start vals
              ≤ ReviewCounter.counter_end vals)
     end) ∧
  (∀ c new_start new_end,
     match ReviewCounter.write c new_start new_end with
     | Ok c' =>
         ReviewCounter.counter_start c' = new_start ∧
         ReviewCounter.counter_end c' = new_end ∧
         0 ≤ new_start ≤ new_end ∧
         ReviewCounter.total_pages c' = Z.max 0 (new_end - new_start) ∧
         0 ≤ ReviewCounter.total_pages c'
     | Raise e =>
         (∃ msg, e = ValidationError msg) ∧ ¬ (0 ≤ new_start ≤ new_end)
     end).
Proof.
  split_and!.
  - intros e partner_id date_from date_to.
    destruct (Reading.calculate_usage_by_printer _ _ _ _) as [usage|] eqn:Hu;
      [|done].
    apply ReadingFacts.calculate_usage_totals in Hu.
    eapply Forall_impl; [exact Hu|]. intros u Hku.
    eapply Forall_impl; [exact Hku|]. intros k Hk. simpl in Hk.
    split; [done|]. rewrite Hk. lia.
  - apply create_counter_spec.
  - intros c new_start new_end. unfold ReviewCounter.write.
    pose proof (create_counter_spec
      {| ReviewCounter.counter_type_id := ReviewCounter.counter_type_id c;
         ReviewCounter.counter_start := new_start;
         ReviewCounter.counter_end := new_end;
         ReviewCounter.unit_price := ReviewCounter.unit_price c |}) as H.
    destruct (ReviewCounter.create _) as [c'|]; [|done].
    destruct H as (-> & ? & ? & ?). done.
Qed.

(** *** Prices *)

Lemma NoDup_fmap_elem_eq {A B} (f : A → B) (l : list A) x y :
  NoDup (f <$> l) → x ∈ l → y ∈ l → f x = f y → x = y.
Proof.
  induction l as [|a l IH]; [by intros _ ?%not_elem_of_nil|].
  rewrite fmap_cons, NoDup_cons.
  intros [Ha Hnd] [->|Hx]%elem_of_cons [->|Hy]%elem_of_cons Hf; [done|..].
  - exfalso. apply Ha. rewrite Hf. by apply list_elem_of_fmap_2.
  - exfalso. apply Ha. rewrite <-Hf. by apply list_elem_of_fmap_2.
  - by apply IH.
Qed.

Lemma get_price_configured prices partner counter_type pr :
  Prices.partner_counter_unique prices →
  pr ∈ prices → Prices.partner_id pr = partner →
  Prices.counter_type_id pr = counter_type →
  Prices.get_price_for_partner_counter prices partner counter_type
  = Prices.unit_price pr.
Proof.
  intros Huniq Hpr Hp Hc. unfold Prices.get_price_for_partner_counter.
  destruct (head _) as [pr'|] eqn:Hhead.
  - apply head_Some_elem_of, list_elem_of_filter in Hhead as [[Hp' Hc'] Hin].
    f_equal. symmetry.
    apply (NoDup_fmap_elem_eq _ prices pr pr' Huniq Hpr Hin). simpl.
    congruence.
  - apply head_None in Hhead.
    assert (pr ∈ filter (λ pr, Prices.partner_id pr = partner ∧
                               Prices.counter_type_id pr = counter_type)
                        prices) as Hin
      by (by apply list_elem_of_filter).
    rewrite Hhead in Hin. by apply not_elem_of_nil in Hin.
Qed.

Lemma get_price_unconfigured prices partner counter_type :
  ¬ Prices.priced prices partner counter_type →
  Prices.get_price_for_partner_counter prices partner counter_type = 0.
Proof.
  intros Hno. unfold Prices.get_price_for_partner_counter.
  destruct (head _) as [pr'|] eqn:Hhead; [|done].
  apply head_Some_elem_of, list_elem_of_filter in Hhead as [? Hin].
  exfalso. apply Hno. apply Exists_exists. eauto.
Qed.

(** *** The lines the wizard creates *)

Lemma create_lines_priced prices partner usage ls :
  create_lines prices partner usage = Ok ls →
  Forall (λ l, include_in_invoice l = true ∧
               Forall (priced_by prices partner) (counter_line_ids l)) ls.
Proof.
  unfold create_lines. intros Hls%rmap_Ok_inv.
  induction Hls as [|u l us ls' Hl _ IH]; constructor; [|done].
  destruct (rmap _ (Reading.counters u)) as [cs|] eqn:Hcs; [|done].
  simpl in Hl. injection Hl as <-. simpl. split; [done|].
  apply rmap_Ok_inv in Hcs. clear -Hcs.
  induction Hcs as [|k c ks cs' Hc _ IH]; constructor; [|done].
  unfold ReviewCounter.create in Hc.
  destruct (ReviewCounter._check_counters_valid _); [|done].
  simpl in Hc. by injection Hc as <-.
Qed.

Lemma unpriced_counters_add_nothing (P : ReviewCounter.counter → Prop)
    `{!∀ c, Decision (P c)} (cs : list ReviewCounter.counter) :
  Forall (λ c, ¬ P c → ReviewCounter.subtotal c = 0) cs →
  Zsum (ReviewCounter.subtotal <$> cs) =
  Zsum (ReviewCounter.subtotal <$> filter P cs).
Proof.
  induction 1 as [|c cs Hc _ IH]; [done|].
  rewrite filter_cons, fmap_cons, Zsum_cons.
  case_decide; rewrite ?fmap_cons, ?Zsum_cons, ?Hc by done; lia.
Qed.

(** C9. [get_price_for_partner_counter] returns the configured
    [unit_price] when a price row exists for the (partner, counter type)
    pair and 0 when none exists; so, in the lines of a review that the
    wizard creates, every counter carries the price found for its type,
    a counter without configured price has [unit_price] 0 and subtotal 0,
    and the estimated amount of a line is the sum over its priced
    counters alone. *)
Theorem unpriced_counters_are_free e prices review_name wz partner review :
  Prices.partner_counter_unique prices →
  Wizard.partner_id wz = Some partner →
  Wizard.action_generate_invoice e prices review_name wz = Ok review →
  (∀ counter_type pr,
     pr ∈ prices → Prices.partner_id pr = partner →
     Prices.counter_type_id pr = counter_type →
     Prices.get_price_for_partner_counter prices partner counter_type
     = Prices.unit_price pr) ∧
  (∀ counter_type,
     ¬ Prices.priced prices partner counter_type →
     Prices.get_price_for_partner_counter prices partner counter_type = 0) ∧
  Forall (λ l,
     Forall (λ c,
       let t := Reading.ct_id (ReviewCounter.counter_type_id c) in
       ReviewCounter.unit_price c =
         Prices.get_price_for_partner_counter prices partner t ∧
       (¬ Prices.priced prices partner t →
        ReviewCounter.unit_price c = 0 ∧ ReviewCounter.subtotal c = 0))
       (counter_line_ids l) ∧
     estimated_amount l =
       Zsum (ReviewCounter.subtotal <$>
               filter (λ c, Prices.priced prices partner
                              (Reading.ct_id (ReviewCounter.counter_type_id c)))
                      (counter_line_ids l)))
    (line_ids review).
Proof.
  intros Huniq Hpartner Hwz. split_and!.
  - intros counter_type pr. by apply get_price_configured.
  - apply get_price_unconfigured.
  - unfold Wizard.action_generate_invoice in Hwz. rewrite Hpartner in Hwz.
    destruct (Reading.calculate_usage_by_printer _ _ _ _) as [usage|];
      [|done].
    simpl in Hwz. destruct (is_empty usage); [done|].
    destruct (create_lines prices partner usage) as [ls|] eqn:Hls; [|done].
    simpl in Hwz. injection Hwz as <-. simpl.
    apply create_lines_priced in Hls.
    eapply Forall_impl; [exact Hls|]. intros l [Hincl Hcs]. simpl in *.
    assert (Hfree : Forall (λ c,
              ¬ Prices.priced prices partner
                  (Reading.ct_id (ReviewCounter.counter_type_id c)) →
              ReviewCounter.subtotal c = 0) (counter_line_ids l)).
    { eapply Forall_impl; [exact Hcs|]. intros c Hc Hno.
      unfold ReviewCounter.subtotal. rewrite Hc.
      rewrite get_price_unconfigured by done. lia. }
    split.
    + eapply Forall_impl; [exact Hcs|]. intros c Hc. split; [exact Hc|].
      intros Hno. unfold ReviewCounter.subtotal. rewrite Hc.
      rewrite get_price_unconfigured by done. lia.
    + unfold estimated_amount. rewrite Hincl.
      by apply unpriced_counters_add_nothing.
Qed.

Lemma unpriced_counters_are_free_witness :
  ∃ review,
    Wizard.action_generate_invoice Samples.fleet Samples.price_list
      "REV/0002" Samples.wizard_7 = Ok review ∧
    Prices.get_price_for_partner_counter Samples.price_list 7 2 = 0 ∧
    Forall (λ l,
      estimated_amount l =
        Zsum (ReviewCounter.subtotal <$>
                filter (λ c, Prices.priced Samples.price_list 7
                               (Reading.ct_id (ReviewCounter.counter_type_id c)))
                       (counter_line_ids l)))
      (line_ids review).
Proof.
  eexists. split; [vm_compute; reflexivity|].
  destruct (unpriced_counters_are_free Samples.fleet Samples.price_list
              "REV/0002" Samples.wizard_7 7 _
              ltac:(apply (bool_decide_unpack _); vm_compute; exact I)
              ltac:(reflexivity) ltac:(vm_compute; reflexivity))
    as (_ & Hzero & Hlines).
  split.
  - apply Hzero. apply (bool_decide_unpack _). vm_compute. exact I.
  - eapply Forall_impl; [exact Hlines|]. intros l [_ Hl]. exact Hl.
Defined.

(** *** The state machine of a review *)

Lemma invoiced_blocks_generate now w :
  state (self w) = invoiced →
  ∃ msg, action_generate_invoice now w = Raise (UserError msg).
Proof.
  intros Hst. unfold action_generate_invoice.
  rewrite decide_True by done. by eexists.
Qed.

Lemma invoiced_blocks_cancel w :
  state (self w) = invoiced → ∃ msg, action_cancel w = Raise (UserError msg).
Proof.
  intros Hst. unfold action_cancel. rewrite decide_True by done. by eexists.
Qed.

Lemma invoice_blocks_set_to_draft w :
  is_Some (invoice_id (self w)) →
  ∃ msg, action_set_to_draft w = Raise (UserError msg).
Proof.
  intros [i Hi]. unfold action_set_to_draft. rewrite Hi. by eexists.
Qed.

(** No button detaches an invoice from its review. *)
Lemma invoice_stays_attached now uid w a :
  is_Some (invoice_id (self w)) → is_Some (invoice_id (self (step now uid w a))).
Proof.
  intros Hinv. unfold step.
  destruct (run now uid a w) as [w'|] eqn:Hrun; [|done].
  destruct a; simpl in Hrun.
  - unfold action_confirm in Hrun.
    destruct (is_empty _); [done|]. by injection Hrun as <-.
  - unfold action_generate_invoice in Hrun.
    case_decide; [done|]. destruct (is_empty _); [done|].
    injection Hrun as <-. simpl. by eexists.
  - unfold action_recalculate_all in Hrun.
    case_decide; [done|].
    destruct (Reading.calculate_usage_by_printer _ _ _ _); [|done].
    simpl in Hrun. destruct (create_lines _ _ _); [|done].
    simpl in Hrun. by injection Hrun as <-.
  - unfold action_cancel in Hrun. case_decide; [done|].
    by injection Hrun as <-.
  - unfold action_set_to_draft in Hrun.
    destruct Hinv as [i Hi]. by rewrite Hi in Hrun.
Qed.

(** [action_confirm] asks only for a line: it accepts a review in any
    state. *)
Lemma confirm_ignores_state now uid w :
  line_ids (self w) ≠ [] →
  ∃ w', action_confirm now uid w = Ok w' ∧
        state (self w') = confirmed ∧
        invoice_id (self w') = invoice_id (self w) ∧
        moves w' = moves w.
Proof.
  intros Hne. unfold action_confirm.
  apply is_empty_false in Hne. rewrite Hne. by eexists.
Qed.

(** C7. From the draft review of the sample office, generating the
    invoice, confirming and generating again all succeed: the invoiced
    review, whose invoice is move 1, goes back to 'confirmed' through
    [action_confirm], and the second [action_generate_invoice] makes out
    move 2 for the same lines and attaches it in place of move 1. *)
Theorem invoiced_review_invoiced_again :
  ∃ w1 w2 w3,
    action_generate_invoice 200000 Samples.office = Ok w1 ∧
    state (self w1) = invoiced ∧ invoice_id (self w1) = Some 1 ∧
    action_confirm 200100 1 w1 = Ok w2 ∧
    state (self w2) = confirmed ∧ invoice_id (self w2) = Some 1 ∧
    action_generate_invoice 200200 w2 = Ok w3 ∧
    state (self w3) = invoiced ∧ invoice_id (self w3) = Some 2 ∧
    move_id <$> moves w3 = [1; 2] ∧
    (invoice_line_ids <$> moves w3) !! 0%nat
      = (invoice_line_ids <$> moves w3) !! 1%nat.
Proof.
  do 3 eexists.
  split_and!; [vm_compute; reflexivity..].
Qed.

End ReviewFacts.

(** ** The ingestion API *)

Module ApiFacts.
Import Api.

(** *** Severities *)

(** C10. [normalize_severity] is total on strings and always returns one
    of 'low', 'medium', 'high', 'critical': it maps 'info' to 'low',
    'warning' to 'medium', 'error' to 'high', 'critical' to 'critical',
    leaves 'low', 'medium' and 'high' unchanged, and returns 'medium' for
    every other string. *)
Theorem normalize_severity_total (severity_str : string) :
  ∃ normalized,
    normalize_severity (JStr severity_str) = Ok normalized ∧
    normalized ∈ ["low"; "medium"; "high"; "critical"] ∧
    (severity_str = "info" → normalized = "low") ∧
    (severity_str = "warning" → normalized = "medium") ∧
    (severity_str = "error" → normalized = "high") ∧
    (severity_str = "critical" → normalized = "critical") ∧
    (severity_str ∈ ["low"; "medium"; "high"] → normalized = severity_str) ∧
    (severity_str ∉ ["info"; "warning"; "error"; "critical";
                     "low"; "medium"; "high"] → normalized = "medium").
Proof.
  eexists. split; [done|]. unfold severity_map. cbn [dict_get].
  repeat case_decide; subst; simpl;
    (split_and!;
      [ set_solver
      | try done ..
      | intros Hin; repeat (apply elem_of_cons in Hin as [Hin|Hin]; [done|]);
        by apply not_elem_of_nil in Hin
      | intros Hnot; try done; exfalso; apply Hnot; set_solver ]).
Qed.

(** *** The token check *)

Lemma search_one_token t s :
  search_one "printer.location"
    [("access_token", op_eq, JStr t); ("is_active", op_eq, JBool true)] s
  = (s, Ok (head (search (db s) "printer.location"
                    [("access_token", op_eq, VStr t);
                     ("is_active", op_eq, VBool true)]))).
Proof. done. Qed.

Lemma elem_of_search d model domain r :
  r ∈ search d model domain ↔
  r ∈ records d model ∧ Forall (λ t, term_holds t r) domain.
Proof. unfold search. rewrite list_elem_of_filter. tauto. Qed.

(** C4. Every sync endpoint is token-authenticated. A request without
    the [X-Location-Token] header, or with an empty one, is answered
    with HTTP 401. A request whose token belongs to no active location
    with an active token (no active location has it, or the location
    that has it has [token_active] false) is answered with HTTP 403. In
    both cases the database is left as it was. Whenever the endpoint
    body runs and answers, the request carried a token that an active
    location with an active token grants, and the body ran for that
    location, after the token usage was recorded. *)
Theorem sync_endpoints_token_authenticated pf ep req d :
  (token_header req = None ∨ token_header req = Some "" →
   ∃ msg, route pf ep req d = (d, Ok (HttpResponse 401 msg))) ∧
  (∀ t, token_header req = Some t → t ≠ "" →
        (∀ location,
           location ∈ records d "printer.location" →
           field "access_token" location = VStr t →
           field "is_active" location = VBool true →
           value_truthy (field "token_active" location) = false) →
        ∃ msg, route pf ep req d = (d, Ok (HttpResponse 403 msg))) ∧
  (∀ d' r, route pf ep req d = (d', Ok (Handled r)) →
           ∃ t location s s',
             token_header req = Some t ∧ t ≠ "" ∧ grants d t location ∧
             update_token_usage pf location (start d) = (s, Ok ()) ∧
             endpoint_body pf ep location req s = (s', Ok r) ∧
             d' = db s').
Proof.
  unfold route, validate_location_token. split_and!.
  - intros [-> | ->]; by eexists.
  - intros t -> Hne Hall. rewrite bool_decide_eq_false_2 by done.
    unfold bind. rewrite search_one_token. simpl db.
    destruct (head _) as [location|] eqn:Hhead; [|by eexists].
    apply head_Some_elem_of, elem_of_search in Hhead as [Hin Hdom].
    apply Forall_cons in Hdom as [Ha Hdom].
    apply Forall_cons in Hdom as [Hb _]. simpl in Ha, Hb.
    rewrite (Hall location Hin Ha Hb). by eexists.
  - intros d' r. destruct (token_header req) as [t|]; [|done].
    case_bool_decide as Hne; [done|].
    unfold bind. rewrite search_one_token. simpl db.
    destruct (head _) as [location|] eqn:Hhead; [|done].
    apply head_Some_elem_of, elem_of_search in Hhead as [Hin Hdom].
    apply Forall_cons in Hdom as [Ha Hdom].
    apply Forall_cons in Hdom as [Hb _]. simpl in Ha, Hb.
    destruct (value_truthy (field "token_active" location)) eqn:Hactive;
      [|done].
    simpl.
    destruct (update_token_usage pf location (start d)) as [s [[]|e]] eqn:Hu;
      [|done].
    destruct (endpoint_body pf ep location req s) as [s' [r'|e]] eqn:Hbody;
      [|done].
    simpl. intros [= <- <-].
    exists t, location, s, s'. by split_and!.
Qed.

(** *** Failures of single items *)

(** C6. For every sync endpoint and every payload whose list starts with
    an item that is not an object (here a number), whatever follows: the
    [except] clause of the loop itself raises, on
    [item.get(..., 'unknown')], so the failure is not recorded in
    [errors], the remaining items are not processed, and the endpoint
    answers [{'status': 'error'}] from its outer handler, with the state
    as it was. *)
Theorem item_failure_escapes_the_loop pf ep location token n rest s :
  endpoint_body pf ep location
    (Request token (Some (JObj [(payload_key ep, JArr (JNum n :: rest))]))) s
  = (s, Ok (Response "error" [] None
              (Some (AttributeError "object has no attribute 'get'")))).
Proof. destruct ep; reflexivity. Qed.



(** *** Tables *)




Lemma foldr_max_ge (ks : list Z) k : k ∈ ks → k ≤ foldr Z.max 0 ks.
Proof.
  induction ks as [|k' ks IH]; [by intros ?%not_elem_of_nil|].
  intros [->|Hin]%elem_of_cons; simpl; [lia|]. specialize (IH Hin). lia.
Qed.


(** *** The scope relation *)

Lemma reading_at_stays loc d d' rid :
  scoped loc d d' → reading_at loc d rid → reading_at loc d' rid.
Proof.
  intros Hsc (r & Hr & pid & Hpid & Hat).
  exists r. split; [by apply (scoped_readings_kept _ _ _ Hsc)|].
  exists pid. split; [done|]. by apply (scoped_stay _ _ _ Hsc).
Qed.

Lemma for_printer_at_stays loc d d' r :
  scoped loc d d' → for_printer_at loc d r → for_printer_at loc d' r.
Proof.
  intros Hsc (pid & Hpid & Hat). exists pid. split; [done|].
  by apply (scoped_stay _ _ _ Hsc).
Qed.

#[global] Instance scoped_refl loc : Reflexive (scoped loc).
Proof. intros d. split; auto. Qed.

#[global] Instance scoped_trans loc : Transitive (scoped loc).
Proof.
  intros d1 d2 d3 H12 H23. split.
  - intros pid r Hr.
    destruct (scoped_printers _ _ _ H23 pid r Hr) as [Hr2|?]; [|by right].
    by apply (scoped_printers _ _ _ H12).
  - intros pid Hat. by apply (scoped_stay _ _ _ H23), (scoped_stay _ _ _ H12).
  - intros m id r Hm Hr.
    destruct (scoped_children _ _ _ H23 m id r Hm Hr) as [Hr2|?]; [|by right].
    destruct (scoped_children _ _ _ H12 m id r Hm Hr2) as [?|Hfor];
      [by left|right].
    by eapply for_printer_at_stays.
  - intros id r Hr.
    by apply (scoped_readings_kept _ _ _ H23), (scoped_readings_kept _ _ _ H12).
  - intros id c Hc.
    destruct (scoped_counters _ _ _ H23 id c Hc) as [Hc2|?]; [|by right].
    destruct (scoped_counters _ _ _ H12 id c Hc2) as [?|(rid & ? & Hat)];
      [by left|right].
    exists rid. split; [done|]. by eapply reading_at_stays.
Qed.






(** *** What [create] and [write] do to the database *)





(** *** Rules for staying within the scope *)

Section rules.
Context (pf : platform) (loc : Z).
Implicit Types pids rids : list Z.




Lemma keeps_weaken pids rids {A} (m : M A) (Q Q' : A → Prop) :
  keeps loc pids rids m Q' → (∀ a, Q' a → Q a) → keeps loc pids rids m Q.
Proof.
  intros Hm HQ s s' res Hg Hrun. destruct (Hm s s' res Hg Hrun) as [? H].
  split; [done|]. intros a Ha. by apply HQ, H.
Qed.






(** More may be known than a computation needs. *)
Lemma keeps_forget pids rids pids' rids' {A} (m : M A) (Q : A → Prop) :
  pids' ⊆ pids → rids' ⊆ rids →
  keeps loc pids' rids' m Q → keeps loc pids rids m Q.
Proof.
  intros Hp Hr Hm s s' res [Hgp Hgr]. apply Hm. split.
  - apply Forall_forall. intros pid Hpid.
    rewrite Forall_forall in Hgp. by apply Hgp, Hp.
  - apply Forall_forall. intros rid Hrid.
    rewrite Forall_forall in Hgr. by apply Hgr, Hr.
Qed.















End rules.


(** *** sync_printers stays within the location *)







(** *** sync_readings stays within the location *)









(** *** sync_consumables and sync_alerts stay within the location *)














(** *** The scope of a request *)


Lemma skipped_state_eq s :
  incr_skipped s
  = (SyncState (db s) (created s) (updated s) (skipped s + 1) (duplicates s)
       (errors s), Ok ()).
Proof. done. Qed.


(** *** The sample site *)

(** The token of headquarters reaches [sync_readings]; the deactivated
    token of the depot and the token of the closed location get 403; no
    token gets 401. Of the three readings sent for headquarters, the
    first is stored, the second fails on the duplicate timestamp and is
    reported, the third names a printer of the depot and is skipped. *)
Example token_check_on_site :
  (route ApiSamples.odoo SyncReadings
     (Request (Some "tok-hq") (Some ApiSamples.three_readings))
     ApiSamples.site).2
  = Ok (Handled
          (Response "partial_success"
             [("location", JStr "HQ"); ("created", JNum 1);
              ("skipped", JNum 1); ("total", JNum 3)]
             (Some [Failure "lectura" (JStr "10.0.0.14")
                      (ValidationError "Ya existe una lectura")])
             None)) ∧
  (route ApiSamples.odoo SyncReadings
     (Request (Some "tok-depot") (Some ApiSamples.three_readings))
     ApiSamples.site).2 = Ok (HttpResponse 403 "Token desactivado") ∧
  (route ApiSamples.odoo SyncReadings
     (Request (Some "tok-closed") (Some ApiSamples.three_readings))
     ApiSamples.site).2 = Ok (HttpResponse 403 "Token inválido o inactivo") ∧
  (route ApiSamples.odoo SyncReadings
     (Request None (Some ApiSamples.three_readings))
     ApiSamples.site).2 = Ok (HttpResponse 401 "Location Token requerido").
Proof. split_and!; vm_compute; reflexivity. Qed.

(** The printer that follows an item that is not an object is not
    created. *)
Example mixed_printers_on_site :
  (route ApiSamples.odoo SyncPrinters
     (Request (Some "tok-hq") (Some ApiSamples.mixed_printers))
     ApiSamples.site).2
  = Ok (Handled (Response "error" [] None
                   (Some (AttributeError "object has no attribute 'get'")))) ∧
  table (route ApiSamples.odoo SyncPrinters
           (Request (Some "tok-hq") (Some ApiSamples.mixed_printers))
           ApiSamples.site).1 "printer.device"
  = table ApiSamples.site "printer.device".
Proof. split; vm_compute; reflexivity. Qed.

End ApiFacts.

(** * Further properties *)

(** ** Sorting and filtering under a map that keeps the sort key *)

Section sort_under_map.
Context {A} (R : relation A) `{!∀ x y, Decision (R x y)} (f : A → A).
Hypothesis f_keeps : ∀ x y, R (f x) (f y) ↔ R x y.

Lemma list_merge_fmap l1 l2 :
  list_merge R (f <$> l1) (f <$> l2) = f <$> list_merge R l1 l2.
Proof.
  revert l2. induction l1 as [|x1 l1 IH1]; intros l2;
    [by rewrite fmap_nil, !list_merge_nil_l|].
  induction l2 as [|x2 l2 IH2]; [reflexivity|].
  rewrite !fmap_cons, !list_merge_cons.
  destruct (decide (R x1 x2)) as [HR|HR],
           (decide (R (f x1) (f x2))) as [HR'|HR'].
  - rewrite fmap_cons. f_equal. apply (IH1 (x2 :: l2)).
  - destruct HR'. by apply f_keeps.
  - destruct HR. by apply f_keeps.
  - rewrite fmap_cons. f_equal. apply IH2.
Qed.

Ltac refold_fmap :=
  repeat match goal with
         | |- context [list_fmap ?A ?B ?g ?l] =>
             progress change (list_fmap A B g l) with (g <$> l)
         end.

#[local] Abbreviation map_stack st :=
  ((λ o : option (list A), (λ l : list A, f <$> l) <$> o) <$> st).

Lemma merge_list_to_stack_fmap (st : list (option (list A))) (l : list A) :
  merge_list_to_stack R (map_stack st) (f <$> l) =
  map_stack (merge_list_to_stack R st l).
Proof.
  revert l. induction st as [|[l'|] st IH]; intros l; simpl; refold_fmap;
    [done| |done].
  by rewrite list_merge_fmap, IH.
Qed.

Lemma merge_stack_fmap (st : list (option (list A))) :
  merge_stack R (map_stack st) = f <$> merge_stack R st.
Proof.
  induction st as [|[l'|] st IH]; simpl; refold_fmap; [done| |done].
  by rewrite IH, list_merge_fmap.
Qed.

Lemma merge_sort_aux_fmap (st : list (option (list A))) (l : list A) :
  merge_sort_aux R (map_stack st) (f <$> l) = f <$> merge_sort_aux R st l.
Proof.
  revert st. induction l as [|x l IH]; intros st; simpl.
  - apply merge_stack_fmap.
  - rewrite <-IH. f_equal. apply (merge_list_to_stack_fmap st [x]).
Qed.

Lemma merge_sort_fmap l : merge_sort R (f <$> l) = f <$> merge_sort R l.
Proof. apply (merge_sort_aux_fmap [] l). Qed.

End sort_under_map.

Lemma filter_fmap_keep {A} (P : A → Prop) `{!∀ x, Decision (P x)}
    (f : A → A) (l : list A) :
  (∀ x, P (f x) ↔ P x) → filter P (f <$> l) = f <$> filter P l.
Proof.
  intros HP. induction l as [|x l IH]; [done|].
  rewrite fmap_cons, !filter_cons.
  destruct (decide (P x)) as [Hx|Hx], (decide (P (f x))) as [Hx'|Hx'].
  - by rewrite fmap_cons, IH.
  - destruct Hx'. by apply HP.
  - destruct Hx. by apply HP.
  - done.
Qed.

Lemma filter_fmap_none {A} (P : A → Prop) `{!∀ x, Decision (P x)}
    (f : A → A) (l : list A) :
  (∀ x, ¬ P (f x)) → filter P (f <$> l) = [].
Proof.
  intros HP. induction l as [|x l IH]; [done|].
  rewrite fmap_cons, filter_cons. by destruct (decide (P (f x))); [destruct (HP x)|].
Qed.

Lemma filter_none {A} (P : A → Prop) `{!∀ x, Decision (P x)} (l : list A) :
  (∀ x, x ∈ l → ¬ P x) → filter P l = [].
Proof.
  intros HP. induction l as [|x l IH]; [done|].
  rewrite filter_cons, decide_False by (apply HP; by left).
  apply IH. intros y Hy. apply HP. by right.
Qed.

Lemma rmap_ext {A B} (f g : A → result B) xs :
  (∀ x, f x = g x) → rmap f xs = rmap g xs.
Proof. intros H. induction xs as [|x xs IH]; simpl; [done|]. by rewrite H, IH. Qed.

(** ** The usage calculation and the billing marks *)

Module ReadingBillingFacts.
Import Reading ReadingBilling.

(** *** Rewriting the readings without touching what usage reads *)

Section same_counters.
Context (f : reading → reading).
Hypothesis f_printer : ∀ r, printer_id (f r) = printer_id r.
Hypothesis f_timestamp : ∀ r, timestamp (f r) = timestamp r.
Hypothesis f_counters : ∀ r, counter_ids (f r) = counter_ids r.

#[local] Abbreviation rewritten e :=
  {| printers := printers e; readings := f <$> readings e |}.

Lemma search_in_period_rewritten e pid df dte :
  search_in_period (rewritten e) pid df dte = f <$> search_in_period e pid df dte.
Proof.
  unfold search_in_period. simpl.
  rewrite filter_fmap_keep, merge_sort_fmap; [done| |].
  - intros x y. unfold by_timestamp. by rewrite !f_timestamp.
  - intros x. by rewrite f_printer, f_timestamp.
Qed.

Lemma search_previous_rewritten e pid df :
  search_previous (rewritten e) pid df = f <$> search_previous e pid df.
Proof.
  unfold search_previous. simpl.
  rewrite filter_fmap_keep, merge_sort_fmap.
  - by destruct (merge_sort _ _).
  - intros x y. unfold by_timestamp_desc. by rewrite !f_timestamp.
  - intros x. by rewrite f_printer, f_timestamp.
Qed.

Lemma mapped_counter_type_rewritten r :
  mapped_counter_type (f r) = mapped_counter_type r.
Proof. unfold mapped_counter_type. by rewrite f_counters. Qed.

Lemma get_counter_value_rewritten r k :
  get_counter_value (f r) k = get_counter_value r k.
Proof. unfold get_counter_value. by rewrite f_counters. Qed.

Lemma counter_types_in_period_rewritten rs :
  counter_types_in_period (f <$> rs) = counter_types_in_period rs.
Proof.
  unfold counter_types_in_period. generalize (@nil counter_type).
  induction rs as [|r rs IH]; intros acc; simpl; [done|].
  by rewrite mapped_counter_type_rewritten, IH.
Qed.

Lemma usage_of_counter_type_rewritten e p df rs t :
  usage_of_counter_type (rewritten e) p df (f <$> rs) t =
  usage_of_counter_type e p df rs t.
Proof.
  unfold usage_of_counter_type.
  rewrite filter_fmap_keep
    by (intros x; by rewrite mapped_counter_type_rewritten).
  rewrite fmap_last. destruct (last _) as [last_reading|]; simpl; [|done].
  rewrite get_counter_value_rewritten, search_previous_rewritten.
  destruct (search_previous e (p_id p) df) as [previous|]; simpl; [|done].
  by rewrite get_counter_value_rewritten.
Qed.

Lemma usage_of_printer_rewritten e df dte p :
  usage_of_printer (rewritten e) df dte p = usage_of_printer e df dte p.
Proof.
  unfold usage_of_printer.
  rewrite search_in_period_rewritten, counter_types_in_period_rewritten.
  assert (∀ l : list reading, is_empty (f <$> l) = is_empty l) as ->
    by (by intros []).
  destruct (is_empty (search_in_period _ _ _ _)); [done|].
  destruct (is_empty (counter_types_in_period _)); [done|].
  erewrite rmap_ext; [done|].
  intros t. apply usage_of_counter_type_rewritten.
Qed.

Lemma calculate_usage_rewritten e partner df dt :
  calculate_usage_by_printer (rewritten e) partner df dt =
  calculate_usage_by_printer e partner df dt.
Proof.
  unfold calculate_usage_by_printer. simpl.
  erewrite rmap_ext; [done|].
  intros p. apply usage_of_printer_rewritten.
Qed.

End same_counters.

(** X1. The usage of a period does not look at billing marks: after
    the readings of a partner and period were marked as billed by an
    invoice, [calculate_usage_by_printer] returns for every partner and
    period what it returned before. *)
Theorem billing_marks_do_not_change_usage e partner from_day to_day invoice
    now partner_id date_from date_to :
  calculate_usage_by_printer
    (Review.mark_readings e partner from_day to_day invoice now)
    partner_id date_from date_to =
  calculate_usage_by_printer e partner_id date_from date_to.
Proof.
  unfold Review.mark_readings.
  match goal with
  | |- calculate_usage_by_printer {| readings := ?g <$> _ |} _ _ _ = _ =>
      apply (calculate_usage_rewritten g)
  end; intros r; by case_decide.
Qed.

(** *** What an invoice does to the readings *)

Lemma not_pending_after_marking e partner from_day to_day invoice now :
  get_readings_for_billing
    (Review.mark_readings e partner from_day to_day invoice now) partner
    (from_day * seconds_per_day) (to_day * seconds_per_day) = [].
Proof.
  unfold get_readings_for_billing, Review.mark_readings. simpl.
  rewrite filter_fmap_none; [done|].
  intros r. unfold Review.reading_partner_id. simpl.
  case_decide as Hr; simpl; [by intros (_ & _ & _ & [=])|].
  intros (? & ? & ? & ?). apply Hr. split_and!; [done..|lia|done].
Qed.

(** X2. Once a review limited to unbilled readings has generated its
    invoice, [get_readings_for_billing] finds no reading of the partner
    left to bill between the two dates of the review. *)
Theorem invoiced_period_has_no_pending_readings now w w' :
  Review.only_not_billed (Review.self w) = true →
  Review.action_generate_invoice now w = Ok w' →
  get_readings_for_billing (Review.env w')
    (Review.partner_id (Review.self w))
    (Review.date_from (Review.self w) * seconds_per_day)
    (Review.date_to (Review.self w) * seconds_per_day) = [].
Proof.
  intros Honly. unfold Review.action_generate_invoice.
  case_decide; [done|].
  destruct (is_empty _); [done|].
  rewrite Honly. intros [= <-]. simpl.
  apply not_pending_after_marking.
Qed.

Lemma invoiced_period_has_no_pending_readings_witness :
  ∃ w', Review.action_generate_invoice 200000 Samples.office = Ok w' ∧
        get_readings_for_billing (Review.env w') 7
          (1 * seconds_per_day) (2 * seconds_per_day) = [].
Proof.
  eexists. split; [vm_compute; reflexivity|].
  apply (invoiced_period_has_no_pending_readings 200000 Samples.office);
    vm_compute; reflexivity.
Defined.

(** X3. Generating an invoice leaves the printers alone and rewrites
    only billing marks: with [only_not_billed], exactly the unbilled
    readings of the partner whose timestamp falls on a day from
    [date_from] to [date_to], the whole of both days included, are
    marked with the new invoice, and [action_unmark_billed] refuses each
    of them; every other reading, and every reading when the option is
    off, stays as it was. *)
Theorem invoice_marks_are_final now w w' :
  Review.action_generate_invoice now w = Ok w' →
  printers (Review.env w') = printers (Review.env w) ∧
  Forall2
    (λ r r',
       if decide (Review.only_not_billed (Review.self w) = true ∧
                  Review.reading_partner_id (Review.env w) r =
                    Some (Review.partner_id (Review.self w)) ∧
                  Review.date_from (Review.self w)
                    ≤ ReadingSpec.day_of (timestamp r) ∧
                  ReadingSpec.day_of (timestamp r)
                    ≤ Review.date_to (Review.self w) ∧
                  is_billed r = false)
       then r' = billed_by (Review.next_move_id (Review.moves w)) now r ∧
            Review.invoice_id (Review.self w') = invoice_id r' ∧
            action_unmark_billed r' =
              Raise (ValidationError
                "No se puede desmarcar una lectura que tiene una factura asociada")
       else r' = r)
    (readings (Review.env w)) (readings (Review.env w')).
Proof.
  unfold Review.action_generate_invoice.
  case_decide; [done|].
  destruct (is_empty _); [done|].
  intros [= <-]. simpl.
  destruct (Review.only_not_billed (Review.self w)); simpl.
  - split; [done|]. apply Forall2_fmap_r, Forall_Forall2_diag, Forall_forall.
    intros r _. unfold compose. cbv beta.
    pose proof (Z.div_mod (timestamp r) 86400 ltac:(lia)).
    pose proof (Z.mod_pos_bound (timestamp r) 86400 ltac:(lia)).
    unfold ReadingSpec.day_of, seconds_per_day.
    case_decide as Hr; case_decide as Hr'; try done.
    + destruct Hr as (_ & ? & ? & ? & ?). destruct Hr'.
      split_and!; [done|lia|lia|done].
    + destruct Hr' as (? & ? & ? & ?). destruct Hr.
      split_and!; [done|done|lia|lia|done].
  - split; [done|]. apply Forall_Forall2_diag, Forall_forall.
    by intros r _.
Qed.

Lemma invoice_marks_are_final_witness :
  ∃ w', Review.action_generate_invoice 200000 Samples.office = Ok w' ∧
        printers (Review.env w') = printers Samples.fleet ∧
        readings (Review.env w') =
          [unbilled_reading 1 1 10 [ReadingCounter Samples.total_type 100];
           billed_by 1 200000
             (unbilled_reading 2 1 200000
                [ReadingCounter Samples.total_type 150;
                 ReadingCounter Samples.color_type 5]);
           billed_by 1 200000
             (unbilled_reading 3 1 100000
                [ReadingCounter Samples.total_type 120]);
           billed_by 1 200000 (unbilled_reading 4 2 100000 [])].
Proof.
  eexists. split; [vm_compute; reflexivity|].
  destruct (invoice_marks_are_final 200000 Samples.office _ eq_refl)
    as [Hp Hr].
  split; [exact Hp|]. vm_compute. reflexivity.
Defined.

(** X4. A mark set by hand can be taken back: on a reading that is not
    billed and has no invoice, [action_mark_as_billed] followed by
    [action_unmark_billed] succeeds and gives the reading back with its
    printer, timestamp and counters, not billed, without invoice and
    with the billing date cleared; that is the reading itself when it
    had no billing date. *)
Theorem manual_billing_mark_round_trip now r :
  is_billed r = false → invoice_id r = None →
  action_unmark_billed (action_mark_as_billed now r) =
    Ok (MkReading (reading_id r) (printer_id r) (timestamp r)
          (counter_ids r) false None None) ∧
  (billed_date r = None →
   action_unmark_billed (action_mark_as_billed now r) = Ok r).
Proof.
  destruct r as [id pid ts cs billed inv date]. simpl.
  intros -> ->. split; [done|]. by intros ->.
Qed.

Lemma manual_billing_mark_round_trip_witness :
  action_unmark_billed
    (action_mark_as_billed 5
       (MkReading 4 2 100000 [] false None (Some 3))) =
    Ok (MkReading 4 2 100000 [] false None None) ∧
  (billed_date (MkReading 4 2 100000 [] false None (Some 3)) = None →
   action_unmark_billed
     (action_mark_as_billed 5
        (MkReading 4 2 100000 [] false None (Some 3))) =
   Ok (MkReading 4 2 100000 [] false None (Some 3))).
Proof.
  apply (manual_billing_mark_round_trip 5
           (MkReading 4 2 100000 [] false None (Some 3))); reflexivity.
Defined.

(** *** The constraint on timestamps *)

Lemma strictly_sorted_of_checked e (l : list reading) :
  Forall (λ r, _check_timestamp_order e r = Ok ()) l →
  (∀ r, r ∈ l → r ∈ readings e) →
  (∀ a b, a ∈ l → b ∈ l → printer_id a = printer_id b) →
  NoDup (reading_id <$> l) →
  StronglySorted by_timestamp l →
  StronglySorted (λ a b, timestamp a < timestamp b) l.
Proof.
  intros Hchk Hin Hpid Hnd Hs.
  induction Hs as [|x l Hs IH Hx]; [constructor|].
  apply Forall_cons in Hchk as [Hcx Hchk].
  rewrite fmap_cons in Hnd. apply NoDup_cons in Hnd as [Hxl Hnd].
  constructor.
  - apply IH; [done| | |done].
    + intros r Hr. apply Hin. by right.
    + intros a b Ha Hb. apply Hpid; by right.
  - rewrite Forall_forall in Hx |- *. intros y Hy.
    specialize (Hx y Hy). unfold by_timestamp in Hx.
    destruct (decide (timestamp x = timestamp y)) as [Heq|]; [|lia].
    exfalso. unfold _check_timestamp_order in Hcx.
    destruct (is_empty _) eqn:Hempty in Hcx; [|done].
    apply is_empty_true in Hempty.
    assert (y ∈ filter (λ r, printer_id r = printer_id x ∧
                             timestamp r = timestamp x ∧
                             reading_id r ≠ reading_id x) (readings e))
      as Hy'; [|rewrite Hempty in Hy'; by apply not_elem_of_nil in Hy'].
    apply list_elem_of_filter. split_and!.
    + apply Hpid; [by right|by left].
    + done.
    + intros Hid. apply Hxl. rewrite <-Hid. by apply list_elem_of_fmap_2.
    + apply Hin. by right.
Qed.

(** X5. When the reading ids are distinct and every reading passes
    [_check_timestamp_order], the readings of a printer inside a period
    come out of the search in strictly increasing timestamp order: no
    two of them share a timestamp, so the period has one last reading. *)
Theorem checked_timestamps_strictly_ordered e pid date_from date_to_end :
  NoDup (reading_id <$> readings e) →
  Forall (λ r, _check_timestamp_order e r = Ok ()) (readings e) →
  StronglySorted (λ a b, timestamp a < timestamp b)
    (search_in_period e pid date_from date_to_end).
Proof.
  intros Hnd Hchk.
  apply (strictly_sorted_of_checked e).
  - rewrite Forall_forall in Hchk |- *. intros r Hr. apply Hchk.
    by apply ReadingFacts.elem_of_search_in_period in Hr as [? _].
  - intros r Hr.
    by apply ReadingFacts.elem_of_search_in_period in Hr as [? _].
  - intros a b Ha Hb.
    apply ReadingFacts.elem_of_search_in_period in Ha as (_ & -> & _).
    by apply ReadingFacts.elem_of_search_in_period in Hb as (_ & -> & _).
  - unfold search_in_period.
    rewrite (merge_sort_Permutation by_timestamp).
    apply (sublist_NoDup _ (reading_id <$> readings e)); [done|].
    apply fmap_sublist, sublist_filter.
  - apply ReadingFacts.search_in_period_sorted.
Qed.

Lemma checked_timestamps_strictly_ordered_witness :
  StronglySorted (λ a b, timestamp a < timestamp b)
    (search_in_period Samples.fleet 1 0 300000).
Proof.
  apply (checked_timestamps_strictly_ordered Samples.fleet 1 0 300000).
  - apply (bool_decide_unpack _). vm_compute. exact I.
  - repeat constructor.
Defined.

End ReadingBillingFacts.

(** ** The price table *)

Module PriceTableFacts.
Import Prices PriceTable.

Lemma lookup_foldl_insert (l : list partner_counter_price) k :
  NoDup (counter_type_id <$> l) →
  foldl (λ d price, <[counter_type_id price := unit_price price]> d)
        (∅ : gmap Z Z) l !! k
  = unit_price <$> head (filter (λ pr, counter_type_id pr = k) l).
Proof.
  induction l as [|x l IH] using rev_ind; [done|].
  rewrite fmap_app, NoDup_app. intros (Hnd & Hx & _).
  rewrite foldl_app, filter_app. simpl.
  destruct (decide (counter_type_id x = k)) as [<-|Hne].
  - rewrite lookup_insert_eq.
    assert (filter (λ pr, counter_type_id pr = counter_type_id x) l = [])
      as ->; [|rewrite filter_cons, decide_True by done; done].
    apply filter_none. intros pr Hpr Heq.
    apply (Hx (counter_type_id x)); [|simpl; by left].
    rewrite <-Heq. by apply list_elem_of_fmap_2.
  - rewrite lookup_insert_ne by done. rewrite IH by done.
    rewrite filter_cons, decide_False by done.
    by rewrite filter_nil, app_nil_r.
Qed.

(** X6. Under the uniqueness of (partner, counter type) that the model
    declares, the dict of [get_all_prices_for_partner] and the single
    lookup [get_price_for_partner_counter] agree on every counter type:
    the dict holds exactly the configured prices of the partner, and
    reading it with default 0 gives what the single lookup returns. *)
Theorem price_table_agrees_with_lookup prices partner counter_type :
  partner_counter_unique prices →
  (is_Some (get_all_prices_for_partner prices partner !! counter_type) ↔
   priced prices partner counter_type) ∧
  default 0 (get_all_prices_for_partner prices partner !! counter_type) =
  get_price_for_partner_counter prices partner counter_type.
Proof.
  intros Huniq.
  unfold get_all_prices_for_partner, get_price_for_partner_counter, priced.
  rewrite lookup_foldl_insert, list_filter_filter.
  - assert (filter (λ pr, counter_type_id pr = counter_type ∧
                          partner_id pr = partner) prices =
            filter (λ pr, partner_id pr = partner ∧
                          counter_type_id pr = counter_type) prices) as ->
      by (apply list_filter_iff; tauto).
    split; [|by destruct (head _)].
    rewrite Exists_exists. split.
    + intros [v Hv]. destruct (head _) as [pr|] eqn:Hhead; [|done].
      apply head_Some_elem_of, list_elem_of_filter in Hhead as [? ?].
      eauto.
    + intros (pr & Hin & Hpr).
      destruct (head _) as [pr'|] eqn:Hhead; [by eexists|].
      apply head_None in Hhead.
      assert (pr ∈ filter (λ pr, partner_id pr = partner ∧
                                 counter_type_id pr = counter_type) prices)
        as Hin' by (by apply list_elem_of_filter).
      rewrite Hhead in Hin'. by apply not_elem_of_nil in Hin'.
  - unfold partner_counter_unique in Huniq.
    induction prices as [|pr prices IH]; [constructor|].
    rewrite fmap_cons in Huniq. apply NoDup_cons in Huniq as [Hpr Hnd].
    rewrite filter_cons. case_decide as Hp; [|by apply IH].
    rewrite fmap_cons. apply NoDup_cons. split; [|by apply IH].
    intros (pr' & Heq & [Hp' Hin]%list_elem_of_filter)%list_elem_of_fmap.
    apply Hpr. apply list_elem_of_fmap. exists pr'. split; [|done].
    congruence.
Qed.

Lemma price_table_agrees_with_lookup_witness :
  (is_Some (get_all_prices_for_partner Samples.price_list 7 !! 1) ↔
   priced Samples.price_list 7 1) ∧
  default 0 (get_all_prices_for_partner Samples.price_list 7 !! 1) =
  get_price_for_partner_counter Samples.price_list 7 1.
Proof.
  apply (price_table_agrees_with_lookup Samples.price_list 7 1).
  apply (bool_decide_unpack _). vm_compute. exact I.
Defined.

Lemma get_price_nonneg prices partner counter_type :
  Forall (λ pr, _check_unit_price pr = Ok ()) prices →
  0 ≤ get_price_for_partner_counter prices partner counter_type.
Proof.
  intros Hchk. unfold get_price_for_partner_counter.
  destruct (head _) as [pr|] eqn:Hhead; [|done].
  apply head_Some_elem_of, list_elem_of_filter in Hhead as [_ Hin].
  rewrite Forall_forall in Hchk. specialize (Hchk pr Hin).
  unfold _check_unit_price in Hchk. case_decide; [done|lia].
Qed.

(** X7. When every configured price passes [_check_unit_price], the
    lines created from usage data never bill a negative amount: each
    counter has a subtotal of at least 0 and so has each line's
    estimated amount. *)
Theorem checked_prices_give_nonnegative_amounts prices partner usage ls :
  Forall (λ pr, _check_unit_price pr = Ok ()) prices →
  ReviewLine.create_lines prices partner usage = Ok ls →
  Forall (λ l, 0 ≤ ReviewLine.estimated_amount l ∧
               Forall (λ c, 0 ≤ ReviewCounter.subtotal c)
                      (ReviewLine.counter_line_ids l)) ls.
Proof.
  intros Hchk Hls%ReviewFacts.create_lines_priced.
  eapply Forall_impl; [exact Hls|]. intros l [_ Hl]. simpl.
  assert (Forall (λ c, 0 ≤ ReviewCounter.subtotal c)
                 (ReviewLine.counter_line_ids l)) as Hsub.
  { eapply Forall_impl; [exact Hl|]. intros c Hc. simpl.
    unfold ReviewCounter.subtotal. unfold ReviewLine.priced_by in Hc.
    pose proof (ReviewFacts.counter_total_pages_nonneg c).
    pose proof (get_price_nonneg prices partner
                  (Reading.ct_id (ReviewCounter.counter_type_id c)) Hchk).
    rewrite Hc. lia. }
  split; [|done]. unfold ReviewLine.estimated_amount.
  destruct (ReviewLine.include_in_invoice l); [|done].
  by apply ReviewFacts.Zsum_nonneg, Forall_fmap.
Qed.

Lemma checked_prices_give_nonnegative_amounts_witness :
  match Reading.calculate_usage_by_printer Samples.fleet 7 86400
          (Reading.ADatetime 172800) with
  | Ok usage =>
      match ReviewLine.create_lines Samples.price_list 7 usage with
      | Ok ls =>
          ls ≠ [] ∧
          Forall (λ l, 0 ≤ ReviewLine.estimated_amount l ∧
                       Forall (λ c, 0 ≤ ReviewCounter.subtotal c)
                              (ReviewLine.counter_line_ids l)) ls
      | Raise _ => False
      end
  | Raise _ => False
  end.
Proof.
  destruct (Reading.calculate_usage_by_printer _ _ _ _) as [usage|] eqn:Hu;
    [|by vm_compute in Hu].
  destruct (ReviewLine.create_lines _ _ usage) as [ls|] eqn:Hls.
  - split.
    + intros ->. vm_compute in Hu. injection Hu as <-.
      by vm_compute in Hls.
    + apply (checked_prices_give_nonnegative_amounts
               Samples.price_list 7 usage ls); [repeat constructor|done].
  - vm_compute in Hu. injection Hu as <-. by vm_compute in Hls.
Defined.

End PriceTableFacts.

(** ** More about reviews *)

Module ReviewMoreFacts.
Import ReviewLine Review.

(** X8. When a review without [group_by_location] generates an invoice,
    the invoice has one line for each line of the review that is
    included and has pages, in the order of the review: quantity 1, the
    line's estimated amount as [price_unit], made out for the printer's
    name and location; the prices add up to the review's
    [total_amount]. *)
Theorem invoice_lines_by_printer now w w' :
  group_by_location (self w) = false →
  action_generate_invoice now w = Ok w' →
  let billed := filter (λ l, include_in_invoice l = true ∧ 0 < total_pages l)
                       (line_ids (self w)) in
  ∃ invoice,
    moves w' = moves w ++ [invoice] ∧
    invoice_id (self w') = Some (move_id invoice) ∧
    move_partner_id invoice = partner_id (self w) ∧
    Forall2 (λ l il,
               quantity il = 1 ∧ price_unit il = estimated_amount l ∧
               invoice_location il = location_key l ∧
               ∃ counters notes,
                 il_name il =
                   PrinterService (printer_name l) (location_key l)
                     (date_from (self w)) (date_to (self w)) counters
                     (total_pages l) (name (self w)) notes)
            billed (invoice_line_ids invoice) ∧
    Zsum (price_unit <$> invoice_line_ids invoice) = total_amount (self w').
Proof.
  intros Hgroup. unfold action_generate_invoice.
  case_decide as Hst; [done|].
  set (billed := filter _ (line_ids (self w))).
  destruct (is_empty billed) eqn:Hempty; [done|].
  rewrite Hgroup. intros [= <-]. simpl. eexists. split; [done|].
  split; [done|]. split; [done|]. simpl. split.
  - unfold printer_invoice_lines. apply Forall2_fmap_r.
    apply Forall_Forall2_diag, Forall_forall. intros l _. simpl.
    split_and!; [done..|]. by eexists _, _.
  - unfold printer_invoice_lines. rewrite <-list_fmap_compose.
    unfold compose. simpl. unfold total_amount, included_lines. simpl.
    apply ReviewFacts.billed_amount_is_total.
Qed.

Lemma invoice_lines_by_printer_witness :
  ∃ w', action_generate_invoice 200000 MoreSamples.office_by_printer = Ok w' ∧
    ∃ invoice,
      moves w' = [invoice] ∧
      (price_unit <$> invoice_line_ids invoice) = [150; 60; 20] ∧
      Zsum (price_unit <$> invoice_line_ids invoice) = total_amount (self w').
Proof.
  eexists. split; [vm_compute; reflexivity|].
  destruct (invoice_lines_by_printer 200000 MoreSamples.office_by_printer
              _ eq_refl eq_refl)
    as (invoice & Hmoves & _ & _ & _ & Hsum).
  exists invoice. split; [exact Hmoves|]. split; [|exact Hsum].
  vm_compute in Hmoves. by injection Hmoves as <-.
Defined.

(** *** Invoices are kept *)

Lemma next_move_id_fresh ms : next_move_id ms ∉ move_id <$> ms.
Proof.
  intros Hin%ApiFacts.foldr_max_ge. unfold next_move_id in Hin. lia.
Qed.

(** X9. Whatever buttons are pressed on a review, in whatever order:
    the invoices that exist are kept as they are and new ones are only
    appended, each with an id of its own; the invoice attached to the
    review is always one of them; a review in state 'invoiced' has an
    invoice attached; and the partner and the period of the review
    never change. *)
Theorem review_actions_keep_invoices now uid w actions :
  NoDup (move_id <$> moves w) →
  (∀ i, invoice_id (self w) = Some i → i ∈ move_id <$> moves w) →
  (state (self w) = invoiced → is_Some (invoice_id (self w))) →
  let w' := run_all now uid w actions in
  moves w `prefix_of` moves w' ∧
  NoDup (move_id <$> moves w') ∧
  (∀ i, invoice_id (self w') = Some i → i ∈ move_id <$> moves w') ∧
  (state (self w') = invoiced → is_Some (invoice_id (self w'))) ∧
  partner_id (self w') = partner_id (self w) ∧
  date_from (self w') = date_from (self w) ∧
  date_to (self w') = date_to (self w).
Proof.
  revert w. unfold run_all.
  induction actions as [|a actions IH]; intros w Hnd Hatt Hinv; simpl.
  { by split_and!. }
  assert (moves w `prefix_of` moves (step now uid w a) ∧
          NoDup (move_id <$> moves (step now uid w a)) ∧
          (∀ i, invoice_id (self (step now uid w a)) = Some i →
                i ∈ move_id <$> moves (step now uid w a)) ∧
          (state (self (step now uid w a)) = invoiced →
           is_Some (invoice_id (self (step now uid w a)))) ∧
          partner_id (self (step now uid w a)) = partner_id (self w) ∧
          date_from (self (step now uid w a)) = date_from (self w) ∧
          date_to (self (step now uid w a)) = date_to (self w))
    as (Hpre & Hnd' & Hatt' & Hinv' & Hp & Hf & Ht).
  { unfold step.
    destruct (run now uid a w) as [w1|] eqn:Hrun; [|by split_and!].
    destruct a; simpl in Hrun.
    - unfold action_confirm in Hrun.
      destruct (is_empty _); [done|]. injection Hrun as <-. simpl.
      by split_and!.
    - unfold action_generate_invoice in Hrun.
      case_decide; [done|]. destruct (is_empty _); [done|].
      injection Hrun as <-. simpl. split_and!; try done.
      + by apply prefix_app_r.
      + rewrite fmap_app. apply NoDup_app. split_and!; [done| |].
        * intros i Hi [->|[]%not_elem_of_nil]%elem_of_cons.
          by apply next_move_id_fresh in Hi.
        * apply NoDup_singleton.
      + intros i [= <-]. rewrite fmap_app. apply elem_of_app. right.
        by left.
    - unfold action_recalculate_all in Hrun.
      case_decide as Hst; [done|].
      destruct (Reading.calculate_usage_by_printer _ _ _ _); [|done].
      simpl in Hrun. destruct (create_lines _ _ _); [|done].
      simpl in Hrun. injection Hrun as <-. simpl. by split_and!.
    - unfold action_cancel in Hrun. case_decide; [done|].
      injection Hrun as <-. simpl. by split_and!.
    - unfold action_set_to_draft in Hrun.
      destruct (invoice_id (self w)) eqn:Hi; [done|].
      injection Hrun as <-. simpl. rewrite Hi. by split_and!. }
  destruct (IH (step now uid w a) Hnd' Hatt' Hinv')
    as (Hpre2 & ? & ? & ? & Hp2 & Hf2 & Ht2).
  split_and!; try done; try congruence.
  by etrans.
Qed.

Lemma review_actions_keep_invoices_witness :
  let w' := run_all 200000 1 Samples.office
              [GenerateInvoice; Confirm; GenerateInvoice; SetToDraft;
               Cancel; RecalculateAll] in
  moves Samples.office `prefix_of` moves w' ∧
  NoDup (move_id <$> moves w') ∧
  (∀ i, invoice_id (self w') = Some i → i ∈ move_id <$> moves w') ∧
  (state (self w') = invoiced → is_Some (invoice_id (self w'))) ∧
  partner_id (self w') = partner_id (self Samples.office) ∧
  date_from (self w') = date_from (self Samples.office) ∧
  date_to (self w') = date_to (self Samples.office).
Proof.
  apply (review_actions_keep_invoices 200000 1 Samples.office).
  - apply NoDup_nil_2.
  - intros i. by vm_compute.
  - by vm_compute.
Defined.

(** *** The wizard's review *)

(** X10. A review the billing wizard has just created is what
    [action_recalculate_all] computes: on the same readings and prices
    the recalculation returns it unchanged, and it restores its lines
    after any edit made to the lines of the draft. *)
Theorem recalculation_restores_the_wizard_lines e prices review_name wz
    review moves edited :
  Wizard.action_generate_invoice e prices review_name wz = Ok review →
  action_recalculate_all (World (set_lines review edited) moves e prices) =
  Ok (World review moves e prices).
Proof.
  unfold Wizard.action_generate_invoice, action_recalculate_all.
  destruct (Wizard.partner_id wz) as [partner|]; [|done].
  destruct (Reading.calculate_usage_by_printer _ _ _ _) as [usage|] eqn:Hu;
    [|done].
  simpl. destruct (is_empty usage); [done|].
  destruct (create_lines prices partner usage) as [ls|] eqn:Hls; [|done].
  simpl. intros [= <-]. simpl. rewrite Hu. simpl. rewrite Hls. done.
Qed.

Lemma recalculation_restores_the_wizard_lines_witness :
  ∃ review,
    Wizard.action_generate_invoice Samples.fleet Samples.price_list
      "REV/0003" Samples.wizard_7 = Ok review ∧
    action_recalculate_all
      (World (set_lines review []) [] Samples.fleet Samples.price_list) =
    Ok (World review [] Samples.fleet Samples.price_list).
Proof.
  eexists. split; [vm_compute; reflexivity|].
  apply (recalculation_restores_the_wizard_lines Samples.fleet
           Samples.price_list "REV/0003" Samples.wizard_7).
  vm_compute. reflexivity.
Defined.

(** X11. A review created by the wizard is a draft without invoice
    that has one line, included in the invoice, for each printer of the
    usage data, of which there is at least one; so [action_confirm]
    accepts it. *)
Theorem wizard_review_can_be_confirmed e prices review_name wz review now uid
    moves :
  Wizard.action_generate_invoice e prices review_name wz = Ok review →
  state review = draft ∧ invoice_id review = None ∧
  Some (partner_id review) = Wizard.partner_id wz ∧
  Forall (λ l, include_in_invoice l = true) (line_ids review) ∧
  (∃ usage,
     Reading.calculate_usage_by_printer e (partner_id review)
       (date_from review * Reading.seconds_per_day)
       (Reading.ADatetime (date_to review * Reading.seconds_per_day)) =
       Ok usage ∧
     usage ≠ [] ∧
     printer_id <$> line_ids review = Reading.pu_printer <$> usage) ∧
  ∃ w', action_confirm now uid (World review moves e prices) = Ok w' ∧
        state (self w') = confirmed ∧ line_ids (self w') = line_ids review.
Proof.
  unfold Wizard.action_generate_invoice.
  destruct (Wizard.partner_id wz) as [partner|]; [|done].
  destruct (Reading.calculate_usage_by_printer _ _ _ _) as [usage|] eqn:Hu;
    [|done].
  simpl. destruct (is_empty usage) eqn:Hempty; [done|].
  destruct (create_lines prices partner usage) as [ls|] eqn:Hls; [|done].
  simpl. intros [= <-]. simpl.
  assert (printer_id <$> ls = Reading.pu_printer <$> usage) as Hprinters.
  { clear -Hls. unfold create_lines in Hls. apply rmap_Ok_inv in Hls.
    induction Hls as [|u l us ls' Hl _ IH]; [done|].
    rewrite !fmap_cons, IH. f_equal.
    destruct (rmap _ (Reading.counters u)); [|done].
    simpl in Hl. by injection Hl as <-. }
  split_and!; try done.
  - eapply Forall_impl; [by apply ReviewFacts.create_lines_priced in Hls|].
    by intros l [? _].
  - exists usage. split_and!; [done| |done]. by apply is_empty_false.
  - unfold action_confirm. simpl.
    destruct ls as [|l ls]; [|by eexists].
    destruct usage; [done|discriminate Hprinters].
Qed.

Lemma wizard_review_can_be_confirmed_witness :
  ∃ review,
    Wizard.action_generate_invoice Samples.fleet Samples.price_list
      "REV/0003" Samples.wizard_7 = Ok review ∧
    ∃ w', action_confirm 200000 1
            (World review [] Samples.fleet Samples.price_list) = Ok w' ∧
          state (self w') = confirmed ∧ line_ids (self w') = line_ids review.
Proof.
  eexists. split; [vm_compute; reflexivity|].
  apply (wizard_review_can_be_confirmed Samples.fleet Samples.price_list
           "REV/0003" Samples.wizard_7).
  vm_compute. reflexivity.
Defined.

End ReviewMoreFacts.

(** ** More about the sync endpoints *)

Module ApiLoopFacts.
Import Api.

(** *** Items that are objects *)

Lemma endpoint_step_object pf ep location item s :
  is_object item → ∃ s', endpoint_step pf ep location item s = (s', Ok ()).
Proof.
  destruct item as [| | | | |fields]; try done. intros _.
  assert (∀ (body : M unit) what key,
            ∃ s', try_except body
                    (λ e, key ←m lift (py_get_default key (JStr "unknown")
                                                      (JObj fields));
                          append_error (Failure what key e)) s = (s', Ok ()))
    as Hstep.
  { intros body what key. unfold try_except.
    destruct (body s) as [s1 [[]|e]]; by eexists. }
  destruct ep; apply Hstep.
Qed.

Lemma for_each_objects pf ep location items s :
  Forall is_object items →
  ∃ s', for_each (endpoint_step pf ep location) items s = (s', Ok ()).
Proof.
  intros Hitems. revert s.
  induction Hitems as [|item items Hitem _ IH]; intros s; simpl.
  - by eexists.
  - unfold bind.
    destruct (endpoint_step_object pf ep location item s Hitem) as [s1 ->].
    apply IH.
Qed.

Ltac answered s1 :=
  unfold make_response; simpl;
  destruct (errors s1) eqn:?; simpl;
  eexists _, _; (split; [reflexivity|]); simpl;
  split_and!; try done;
  first [left; split_and!; congruence|right; split_and!; congruence].

(** X12. A request whose payload lists only objects is always answered
    by the endpoint itself: whatever goes wrong with an item is caught
    by the loop, so the answer is 'success' when no error was recorded
    and 'partial_success' with the recorded errors otherwise, never the
    'error' of the outer handler, and 'total' counts the items. For
    sync_printers this needs the final write on the location to be
    accepted. *)
Theorem object_items_never_fail_the_request pf ep location req fields items s :
  (ep = SyncPrinters →
   ∀ d id r, validate pf "printer.location" d id r = Accept) →
  body req = Some (JObj fields) →
  dict_get (payload_key ep) fields = Some (JArr items) →
  Forall is_object items →
  ∃ s' r,
    endpoint_body pf ep location req s = (s', Ok r) ∧
    message r = None ∧
    errors s' = errors (for_each (endpoint_step pf ep location) items s).1 ∧
    ((status r = "success" ∧ response_errors r = None ∧ errors s' = []) ∨
     (status r = "partial_success" ∧ response_errors r = Some (errors s') ∧
      errors s' ≠ [])) ∧
    dict_get "total" (info r) = Some (JNum (Z.of_nat (length items))).
Proof.
  intros Hpf Hbody Hkey Hitems.
  destruct (for_each_objects pf ep location items s Hitems) as [s1 Hloop].
  rewrite Hloop. simpl.
  destruct ep; simpl in Hkey, Hloop |- *.
  - unfold sync_printers, outer_except, try_except, sync_printers_try, bind,
      lift, json_loads, py_get_default, get_state, ret.
    rewrite Hbody, Hkey. simpl. rewrite Hloop.
    unfold orm_write. simpl.
    destruct (table (db s1) "printer.location" !! location.1) as [old|].
    + rewrite (Hpf eq_refl). answered s1.
    + answered s1.
  - unfold sync_readings, outer_except, try_except, sync_readings_try, bind,
      lift, json_loads, py_get_default, get_state, ret.
    rewrite Hbody, Hkey. simpl. rewrite Hloop. answered s1.
  - unfold sync_consumables, outer_except, try_except, sync_consumables_try,
      bind, lift, json_loads, py_get_default, get_state, ret.
    rewrite Hbody, Hkey. simpl. rewrite Hloop. answered s1.
  - unfold sync_alerts, outer_except, try_except, sync_alerts_try, bind,
      lift, json_loads, py_get_default, get_state, ret.
    rewrite Hbody, Hkey. simpl. rewrite Hloop. answered s1.
Qed.

Lemma object_items_never_fail_the_request_witness :
  let req := Request (Some "tok-hq") (Some ApiSamples.three_readings) in
  ∃ s' r,
    endpoint_body ApiSamples.odoo SyncReadings ApiSamples.hq req
      (start ApiSamples.site) = (s', Ok r) ∧
    message r = None ∧
    ((status r = "success" ∧ response_errors r = None ∧ errors s' = []) ∨
     (status r = "partial_success" ∧ response_errors r = Some (errors s') ∧
      errors s' ≠ [])) ∧
    dict_get "total" (info r) = Some (JNum 3).
Proof.
  intros req.
  assert (SyncReadings = SyncPrinters →
          ∀ d id r, validate ApiSamples.odoo "printer.location" d id r = Accept)
    as Hpf by done.
  destruct (object_items_never_fail_the_request ApiSamples.odoo SyncReadings
              ApiSamples.hq req _ _ (start ApiSamples.site) Hpf
              eq_refl eq_refl)
    as (s' & r & Hrun & Hmsg & _ & Hstatus & Htotal).
  { repeat constructor. }
  exists s', r. split_and!; [exact Hrun|exact Hmsg|exact Hstatus|exact Htotal].
Defined.

End ApiLoopFacts.
